(** * Statistical analysis engine of the cricket height study

    A shallow embedding of [scripts/run_analysis.py] (and of the breakpoint
    search of [scripts/generate_figures.py]) together with the properties
    of the engine that the specification states.

    Conventions of the embedding.
    - A pandas [DataFrame] is a list of rows; a row associates column names
      with cells; a missing value (NaN in a column) is the cell [NA].
    - Finite floating-point values are idealised as exact rationals; the
      special values that numpy arithmetic produces instead of raising
      (infinities and NaN) are kept, because the code branches on them.
    - Library routines (statsmodels, scipy, pandas aggregations) are the
      fields of the interface [Libs]; the code of the repository is
      translated function by function on top of it.
    - A Python [dict] is an association list in insertion order. *)

From stdpp Require Import base list.
From Stdlib Require Import ZArith QArith Qround Qabs Qminmax Lqa Lia Bool.
From Stdlib Require Import String Ascii List Sorted DecimalString.
Import ListNotations.

Open Scope Z_scope.
Open Scope Q_scope.
Open Scope string_scope.
Open Scope list_scope.

(* ================================================================== *)
(** * Numbers *)
(* ================================================================== *)

(** A Python / numpy float: a finite value, or one of the IEEE specials. *)
Inductive float : Type :=
| Fin (q : Q)
| PInf
| NInf
| NaN.

Definition of_Z (z : Z) : float := Fin (inject_Z z).

Definition isnan (x : float) : bool :=
  match x with NaN => true | _ => false end.

Definition fneg (x : float) : float :=
  match x with
  | Fin q => Fin (- q)
  | PInf => NInf
  | NInf => PInf
  | NaN => NaN
  end.

Definition fadd (x y : float) : float :=
  match x, y with
  | NaN, _ | _, NaN => NaN
  | Fin a, Fin b => Fin (a + b)
  | PInf, NInf | NInf, PInf => NaN
  | PInf, _ | _, PInf => PInf
  | NInf, _ | _, NInf => NInf
  end.

Definition fsub (x y : float) : float := fadd x (fneg y).

(** Sign of a rational as a comparison with zero. *)
Definition Qsign (q : Q) : comparison := Qcompare q 0.

Definition fmul (x y : float) : float :=
  match x, y with
  | NaN, _ | _, NaN => NaN
  | Fin a, Fin b => Fin (a * b)
  | Fin a, PInf | PInf, Fin a =>
      match Qsign a with Eq => NaN | Gt => PInf | Lt => NInf end
  | Fin a, NInf | NInf, Fin a =>
      match Qsign a with Eq => NaN | Gt => NInf | Lt => PInf end
  | PInf, PInf | NInf, NInf => PInf
  | PInf, NInf | NInf, PInf => NInf
  end.

(** numpy division: a zero divisor gives an infinity or NaN, no exception
    (the script silences the RuntimeWarning). *)
Definition fdiv (x y : float) : float :=
  match x, y with
  | NaN, _ | _, NaN => NaN
  | Fin a, Fin b =>
      match Qsign b with
      | Eq => match Qsign a with Eq => NaN | Gt => PInf | Lt => NInf end
      | _ => Fin (a / b)
      end
  | Fin _, (PInf | NInf) => Fin 0
  | (PInf | NInf), (PInf | NInf) => NaN
  | PInf, Fin b => match Qsign b with Lt => NInf | _ => PInf end
  | NInf, Fin b => match Qsign b with Lt => PInf | _ => NInf end
  end.

(** [x < y]; every comparison with NaN is false. *)
Definition fltb (x y : float) : bool :=
  match x, y with
  | NaN, _ | _, NaN => false
  | Fin a, Fin b => match Qcompare a b with Lt => true | _ => false end
  | _, NInf => false
  | PInf, _ => false
  | NInf, _ => true
  | Fin _, PInf => true
  end.

Definition fgtb (x y : float) : bool := fltb y x.


(** Python's builtin [min(a, b)]: returns [b] only when [b < a]. *)
Definition pymin (a b : float) : float := if fltb b a then b else a.

(** Equality of floats as values (rationals up to [Qeq]). *)
Definition feq (x y : float) : Prop :=
  match x, y with
  | Fin a, Fin b => a == b
  | PInf, PInf | NInf, NInf | NaN, NaN => True
  | _, _ => False
  end.

(** ** Rounding to a number of decimals *)

Fixpoint pow10 (nd : nat) : positive :=
  match nd with
  | O => 1%positive
  | S k => (10 * pow10 k)%positive
  end.

(** Nearest integer, ties to the even neighbour (Python's [round]). *)
Definition round_half_even (q : Q) : Z :=
  let f := Qfloor q in
  match Qcompare (q - inject_Z f) (1 # 2) with
  | Lt => f
  | Gt => (f + 1)%Z
  | Eq => if Z.even f then f else (f + 1)%Z
  end.

Definition Qround_nd (nd : nat) (q : Q) : Q :=
  Qmake (round_half_even (q * inject_Z (Zpos (pow10 nd)))) (pow10 nd).

(** [round(x, nd)] on a float; the specials are returned unchanged. *)
Definition pyround (x : float) (nd : nat) : float :=
  match x with
  | Fin q => Fin (Qround_nd nd q)
  | _ => x
  end.

(** A value carries at most [nd] decimals. *)
Definition decimals (nd : nat) (x : float) : Prop :=
  match x with
  | Fin q => exists z : Z, q == Qmake z (pow10 nd)
  | _ => True
  end.


(* ================================================================== *)
(** * Strings *)
(* ================================================================== *)

(** [s.replace(a, b)] for one-character [a] and [b]. *)
Fixpoint str_replace (a b : ascii) (s : string) : string :=
  match s with
  | EmptyString => EmptyString
  | String c rest =>
      String (if Ascii.eqb c a then b else c) (str_replace a b rest)
  end.

(** [s.split(sep)] for a one-character separator: never an empty list. *)
Fixpoint str_split (sep : ascii) (s : string) : list string :=
  match s with
  | EmptyString => [EmptyString]
  | String c rest =>
      if Ascii.eqb c sep then EmptyString :: str_split sep rest
      else match str_split sep rest with
           | [] => [String c EmptyString]
           | w :: ws => String c w :: ws
           end
  end.

(** The ASCII characters that [str.strip()] removes. *)
Definition is_space (c : ascii) : bool :=
  let n := nat_of_ascii c in
  ((9 <=? n)%nat && (n <=? 13)%nat) || ((28 <=? n)%nat && (n <=? 32)%nat).

Fixpoint str_lstrip (s : string) : string :=
  match s with
  | EmptyString => EmptyString
  | String c rest => if is_space c then str_lstrip rest else s
  end.

Definition str_rev (s : string) : string :=
  string_of_list_ascii (rev (list_ascii_of_string s)).

Definition str_strip (s : string) : string :=
  str_rev (str_lstrip (str_rev (str_lstrip s))).

Definition str_nonempty (s : string) : bool :=
  match s with EmptyString => false | _ => true end.

Fixpoint str_startswith (p s : string) : bool :=
  match p, s with
  | EmptyString, _ => true
  | String a p', String b s' => Ascii.eqb a b && str_startswith p' s'
  | String _ _, EmptyString => false
  end.

Definition str_in (s : string) (l : list string) : bool :=
  existsb (String.eqb s) l.

(* ================================================================== *)
(** * Data frames *)
(* ================================================================== *)

(** One cell of a table; [NA] is pandas' missing value. *)
Inductive cell : Type :=
| NA
| Num (q : Q)
| Str (s : string)
| Bool (b : bool).

Definition row : Type := list (string * cell).

Record DataFrame : Type := mkDF {
  columns : list string;
  rows : list row
}.

(** The cell of a row under a column name ([NA] when the row has none). *)
Fixpoint row_get (c : string) (r : row) : cell :=
  match r with
  | [] => NA
  | (k, v) :: r' => if String.eqb k c then v else row_get c r'
  end.

(** Assignment to one cell of a row: replaces, or appends a new column. *)
Fixpoint row_set (c : string) (v : cell) (r : row) : row :=
  match r with
  | [] => [(c, v)]
  | (k, w) :: r' =>
      if String.eqb k c then (k, v) :: r' else (k, w) :: row_set c v r'
  end.

Definition isna (c : cell) : bool :=
  match c with NA => true | _ => false end.

Definition notna (c : cell) : bool := negb (isna c).

(** [len(df)] *)
Definition len (df : DataFrame) : nat := length (rows df).

(** [df[mask]] with the mask computed row by row: a new frame. *)
Definition df_filter (p : row -> bool) (df : DataFrame) : DataFrame :=
  mkDF (columns df) (filter p (rows df)).

(** [df.dropna(subset=cols)]: a new frame with the complete rows. *)
Definition dropna (cols : list string) (df : DataFrame) : DataFrame :=
  df_filter (fun r => forallb (fun c => notna (row_get c r)) cols) df.

(** [df[col]]: the column as a list of cells. *)
Definition col (c : string) (df : DataFrame) : list cell :=
  map (row_get c) (rows df).

(** The numeric content of a column, missing values left out
    ([Series.dropna().values] of a numeric column). *)
Fixpoint nums (l : list cell) : list Q :=
  match l with
  | [] => []
  | Num q :: l' => q :: nums l'
  | _ :: l' => nums l'
  end.

(** Element-wise comparisons of a column with a scalar; a missing value
    compares false, as NaN does. *)
Definition eq_str (s : string) (c : cell) : bool :=
  match c with Str t => String.eqb t s | _ => false end.

Definition le_year (bp : Z) (c : cell) : bool :=
  match c with Num q => Qle_bool q (inject_Z bp) | _ => false end.

Definition gt_year (bp : Z) (c : cell) : bool :=
  match c with Num q => negb (Qle_bool q (inject_Z bp)) | _ => false end.

Definition ge_year (y : Z) (c : cell) : bool :=
  match c with Num q => Qle_bool (inject_Z y) q | _ => false end.

(** [== True] on a cell. *)
Definition eq_true (c : cell) : bool :=
  match c with
  | Bool b => b
  | Num q => Qeq_bool q 1
  | _ => false
  end.

Definition cell_eqb (a b : cell) : bool :=
  match a, b with
  | NA, NA => true
  | Num p, Num q => Qeq_bool p q
  | Str s, Str t => String.eqb s t
  | Bool x, Bool y => Bool.eqb x y
  | _, _ => false
  end.

(** Order used by [sorted] and by the group keys of [groupby]:
    numbers by value, strings lexicographically. *)
Definition cell_leb (a b : cell) : bool :=
  match a, b with
  | Num p, Num q => Qle_bool p q
  | Str s, Str t => String.leb s t
  | Bool x, Bool y => implb x y
  | NA, _ => true
  | Num _, _ => true
  | Bool _, Str _ => true
  | _, _ => false
  end.

Fixpoint insert_sorted (x : cell) (l : list cell) : list cell :=
  match l with
  | [] => [x]
  | y :: l' => if cell_leb x y then x :: l else y :: insert_sorted x l'
  end.

Definition sorted (l : list cell) : list cell :=
  fold_right insert_sorted [] l.

(** [Series.unique()] without the missing values, in order of appearance. *)
Fixpoint unique (l : list cell) : list cell :=
  match l with
  | [] => []
  | x :: l' =>
      let u := unique l' in
      if isna x then u
      else x :: filter (fun y => negb (cell_eqb x y)) u
  end.

(** [Series.nunique()] *)
Definition nunique (l : list cell) : nat := length (unique l).

(** ** Series statistics (pandas, numeric columns) *)

Definition Qsum (l : list Q) : Q := fold_right Qplus 0 l.

Definition Qlen (l : list Q) : Q := inject_Z (Z.of_nat (length l)).

(** [Series.mean()]: NaN on an empty series. *)
Definition series_mean (l : list Q) : float :=
  match l with
  | [] => NaN
  | _ => Fin (Qsum l / Qlen l)
  end.

(** Sample variance (one degree of freedom removed): NaN below two values. *)
Definition series_var (l : list Q) : float :=
  match l with
  | [] | [_] => NaN
  | _ =>
      let m := Qsum l / Qlen l in
      Fin (Qsum (map (fun x => (x - m) * (x - m)) l) / (Qlen l - 1))
  end.

Definition series_min (l : list Q) : float :=
  match l with
  | [] => NaN
  | x :: l' => Fin (fold_right Qmin x l')
  end.

Definition series_max (l : list Q) : float :=
  match l with
  | [] => NaN
  | x :: l' => Fin (fold_right Qmax x l')
  end.

(* ================================================================== *)
(** * Python values of the results document *)
(* ================================================================== *)

#[local] Set Warnings "-register-all".

(** Keys of a [dict]: strings, or numbers (the group keys of a numeric
    column such as [era]). *)
Inductive pykey : Type :=
| KStr (s : string)
| KNum (q : Q).

(** The values a results document is made of: the JSON-native Python
    types, and the library wrapper types that [convert_numpy] names. *)
Inductive pyobj : Type :=
| PyNone
| PyBool (b : bool)
| PyInt (z : Z)
| PyFloat (x : float)
| PyStr (s : string)
| PyList (l : list pyobj)
| PyDict (d : list (pykey * pyobj))
| NpBool (b : bool)          (* numpy.bool_ *)
| NpInt (z : Z)              (* numpy.integer *)
| NpFloat (x : float)        (* numpy.floating that is not a Python float *)
| NpArray (l : list pyobj)   (* numpy.ndarray, by its elements *)
| PdTimestamp (s : string).  (* pandas.Timestamp, by its text *)

Definition pydict : Type := list (pykey * pyobj).

Definition key_eqb (a b : pykey) : bool :=
  match a, b with
  | KStr s, KStr t => String.eqb s t
  | KNum p, KNum q => Qeq_bool p q
  | _, _ => false
  end.

(** [d.get(k)] *)
Fixpoint dict_get (k : pykey) (d : pydict) : option pyobj :=
  match d with
  | [] => None
  | (k', v) :: d' => if key_eqb k' k then Some v else dict_get k d'
  end.

(** [k in d] *)
Definition has_key (k : pykey) (d : pydict) : bool :=
  match dict_get k d with Some _ => true | None => false end.

(** [d[k] = v]: overwrites in place, or appends a new entry. *)
Fixpoint dict_set (k : pykey) (v : pyobj) (d : pydict) : pydict :=
  match d with
  | [] => [(k, v)]
  | (k', w) :: d' =>
      if key_eqb k' k then (k', v) :: d' else (k', w) :: dict_set k v d'
  end.

(** A function result that may be Python's [None]. *)
Definition opt_py (o : option pyobj) : pyobj :=
  match o with Some v => v | None => PyNone end.

Definition key_of_cell (c : cell) : pykey :=
  match c with
  | Num q => KNum q
  | Str s => KStr s
  | Bool true => KNum 1
  | Bool false => KNum 0
  | NA => KStr "nan"
  end.

(* ================================================================== *)
(** * Library interface *)
(* ================================================================== *)

(** What [smf.ols(formula, data).fit()] exposes and the script reads. *)
Record OLSResults : Type := {
  nobs : Z;
  rsquared : float;
  rsquared_adj : float;
  fvalue : float;
  f_pvalue : float;
  ssr : float;
  params_index : list string;
  params : string -> float;
  bse : string -> float;
  tvalues : string -> float;
  pvalues : string -> float;
  conf_int : string -> float * float
}.

(** One row of [anova_lm]. *)
Record AnovaRow : Type := {
  sum_sq : float;
  df_ : float;
  F_ : float;
  PR_F : float
}.

(** What [MixedLM(...).fit(reml=True)] exposes and the script reads. *)
Record MixedLMResults : Type := {
  converged : bool;
  m_nobs : Z;
  k_re : Z;
  llf : float;
  aic : float;
  bic : float;
  fe_params_index : list string;
  fe_params : string -> float;
  bse_fe_index : list string;
  bse_fe : string -> float
}.

(** The routines of statsmodels, scipy, numpy and pandas that the script
    calls. A fit that raises is [None]. *)
Class Libs : Type := {
  HAS_STATSMODELS : bool;
  HAS_PINGOUIN : bool;
  ols_fit : string -> DataFrame -> option OLSResults;
  anova_lm : OLSResults -> option (list (string * AnovaRow));
  mixedlm_fit : list cell -> DataFrame -> list cell -> option MixedLMResults;
  f_cdf : float -> Z -> Z -> float;
  f_oneway : list (list Q) -> float * float;
  ttest_ind : list Q -> list Q -> float * float;
  np_sqrt : float -> float;
  get_dummies : DataFrame -> DataFrame;
  parse_numeric : string -> option Q;
  cell_repr : cell -> string;
  key_repr : Q -> string;
  np_repr : pyobj -> string
}.

(* ================================================================== *)
(** * run_analysis.py: configuration and helpers *)
(* ================================================================== *)

Definition CATEGORIES : list string := ["WK"; "BAT"; "FAST"; "SPIN"].

Definition NATIONS : list string :=
  ["AUS"; "ENG"; "IND"; "PAK"; "WI"; "NZL"; "SL"; "RSA"].

Definition year_formula : string := "height_cm ~ tournament_year".

Definition adjusted_formula : string :=
  "height_cm ~ tournament_year + pop_height_birth_cohort".

(** The column names [safe_ols] reads off a formula:
    [[c.strip() for c in formula.replace("~", "+").split("+") if c.strip()]] *)
Definition formula_columns (formula : string) : list string :=
  filter (fun c => str_nonempty c)
    (map str_strip (str_split "+" (str_replace "~" "+" formula))).

Definition py_of_cell (c : cell) : pyobj :=
  match c with
  | NA => PyFloat NaN
  | Num q => PyFloat (Fin q)
  | Str s => PyStr s
  | Bool b => PyBool b
  end.

(** [df[df[c] == s]] *)
Definition where_eq (c s : string) (df : DataFrame) : DataFrame :=
  df_filter (fun r => eq_str s (row_get c r)) df.

Definition complete_hy (df : DataFrame) : DataFrame :=
  dropna ["height_cm"; "tournament_year"] df.

Section Engine.

Context {L : Libs}.

(** [Series.std()]: the square root of the sample variance. *)
Definition series_std (l : list Q) : float := np_sqrt (series_var l).

(** One aggregate of [groupby(...).agg([...]).round(2)], as [to_dict]
    boxes it: counts are integers, the others floats with two decimals. *)
Definition agg_value (name : string) (l : list Q) : pyobj :=
  if String.eqb name "count" then PyInt (Z.of_nat (length l))
  else if String.eqb name "mean" then PyFloat (pyround (series_mean l) 2)
  else if String.eqb name "std" then PyFloat (pyround (series_std l) 2)
  else if String.eqb name "min" then PyFloat (pyround (series_min l) 2)
  else if String.eqb name "max" then PyFloat (pyround (series_max l) 2)
  else PyNone.

(** [df.groupby(bycol)[value].agg(aggs).round(2).to_dict()]:
    aggregate name, then group key, then value; groups in sorted order. *)
Definition groupby_agg (bycol value : string) (aggs : list string)
    (df : DataFrame) : pydict :=
  let keys := sorted (unique (col bycol df)) in
  map (fun a =>
         (KStr a,
          PyDict (map (fun k =>
                         (key_of_cell k,
                          agg_value a
                            (nums (col value
                               (df_filter (fun r => cell_eqb k (row_get bycol r)) df)))))
                      keys)))
      aggs.

(** The per-coefficient entry that [safe_ols] builds. *)
Definition coef_entry (model : OLSResults) (param : string) : pyobj :=
  PyDict
    [ (KStr "estimate", PyFloat (pyround (params model param) 4));
      (KStr "std_err", PyFloat (pyround (bse model param) 4));
      (KStr "t_value", PyFloat (pyround (tvalues model param) 4));
      (KStr "p_value", PyFloat (pyround (pvalues model param) 6));
      (KStr "ci_lower", PyFloat (pyround (fst (conf_int model param)) 4));
      (KStr "ci_upper", PyFloat (pyround (snd (conf_int model param)) 4)) ].

(** [round(float(x), nd) if not np.isnan(x) else None] *)
Definition round_or_none (x : float) (nd : nat) : pyobj :=
  if isnan x then PyNone else PyFloat (pyround x nd).

(** The summary dict of a fitted model. *)
Definition ols_summary (formula : string) (model : OLSResults) : pyobj :=
  PyDict
    [ (KStr "formula", PyStr formula);
      (KStr "n", PyInt (nobs model));
      (KStr "r_squared", PyFloat (pyround (rsquared model) 4));
      (KStr "adj_r_squared", PyFloat (pyround (rsquared_adj model) 4));
      (KStr "f_statistic", round_or_none (fvalue model) 4);
      (KStr "f_pvalue", round_or_none (f_pvalue model) 6);
      (KStr "coefficients",
       PyDict (fold_left
                 (fun d param => dict_set (KStr param) (coef_entry model param) d)
                 (params_index model) [])) ].

(** [safe_ols]: [None] without statsmodels, when fewer than 5 complete
    rows remain, and when anything in the [try] block raises (a column
    of the formula that the frame lacks, or the fit itself). *)
Definition safe_ols (formula : string) (data : DataFrame) : option pyobj :=
  if negb HAS_STATSMODELS then None
  else
    let cols := formula_columns formula in
    if negb (forallb (fun c => str_in c (columns data)) cols) then None
    else
      let data_clean := dropna cols data in
      if (len data_clean <? 5)%nat then None
      else
        match ols_fit formula data_clean with
        | None => None
        | Some model => Some (ols_summary formula model)
        end.

(* ================================================================== *)
(** * Table 2: descriptive statistics *)
(* ================================================================== *)

Definition stats5 : list string := ["count"; "mean"; "std"; "min"; "max"].

(** [int(df[c].sum())] of a boolean (or 0/1) column. *)
Definition count_true (l : list cell) : Z :=
  Z.of_nat (length (filter eq_true l)).

Definition table2_descriptive (df : DataFrame) : pydict :=
  let results := [] in
  let results :=
    dict_set (KStr "by_category")
      (PyDict (groupby_agg "category" "height_cm" stats5 df)) results in
  let results :=
    dict_set (KStr "by_era")
      (PyDict (groupby_agg "era" "height_cm" stats5 df)) results in
  let results :=
    if existsb notna (col "height_excess" df) then
      dict_set (KStr "excess_by_category")
        (PyDict (groupby_agg "category" "height_excess" stats5 df)) results
    else results in
  let n := len df in
  let n_verified :=
    if str_in "height_verified" (columns df)
    then count_true (col "height_verified" df) else 0%Z in
  dict_set (KStr "overall")
    (PyDict
       [ (KStr "n", PyInt (Z.of_nat n));
         (KStr "n_verified", PyInt n_verified);
         (KStr "mean_height",
          PyFloat (pyround (series_mean (nums (col "height_cm" df))) 2));
         (KStr "std_height",
          PyFloat (pyround (series_std (nums (col "height_cm" df))) 2));
         (KStr "n_unique_players",
          PyInt (Z.of_nat (nunique (col "player_id" df))));
         (KStr "n_tournaments",
          PyInt (Z.of_nat (nunique (col "tournament_id" df)))) ])
    results.

(* ================================================================== *)
(** * Tables 3, 4, 5: regressions per slice *)
(* ================================================================== *)

(** The loop body shared by the regression tables: a slice with fewer
    than 5 rows is passed over ([continue]); otherwise the result of
    [safe_ols] (possibly [None]) is stored under the slice's name. *)
Definition fit_slice (formula name : string) (subset : DataFrame)
    (results : pydict) : pydict :=
  if (len subset <? 5)%nat then results
  else dict_set (KStr name) (opt_py (safe_ols formula subset)) results.

Definition table3_unadjusted_regression (df : DataFrame) : pydict :=
  let results :=
    fold_left
      (fun results cat =>
         fit_slice year_formula cat (complete_hy (where_eq "category" cat df))
           results)
      CATEGORIES [] in
  let subset_all := complete_hy df in
  if (5 <=? len subset_all)%nat then
    dict_set (KStr "ALL") (opt_py (safe_ols year_formula subset_all)) results
  else results.

Definition table4_adjusted_regression (df : DataFrame) : pydict :=
  let subset_all :=
    dropna ["height_cm"; "tournament_year"; "pop_height_birth_cohort"] df in
  if (len subset_all <? 5)%nat then []
  else
    let results :=
      fold_left
        (fun results cat =>
           fit_slice adjusted_formula cat (where_eq "category" cat subset_all)
             results)
        CATEGORIES [] in
    dict_set (KStr "ALL") (opt_py (safe_ols adjusted_formula subset_all))
      results.
(* The attenuation loop that follows in the source only prints. *)

Definition table5_country_regression (df : DataFrame) : pydict :=
  let bat := complete_hy (where_eq "category" "BAT" df) in
  fold_left
    (fun results nation =>
       fit_slice year_formula nation (where_eq "country" nation bat) results)
    NATIONS [].

(* ================================================================== *)
(** * Table 6: regional ANOVA and pairwise comparisons *)
(* ================================================================== *)

Definition cell_text (c : cell) : string :=
  match c with Str s => s | _ => cell_repr c end.

(** [subset[subset["region"] == r]] *)
Definition region_rows (r : cell) (subset : DataFrame) : DataFrame :=
  df_filter (fun w => cell_eqb (row_get "region" w) r) subset.

Definition region_heights (r : cell) (subset : DataFrame) : list Q :=
  nums (col "height_cm" (region_rows r subset)).

(** The inner loop [for r2 in valid_regions[i + 1:]]. *)
Definition pairwise_row (subset : DataFrame) (n_comparisons : Z)
    (r1 : cell) (rest : list cell) : list pyobj :=
  map (fun r2 =>
         let g1 := region_heights r1 subset in
         let g2 := region_heights r2 subset in
         let '(t, p) := ttest_ind g1 g2 in
         let p_adj := pymin (fmul p (of_Z n_comparisons)) (Fin 1) in
         PyDict
           [ (KStr "pair",
              PyStr (String.append (cell_text r1)
                       (String.append " vs " (cell_text r2))));
             (KStr "t", PyFloat (pyround t 4));
             (KStr "p_adj", PyFloat (pyround p_adj 6)) ])
      rest.

(** The outer loop [for i, r1 in enumerate(valid_regions)]. *)
Fixpoint pairwise_loop (subset : DataFrame) (n_comparisons : Z)
    (valid_regions : list cell) : list pyobj :=
  match valid_regions with
  | [] => []
  | r1 :: rest =>
      pairwise_row subset n_comparisons r1 rest
        ++ pairwise_loop subset n_comparisons rest
  end.

Definition n_pairs (k : nat) : Z :=
  (Z.of_nat k * (Z.of_nat k - 1) / 2)%Z.

Definition table6_regional_anova (df : DataFrame) : pydict :=
  let subset := dropna ["height_cm"; "region"] df in
  let regions := sorted (unique (col "region" subset)) in
  let valid_regions :=
    filter (fun r => (2 <=? len (region_rows r subset))%nat) regions in
  let groups := map (fun r => region_heights r subset) valid_regions in
  if (2 <=? length groups)%nat then
    let '(f_stat, p_value) := f_oneway groups in
    let results :=
      dict_set (KStr "overall_anova")
        (PyDict
           [ (KStr "f_statistic", PyFloat (pyround f_stat 4));
             (KStr "p_value", PyFloat (pyround p_value 6));
             (KStr "regions", PyList (map py_of_cell valid_regions)) ])
        [] in
    let results :=
      dict_set (KStr "region_descriptive")
        (PyDict (groupby_agg "region" "height_cm" ["count"; "mean"; "std"]
                   subset))
        results in
    if HAS_PINGOUIN then results   (* Games-Howell table: printed only *)
    else
      let n_comparisons := n_pairs (length valid_regions) in
      dict_set (KStr "pairwise")
        (PyList (pairwise_loop subset n_comparisons valid_regions))
        results
  else [].

(* ================================================================== *)
(** * Table 7: breakpoint search with the Chow test *)
(* ================================================================== *)

Definition candidate_years : list Z :=
  [1996; 1999; 2003; 2007; 2010; 2012]%Z.

(** [subset[subset["tournament_year"] <= bp]] and its complement. *)
Definition pre_of (bp : Z) (subset : DataFrame) : DataFrame :=
  df_filter (fun r => le_year bp (row_get "tournament_year" r)) subset.

Definition post_of (bp : Z) (subset : DataFrame) : DataFrame :=
  df_filter (fun r => gt_year bp (row_get "tournament_year" r)) subset.

(** The body of the [try] block for one candidate: the pooled fit and
    the two segment fits; [None] when a fit raises. *)
Definition chow_test (subset pre post : DataFrame) : option (float * float) :=
  match ols_fit year_formula subset with
  | None => None
  | Some model_full =>
      let rss_full := ssr model_full in
      match ols_fit year_formula pre with
      | None => None
      | Some model_pre =>
          match ols_fit year_formula post with
          | None => None
          | Some model_post =>
              let rss_restricted := fadd (ssr model_pre) (ssr model_post) in
              let k := 2%Z in
              let n := Z.of_nat (len subset) in
              let f_stat :=
                fdiv (fdiv (fsub rss_full rss_restricted) (of_Z k))
                     (fdiv rss_restricted (of_Z (n - 2 * k))) in
              let p_value := fsub (Fin 1) (f_cdf f_stat k (n - 2 * k)) in
              Some (f_stat, p_value)
          end
      end
  end.

(** The running best of the search: [(best_bp, best_f, best_p)]. *)
Definition best : Type := (option Z * float * float)%type.

Definition best_init : best := (None, Fin (-1), Fin 1).

(** A candidate year can be evaluated on a slice when both sides of it
    hold at least 5 rows. *)
Definition admissible (subset : DataFrame) (bp : Z) : bool :=
  negb ((len (pre_of bp subset) <? 5)%nat || (len (post_of bp subset) <? 5)%nat).

(** One iteration of [for bp in candidate_years]. *)
Definition bp_step (subset : DataFrame) (st : best) (bp : Z) : best :=
  let pre := pre_of bp subset in
  let post := post_of bp subset in
  if ((len pre <? 5)%nat || (len post <? 5)%nat)%bool then st
  else
    match chow_test subset pre post with
    | None => st
    | Some (f_stat, p_value) =>
        let '(_, best_f, _) := st in
        if fgtb f_stat best_f then (Some bp, f_stat, p_value) else st
    end.

Definition bp_search (subset : DataFrame) : best :=
  fold_left (bp_step subset) candidate_years best_init.

(** The selected breakpoint, when [if best_bp:] holds. *)
Definition selected (st : best) : option (Z * float * float) :=
  match st with
  | (Some bp, f, p) => if (bp =? 0)%Z then None else Some (bp, f, p)
  | (None, _, _) => None
  end.

(** The slice of one entry of [["BAT", "FAST", "ALL"]]. *)
Definition bp_slice (cat : string) (df : DataFrame) : DataFrame :=
  if String.eqb cat "ALL" then complete_hy df
  else complete_hy (where_eq "category" cat df).

(** [res["coefficients"].get("tournament_year", {}).get("estimate")] *)
Definition slope_estimate (res : pyobj) : pyobj :=
  match res with
  | PyDict d =>
      match dict_get (KStr "coefficients") d with
      | Some (PyDict coefs) =>
          match dict_get (KStr "tournament_year") coefs with
          | Some (PyDict c) => opt_py (dict_get (KStr "estimate") c)
          | _ => PyNone
          end
      | _ => PyNone
      end
  | _ => PyNone
  end.

(** The entry stored for a slice whose search selected a breakpoint. *)
Definition bp_entry (subset : DataFrame) (sel : Z * float * float) : pydict :=
  let '(best_bp, best_f, best_p) := sel in
  let entry :=
    [ (KStr "best_breakpoint", PyInt best_bp);
      (KStr "f_statistic", PyFloat (pyround best_f 4));
      (KStr "p_value", PyFloat (pyround best_p 6));
      (KStr "significant", NpBool (fltb best_p (Fin (5 # 100)))) ] in
  let res_pre := safe_ols year_formula (pre_of best_bp subset) in
  let res_post := safe_ols year_formula (post_of best_bp subset) in
  let entry :=
    match res_pre with
    | Some r => dict_set (KStr "pre_slope") (slope_estimate r) entry
    | None => entry
    end in
  match res_post with
  | Some r => dict_set (KStr "post_slope") (slope_estimate r) entry
  | None => entry
  end.

(** One iteration of [for cat in ["BAT", "FAST", "ALL"]]. *)
Definition table7_slice (df : DataFrame) (results : pydict) (cat : string)
    : pydict :=
  let subset := bp_slice cat df in
  if (len subset <? 10)%nat then results
  else
    match selected (bp_search subset) with
    | Some sel => dict_set (KStr cat) (PyDict (bp_entry subset sel)) results
    | None => results
    end.

Definition table7_breakpoint (df : DataFrame) : pydict :=
  if negb HAS_STATSMODELS then []
  else fold_left (table7_slice df) ["BAT"; "FAST"; "ALL"] [].

(** ** The same search in generate_figures.py ([fig6_breakpoint]) *)

Definition fig6_step (subset : DataFrame) (st : best) (bp : Z) : best :=
  let pre := pre_of bp subset in
  let post := post_of bp subset in
  if ((len pre <? 5)%nat || (len post <? 5)%nat)%bool then st
  else
    match ols_fit year_formula subset with
    | None => st
    | Some model_full =>
        match ols_fit year_formula pre with
        | None => st
        | Some model_pre =>
            match ols_fit year_formula post with
            | None => st
            | Some model_post =>
                let rss_full := ssr model_full in
                let rss_rest := fadd (ssr model_pre) (ssr model_post) in
                let k := 2%Z in
                let n := Z.of_nat (len subset) in
                let f_stat :=
                  fdiv (fdiv (fsub rss_full rss_rest) (of_Z k))
                       (fdiv rss_rest (of_Z (n - 2 * k))) in
                let '(_, best_f, _) := st in
                if fgtb f_stat best_f then
                  (Some bp, f_stat, fsub (Fin 1) (f_cdf f_stat k (n - 2 * k)))
                else st
            end
        end
    end.

(** The breakpoint a panel of figure 6 is drawn with: the search result,
    or 2012 when nothing was selected. *)
Definition fig6_search (subset : DataFrame) : Z * float * float :=
  let '(best_bp, best_f, best_p) :=
    if HAS_STATSMODELS
    then fold_left (fig6_step subset) candidate_years best_init
    else best_init in
  (match best_bp with Some bp => bp | None => 2012%Z end, best_f, best_p).

(* ================================================================== *)
(** * Table 10: sensitivity analyses *)
(* ================================================================== *)

(** [res = safe_ols(...); if res: results[name] = res] *)
Definition record_fit (name : string) (data : DataFrame) (results : pydict)
    : pydict :=
  match safe_ols year_formula data with
  | Some res => dict_set (KStr name) res results
  | None => results
  end.

(** [np.sqrt((a.std() ** 2 + b.std() ** 2) / 2)] *)
Definition pooled_sd (a b : list Q) : float :=
  let sa := series_std a in
  let sb := series_std b in
  np_sqrt (fdiv (fadd (fmul sa sa) (fmul sb sb)) (of_Z 2)).

(** Cohen's d of the FAST-vs-BAT block:
    [d = diff / pooled_sd if pooled_sd > 0 else 0]. *)
Definition cohens_d_guarded (fast bat : list Q) : float :=
  let diff := fsub (series_mean fast) (series_mean bat) in
  let sd := pooled_sd fast bat in
  if fgtb sd (Fin 0) then fdiv diff sd else Fin 0.

Definition format_comparison (df : DataFrame) (results : pydict) : pydict :=
  let recent :=
    dropna ["height_cm"]
      (df_filter (fun r => ge_year 2007 (row_get "tournament_year" r)) df) in
  if ((5 <=? len recent)%nat && (2 <=? nunique (col "format" recent))%nat)%bool
  then
    let odi_heights := nums (col "height_cm" (where_eq "format" "ODI" recent)) in
    let t20_heights := nums (col "height_cm" (where_eq "format" "T20" recent)) in
    if ((3 <=? length odi_heights)%nat && (3 <=? length t20_heights)%nat)%bool
    then
      let '(t, p) := ttest_ind odi_heights t20_heights in
      let d :=
        fdiv (fsub (series_mean odi_heights) (series_mean t20_heights))
             (pooled_sd odi_heights t20_heights) in
      dict_set (KStr "format_comparison")
        (PyDict
           [ (KStr "odi_mean", PyFloat (pyround (series_mean odi_heights) 2));
             (KStr "odi_n", PyInt (Z.of_nat (length odi_heights)));
             (KStr "t20_mean", PyFloat (pyround (series_mean t20_heights) 2));
             (KStr "t20_n", PyInt (Z.of_nat (length t20_heights)));
             (KStr "t_statistic", PyFloat (pyround t 4));
             (KStr "p_value", PyFloat (pyround p 6));
             (KStr "cohens_d", PyFloat (pyround d 4)) ])
        results
    else results
  else results.

Definition fast_vs_bat (df : DataFrame) (results : pydict) : pydict :=
  let fast := nums (col "height_cm" (where_eq "category" "FAST" df)) in
  let bat := nums (col "height_cm" (where_eq "category" "BAT" df)) in
  if ((3 <=? length fast)%nat && (3 <=? length bat)%nat)%bool then
    let diff := fsub (series_mean fast) (series_mean bat) in
    let d := cohens_d_guarded fast bat in
    let '(t, p) := ttest_ind fast bat in
    dict_set (KStr "fast_vs_bat")
      (PyDict
         [ (KStr "fast_mean", PyFloat (pyround (series_mean fast) 2));
           (KStr "bat_mean", PyFloat (pyround (series_mean bat) 2));
           (KStr "difference", PyFloat (pyround diff 2));
           (KStr "cohens_d", PyFloat (pyround d 4));
           (KStr "t_statistic", PyFloat (pyround t 4));
           (KStr "p_value", PyFloat (pyround p 6)) ])
      results
  else results.

Definition table10_sensitivity (df : DataFrame) : pydict :=
  let results := [] in
  let verified :=
    df_filter (fun r => eq_true (row_get "height_verified" r)) df in
  let results :=
    if (0 <? len verified)%nat
    then record_fit "verified_only" verified results else results in
  let unflagged :=
    df_filter (fun r => isna (row_get "flag" r) || eq_str "" (row_get "flag" r))
      df in
  let results :=
    if (0 <? len unflagged)%nat
    then record_fit "unflagged_only" unflagged results else results in
  let odi := where_eq "format" "ODI" df in
  let results :=
    if (5 <=? len odi)%nat then record_fit "odi_only" odi results
    else results in
  let t20 := where_eq "format" "T20" df in
  let results :=
    if (5 <=? len t20)%nat then record_fit "t20_only" t20 results
    else results in
  let results := format_comparison df results in
  fast_vs_bat df results.

End Engine.

(* ================================================================== *)
(** * Serialization of the results document *)
(* ================================================================== *)

(** The exchange format, as the tree that [json.load] sees. *)
Inductive json : Type :=
| JNull
| JBool (b : bool)
| JInt (z : Z)
| JFloat (x : float)
| JStr (s : string)
| JArr (l : list json)
| JObj (m : list (string * json)).

(** The [default] hook of an encoder: what it returns for a value the
    encoder cannot write natively, or [None] when it raises. *)
Definition hook : Type := pyobj -> option pyobj.

(** [convert_numpy] of [main]. *)
Definition convert_numpy (obj : pyobj) : pyobj :=
  match obj with
  | NpInt z => PyInt z
  | NpFloat x => PyFloat x
  | NpArray l => PyList l
  | PdTimestamp s => PyStr s
  | NpBool b => PyBool b
  | _ => obj
  end.

(** [converted is not obj]: [convert_numpy] hands back the very object
    it was given exactly on the values that are no wrappers. *)
Definition is_wrapper (obj : pyobj) : bool :=
  match obj with
  | NpInt _ | NpFloat _ | NpArray _ | PdTimestamp _ | NpBool _ => true
  | _ => false
  end.

(** [NumpyEncoder.default]; [super().default(obj)] raises. *)
Definition NumpyEncoder_default : hook :=
  fun obj =>
    let converted := convert_numpy obj in
    if is_wrapper obj then Some converted else None.

(** [json.JSONEncoder.__init__]: a [default=] keyword argument is stored
    on the instance and takes the place of the method of the class. *)
Definition encoder_default (cls_default : hook) (kw_default : option hook)
    : hook :=
  match kw_default with
  | Some f => f
  | None => cls_default
  end.

Section Serialization.

Context {L : Libs}.

(** The builtin [str] on the values that reach the hook. *)
Definition py_str (obj : pyobj) : string :=
  match obj with
  | NpBool true => "True"
  | NpBool false => "False"
  | PdTimestamp s => s
  | PyStr s => s
  | _ => np_repr obj
  end.

Definition str_hook : hook := fun obj => Some (PyStr (py_str obj)).

(** The text of a dict key in the output. *)
Definition key_text (k : pykey) : string :=
  match k with
  | KStr s => s
  | KNum q => key_repr q
  end.

(** Encoding of the natively serializable values; a wrapper raises. *)
Fixpoint encode_plain (o : pyobj) : option json :=
  match o with
  | PyNone => Some JNull
  | PyBool b => Some (JBool b)
  | PyInt z => Some (JInt z)
  | PyFloat x => Some (JFloat x)
  | PyStr s => Some (JStr s)
  | PyList l =>
      option_map JArr
        ((fix go (l : list pyobj) : option (list json) :=
            match l with
            | [] => Some []
            | x :: t =>
                match encode_plain x, go t with
                | Some j, Some js => Some (j :: js)
                | _, _ => None
                end
            end) l)
  | PyDict d =>
      option_map JObj
        ((fix go (d : list (pykey * pyobj)) : option (list (string * json)) :=
            match d with
            | [] => Some []
            | (k, v) :: t =>
                match encode_plain v, go t with
                | Some j, Some js => Some ((key_text k, j) :: js)
                | _, _ => None
                end
            end) d)
  | _ => None
  end.

(** Encoding with a [default] hook: a value that is not natively
    serializable is replaced by what the hook returns. (Both hooks of
    this program return natively serializable values.) *)
Fixpoint encode (default : hook) (o : pyobj) : option json :=
  match o with
  | PyNone => Some JNull
  | PyBool b => Some (JBool b)
  | PyInt z => Some (JInt z)
  | PyFloat x => Some (JFloat x)
  | PyStr s => Some (JStr s)
  | PyList l =>
      option_map JArr
        ((fix go (l : list pyobj) : option (list json) :=
            match l with
            | [] => Some []
            | x :: t =>
                match encode default x, go t with
                | Some j, Some js => Some (j :: js)
                | _, _ => None
                end
            end) l)
  | PyDict d =>
      option_map JObj
        ((fix go (d : list (pykey * pyobj)) : option (list (string * json)) :=
            match d with
            | [] => Some []
            | (k, v) :: t =>
                match encode default v, go t with
                | Some j, Some js => Some ((key_text k, j) :: js)
                | _, _ => None
                end
            end) d)
  | _ =>
      match default o with
      | Some o' => encode_plain o'
      | None => None
      end
  end.

(** [json.dump(all_results, fh, indent=2, cls=NumpyEncoder, default=str)] *)
Definition json_dump (all_results : pyobj) : option json :=
  encode (encoder_default NumpyEncoder_default (Some str_hook)) all_results.

(** [json.load]: an object becomes a dict with string keys; of a repeated
    key the last value is kept. *)
Fixpoint json_load (j : json) : pyobj :=
  match j with
  | JNull => PyNone
  | JBool b => PyBool b
  | JInt z => PyInt z
  | JFloat x => PyFloat x
  | JStr s => PyStr s
  | JArr l => PyList (map json_load l)
  | JObj m =>
      PyDict
        ((fix go (m : list (string * json)) (acc : pydict) : pydict :=
            match m with
            | [] => acc
            | (k, v) :: t => go t (dict_set (KStr k) (json_load v) acc)
            end) m [])
  end.

End Serialization.

(* ================================================================== *)
(** * Frames as objects: the store *)
(* ================================================================== *)

(** What a run does that the outside can observe. *)
Inductive event : Type :=
| Ran (name : string)      (* an analysis function was entered *)
| Wrote (doc : json).      (* the results document was written *)

(** Frames live in a store and are passed by reference; a run also
    accumulates its events. *)
Record state : Type := mkState {
  heap : list DataFrame;
  log : list event
}.

Definition ref : Type := nat.

Definition M (A : Type) : Type := state -> A * state.

Definition ret {A : Type} (a : A) : M A := fun s => (a, s).

Definition bind {A B : Type} (m : M A) (k : A -> M B) : M B :=
  fun s => let '(a, s') := m s in k a s'.

Notation "x <- m ;; k" := (bind m (fun x => k))
  (at level 100, m at next level, right associativity).
Notation "m ;;; k" := (bind m (fun _ => k))
  (at level 100, right associativity).

Definition empty_frame : DataFrame := mkDF [] [].

(** A new frame object. *)
Definition alloc (d : DataFrame) : M ref :=
  fun s => (length (heap s), mkState (heap s ++ [d]) (log s)).

Definition load (r : ref) : M DataFrame :=
  fun s => (match heap s !! r with Some d => d | None => empty_frame end, s).

(** In-place update of the frame object [r]. *)
Definition store (r : ref) (d : DataFrame) : M unit :=
  fun s => (tt, mkState (<[r := d]> (heap s)) (log s)).

Definition emit (e : event) : M unit :=
  fun s => (tt, mkState (heap s) (log s ++ [e])).

(** [df.copy()], [df.dropna(...)], [df[mask]], [df[cols]]:
    each returns a new object. *)
Definition ref_copy (r : ref) : M ref :=
  d <- load r ;; alloc d.

Definition ref_dropna (cols : list string) (r : ref) : M ref :=
  d <- load r ;; alloc (dropna cols d).

Definition ref_filter (p : row -> bool) (r : ref) : M ref :=
  d <- load r ;; alloc (df_filter p d).

Definition select (cols : list string) (d : DataFrame) : DataFrame :=
  mkDF cols (map (fun w => map (fun c => (c, row_get c w)) cols) (rows d)).

Definition ref_select (cols : list string) (r : ref) : M ref :=
  d <- load r ;; alloc (select cols d).

(** [df[c] = values]: assignment to a column, in place. *)
Fixpoint assign_rows (c : string) (vals : list cell) (rs : list row)
    : list row :=
  match rs, vals with
  | w :: rs', v :: vals' => row_set c v w :: assign_rows c vals' rs'
  | _, _ => rs
  end.

Definition setitem (r : ref) (c : string) (vals : list cell) : M unit :=
  d <- load r ;;
  store r (mkDF (if str_in c (columns d) then columns d else columns d ++ [c])
                (assign_rows c vals (rows d))).

(** [df.insert(0, c, v)]: a new first column holding [v], in place. *)
Definition insert_first (r : ref) (c : string) (v : cell) : M unit :=
  d <- load r ;;
  store r (mkDF (c :: columns d) (map (fun w => (c, v) :: w) (rows d))).

(** A function that only reads its frame argument. *)
Definition call {A : Type} (f : DataFrame -> A) (r : ref) : M A :=
  d <- load r ;; ret (f d).

Section Orchestrator.

Context {L : Libs}.

Definition ref_get_dummies (r : ref) : M ref :=
  d <- load r ;; alloc (get_dummies d).

(* ================================================================== *)
(** * Table 8: two-way ANOVA *)
(* ================================================================== *)

(** [.astype(str)] on a cell. *)
Definition astype_str (c : cell) : cell := Str (cell_text c).

Definition anova_entry (v : AnovaRow) : pyobj :=
  PyDict
    [ (KStr "sum_sq", round_or_none (sum_sq v) 4);
      (KStr "df", PyFloat (pyround (df_ v) 1));
      (KStr "F", round_or_none (F_ v) 4);
      (KStr "PR(>F)", round_or_none (PR_F v) 6) ].

Definition table8_two_way_anova (df : ref) : M pydict :=
  dropped <- ref_dropna ["height_cm"; "category"; "era"] df ;;
  subset <- ref_copy dropped ;;
  s0 <- load subset ;;
  setitem subset "era" (map astype_str (col "era" s0)) ;;;
  s <- load subset ;;
  if (len s <? 10)%nat then ret []
  else if HAS_STATSMODELS then
    match ols_fit "height_cm ~ C(category) * C(era)" s with
    | None => ret []
    | Some model =>
        match anova_lm model with
        | None => ret []
        | Some anova_table =>
            ret [ (KStr "anova_table",
                   PyDict (fold_left
                             (fun d kv =>
                                dict_set (KStr (fst kv)) (anova_entry (snd kv)) d)
                             anova_table [])) ]
        end
    end
  else ret [].   (* the pingouin branch only prints *)

(* ================================================================== *)
(** * Table 9: mixed-effects models *)
(* ================================================================== *)

Definition fixed_effect_entry (fit : MixedLMResults) (param : string)
    : pyobj :=
  PyDict
    [ (KStr "estimate", PyFloat (pyround (fe_params fit param) 4));
      (KStr "std_err",
       if str_in param (bse_fe_index fit)
       then PyFloat (pyround (bse_fe fit param) 4) else PyNone) ].

Definition model1_entry (fit : MixedLMResults) : pyobj :=
  PyDict
    [ (KStr "converged", PyBool (converged fit));
      (KStr "n", PyInt (m_nobs fit));
      (KStr "n_groups", PyInt (k_re fit));
      (KStr "log_likelihood", PyFloat (pyround (llf fit) 4));
      (KStr "aic", PyFloat (pyround (aic fit) 4));
      (KStr "bic", PyFloat (pyround (bic fit) 4));
      (KStr "fixed_effects",
       PyDict (fold_left
                 (fun d param =>
                    dict_set (KStr param) (fixed_effect_entry fit param) d)
                 (fe_params_index fit) [])) ].

Definition model2_entry (fit2 : MixedLMResults) : pyobj :=
  PyDict
    [ (KStr "converged", PyBool (converged fit2));
      (KStr "n", PyInt (m_nobs fit2));
      (KStr "log_likelihood", PyFloat (pyround (llf fit2) 4));
      (KStr "aic", PyFloat (pyround (aic fit2) 4));
      (KStr "bic", PyFloat (pyround (bic fit2) 4)) ].

(** Design matrix, response and groups of one mixed model: the dummy
    expansion, the copied and extended matrix [X], then the fit. *)
Definition fit_mixed (extra : list string) (data : ref)
    : M (option MixedLMResults) :=
  dummies <- ref_get_dummies data ;;
  m <- load dummies ;;
  let cat_cols := filter (str_startswith "category_") (columns m) in
  let exog_cols := "tournament_year" :: extra ++ cat_cols in
  picked <- ref_select exog_cols dummies ;;
  X <- ref_copy picked ;;
  insert_first X "Intercept" (Num 1) ;;;
  x <- load X ;;
  ret (mixedlm_fit (col "height_cm" m) x (col "country" m)).

Definition table9_mixed_effects (df : ref) : M pydict :=
  if negb HAS_STATSMODELS then ret []
  else
    dropped <- ref_dropna ["height_cm"; "tournament_year"; "country"] df ;;
    subset <- ref_copy dropped ;;
    s <- load subset ;;
    if (len s <? 10)%nat then ret []
    else if (nunique (col "country" s) <? 2)%nat then ret []
    else
      subset_m1 <-
        ref_dropna ["height_cm"; "tournament_year"; "category"] subset ;;
      fit <- fit_mixed [] subset_m1 ;;
      match fit with
      | None => ret []
      | Some fit =>
          let results := dict_set (KStr "model1") (model1_entry fit) [] in
          subset_m2 <-
            ref_dropna
              ["height_cm"; "tournament_year"; "pop_height_birth_cohort"]
              subset ;;
          m2 <- load subset_m2 ;;
          if ((10 <=? len m2)%nat && (2 <=? nunique (col "country" m2))%nat)%bool
          then
            fit2 <- fit_mixed ["pop_height_birth_cohort"] subset_m2 ;;
            match fit2 with
            | None => ret results
            | Some fit2 =>
                ret (dict_set (KStr "model2") (model2_entry fit2) results)
            end
          else ret results
      end.

(* ================================================================== *)
(** * main *)
(* ================================================================== *)

Definition numeric_columns : list string :=
  ["height_cm"; "tournament_year"; "birth_year"; "age_at_tournament";
   "pop_height_birth_cohort"; "height_excess"; "era"].

(** [pd.to_numeric(..., errors="coerce")] on a cell. *)
Definition to_numeric (c : cell) : cell :=
  match c with
  | NA => NA
  | Num q => Num q
  | Bool b => Num (if b then 1 else 0)
  | Str s => match parse_numeric s with Some q => Num q | None => NA end
  end.

(** The loop that coerces the numeric columns of the loaded frame. *)
Fixpoint coerce_columns (df : ref) (cols : list string) : M unit :=
  match cols with
  | [] => ret tt
  | c :: cols' =>
      d <- load df ;;
      (if str_in c (columns d)
       then setitem df c (map to_numeric (col c d))
       else ret tt) ;;;
      coerce_columns df cols'
  end.

(** How a run ends. *)
Inductive outcome : Type :=
| SysExit (code : Z)     (* [sys.exit(code)] *)
| Raised                 (* an exception left [main] *)
| Finished.

(** An analysis function is entered, then run. *)
Definition stage {A : Type} (name : string) (m : M A) : M A :=
  emit (Ran name) ;;; m.

(** The block "Run all analyses" of [main]: the dict [all_results]. *)
Definition run_analyses (df_valid : ref) : M pyobj :=
  t2 <- stage "table2_descriptive" (call table2_descriptive df_valid) ;;
  t3 <- stage "table3_unadjusted_regression"
          (call table3_unadjusted_regression df_valid) ;;
  t4 <- stage "table4_adjusted_regression"
          (call table4_adjusted_regression df_valid) ;;
  t5 <- stage "table5_country_regression"
          (call table5_country_regression df_valid) ;;
  t6 <- stage "table6_regional_anova"
          (call table6_regional_anova df_valid) ;;
  t7 <- stage "table7_breakpoint" (call table7_breakpoint df_valid) ;;
  t8 <- stage "table8_two_way_anova" (table8_two_way_anova df_valid) ;;
  t9 <- stage "table9_mixed_effects" (table9_mixed_effects df_valid) ;;
  t10 <- stage "table10_sensitivity" (call table10_sensitivity df_valid) ;;
  ret (PyDict
         [ (KStr "table2_descriptive", PyDict t2);
           (KStr "table3_unadjusted", PyDict t3);
           (KStr "table4_adjusted", PyDict t4);
           (KStr "table5_country", PyDict t5);
           (KStr "table6_regional", PyDict t6);
           (KStr "table7_breakpoint", PyDict t7);
           (KStr "table8_two_way_anova", PyDict t8);
           (KStr "table9_mixed_effects", PyDict t9);
           (KStr "table10_sensitivity", PyDict t10) ]).

(** The block "Save results" of [main]. *)
Definition save_results (all_results : pyobj) : M outcome :=
  match json_dump all_results with
  | Some doc => emit (Wrote doc) ;;; ret Finished
  | None => ret Raised
  end.

(** [main]; the argument is the content of the merged CSV, [None] when
    the file does not exist. The model follows the source on files that
    have the columns the script indexes: on a file without one of them
    the source leaves with [KeyError] at the place where the column is
    indexed (the height column at the validity filter, the others
    inside the analysis functions), which is not modelled; the
    statements about a run are made for files that have the columns. *)
Definition main (csv : option DataFrame) : M outcome :=
  match csv with
  | None => ret (SysExit 1)
  | Some file =>
      df <- alloc file ;;
      coerce_columns df numeric_columns ;;;
      with_height <- ref_filter (fun r => notna (row_get "height_cm" r)) df ;;
      df_valid <- ref_copy with_height ;;
      v <- load df_valid ;;
      if (len v =? 0)%nat then ret (SysExit 1)
      else
        all_results <- run_analyses df_valid ;;
        save_results all_results
  end.

(** The state a run starts in: no frame loaded, nothing logged. *)
Definition start : state := mkState [] [].

End Orchestrator.

(* ================================================================== *)
(** * A sample library instance and sample data *)
(* ================================================================== *)

(** An instance of [Libs] to run the engine on concrete tables. Simple
    regression and the one-way F statistic are computed exactly; the
    F distribution with (2, m) degrees of freedom, m even, has the
    closed form [1 - (m / (m + 2 x)) ^ (m / 2)]; square roots are taken
    to four decimals; the remaining quantities are simple stand-ins. *)
Module Sample.

Definition sqrt4 (x : float) : float :=
  match x with
  | Fin q =>
      match Qcompare q 0 with
      | Lt => NaN
      | _ => Fin (Qmake (Z.sqrt (Qfloor (q * inject_Z 100000000))) 10000)
      end
  | PInf => PInf
  | _ => NaN
  end.

Definition mean (l : list Q) : Q := Qsum l / Qlen l.

Definition dev2 (l m : list Q) : Q :=
  let a := mean l in
  let b := mean m in
  Qsum (map (fun xy => (fst xy - a) * (snd xy - b)) (combine l m)).

(** Residual sum of squares, slope and intercept of [y ~ x]. *)
Definition simple_ols (x y : list Q) : Q * Q * Q :=
  let sxx := dev2 x x in
  let sxy := dev2 x y in
  let syy := dev2 y y in
  match Qcompare sxx 0 with
  | Eq => (syy, 0, mean y)
  | _ => (Qred (syy - sxy * sxy / sxx), Qred (sxy / sxx),
          Qred (mean y - sxy / sxx * mean x))
  end.

Definition fit (formula : string) (d : DataFrame) : option OLSResults :=
  let x := nums (col "tournament_year" d) in
  let y := nums (col "height_cm" d) in
  let '(rss, slope, icpt) := simple_ols x y in
  let coef := fun p : string =>
    if String.eqb p "Intercept" then Fin icpt else Fin slope in
  Some {| nobs := Z.of_nat (len d);
          rsquared := fsub (Fin 1) (fdiv (Fin rss) (Fin (dev2 y y)));
          rsquared_adj := fsub (Fin 1) (fdiv (Fin rss) (Fin (dev2 y y)));
          fvalue := NaN;
          f_pvalue := NaN;
          ssr := Fin rss;
          params_index := ["Intercept"; "tournament_year"];
          params := coef;
          bse := fun _ => Fin (1 # 3);
          tvalues := fun p => fmul (coef p) (Fin 3);
          pvalues := fun _ => Fin (1 # 7);
          conf_int := fun p => (fsub (coef p) (Fin (2 # 3)),
                                fadd (coef p) (Fin (2 # 3))) |}.

Definition Qpow (q : Q) (n : nat) : Q := Qred (Qpower q (Z.of_nat n)).

Definition fcdf (x : float) (d1 d2 : Z) : float :=
  match x with
  | Fin q =>
      match Qcompare q 0 with
      | Gt =>
          if ((d1 =? 2) && (0 <? d2) && Z.even d2)%Z%bool then
            Fin (Qred (1 - Qpow (inject_Z d2 / (inject_Z d2 + 2 * q))
                                (Z.to_nat (d2 / 2))))
          else Fin (Qred (q / (1 + q)))
      | _ => Fin 0
      end
  | PInf => Fin 1
  | NInf => Fin 0
  | NaN => NaN
  end.

Definition oneway (groups : list (list Q)) : float * float :=
  let all := concat groups in
  let grand := mean all in
  let ssb :=
    Qsum (map (fun g => Qlen g * (mean g - grand) * (mean g - grand)) groups) in
  let ssw := Qsum (map (fun g => dev2 g g) groups) in
  let k := Qlen (map Qsum groups) in
  let f := fdiv (Fin (ssb / (k - 1))) (Fin (ssw / (Qlen all - k))) in
  (f, fdiv (Fin 1) (fadd (Fin 1) f)).

Definition welch (a b : list Q) : float * float :=
  let se := sqrt4 (Fin (dev2 a a / (Qlen a - 1) / Qlen a
                        + dev2 b b / (Qlen b - 1) / Qlen b)) in
  let t := fdiv (Fin (mean a - mean b)) se in
  (t, fdiv (Fin 1) (fadd (Fin 1) (fmul t t))).

Definition mixed (y : list cell) (X : DataFrame) (groups : list cell)
    : option MixedLMResults :=
  Some {| converged := true;
          m_nobs := Z.of_nat (length y);
          k_re := 1;
          llf := Fin (-(12345678 # 100000));
          aic := NaN;
          bic := NaN;
          fe_params_index := columns X;
          fe_params := fun _ => Fin (1 # 8);
          bse_fe_index := columns X;
          bse_fe := fun _ => Fin (1 # 16) |}.

Definition anova (m : OLSResults) : option (list (string * AnovaRow)) :=
  Some [ ("C(category)",
          {| sum_sq := Fin 10; df_ := Fin 3; F_ := Fin 2; PR_F := Fin (1 # 9) |});
         ("Residual",
          {| sum_sq := ssr m; df_ := Fin 6; F_ := NaN; PR_F := NaN |}) ].

Definition cell_text_of (c : cell) : string :=
  match c with Str s => s | _ => "" end.

(** Indicator columns for [category], first level dropped. *)
Definition dummies (d : DataFrame) : DataFrame :=
  let levels := tl (sorted (unique (col "category" d))) in
  let names := map (fun c => String.append "category_" (cell_text_of c)) levels in
  mkDF (filter (fun c => negb (String.eqb c "category")) (columns d) ++ names)
       (map (fun w =>
               filter (fun kv => negb (String.eqb (fst kv) "category")) w
               ++ map (fun c =>
                         (String.append "category_" (cell_text_of c),
                          Num (if cell_eqb (row_get "category" w) c then 1 else 0)))
                      levels)
            (rows d)).

Definition zstr (z : Z) : string :=
  NilZero.string_of_int (Z.to_int z).

#[export] Instance libs : Libs := {|
  HAS_STATSMODELS := true;
  HAS_PINGOUIN := false;
  ols_fit := fit;
  anova_lm := anova;
  mixedlm_fit := mixed;
  f_cdf := fcdf;
  f_oneway := oneway;
  ttest_ind := welch;
  np_sqrt := sqrt4;
  get_dummies := dummies;
  parse_numeric := fun _ => None;
  cell_repr := fun c => match c with
                        | Str s => s
                        | Num q => zstr (Qfloor q)
                        | Bool true => "True"
                        | Bool false => "False"
                        | NA => "nan"
                        end;
  key_repr := fun q => zstr (Qfloor q);
  np_repr := fun _ => "?"
|}.

(** One observation: category, country, region, format, era, year,
    height; verified and unflagged. *)
Definition obs (cat country region fmt : string) (era year : Z) (h : Q) : row :=
  [ ("player_id", Str (String.append cat (String.append country (zstr year))));
    ("country", Str country);
    ("category", Str cat);
    ("height_cm", Num h);
    ("height_verified", Bool true);
    ("pop_height_birth_cohort", Num 175);
    ("height_excess", Num (h - 175));
    ("tournament_id", Str (String.append fmt (zstr year)));
    ("format", Str fmt);
    ("tournament_year", Num (inject_Z year));
    ("era", Num (inject_Z era));
    ("region", Str region);
    ("flag", NA) ].

Definition schema : list string :=
  ["player_id"; "country"; "category"; "height_cm"; "height_verified";
   "pop_height_birth_cohort"; "height_excess"; "tournament_id"; "format";
   "tournament_year"; "era"; "region"; "flag"].

(** Twelve batsmen: a flat trend up to 2003, a steep one afterwards. *)
Definition bat12 : DataFrame :=
  mkDF schema
    [ obs "BAT" "AUS" "Oceania" "ODI" 1 1992 178;
      obs "BAT" "ENG" "Europe" "ODI" 1 1992 180;
      obs "BAT" "IND" "Asia" "ODI" 1 1996 179;
      obs "BAT" "PAK" "Asia" "ODI" 1 1996 178;
      obs "BAT" "AUS" "Oceania" "ODI" 2 1999 180;
      obs "BAT" "ENG" "Europe" "ODI" 2 2003 179;
      obs "BAT" "IND" "Asia" "T20" 3 2007 181;
      obs "BAT" "PAK" "Asia" "T20" 3 2009 183;
      obs "BAT" "AUS" "Oceania" "ODI" 3 2011 184;
      obs "BAT" "ENG" "Europe" "T20" 4 2012 186;
      obs "BAT" "IND" "Asia" "ODI" 4 2015 188;
      obs "BAT" "PAK" "Asia" "T20" 4 2016 190 ].

(** Four wicket-keepers only. *)
Definition wk4 : DataFrame :=
  mkDF schema
    [ obs "WK" "AUS" "Oceania" "ODI" 1 1992 175;
      obs "WK" "ENG" "Europe" "ODI" 2 1999 176;
      obs "WK" "IND" "Asia" "ODI" 3 2007 174;
      obs "WK" "PAK" "Asia" "T20" 4 2012 177 ].

(** Five wicket-keepers. *)
Definition wk5 : DataFrame :=
  mkDF schema (rows wk4 ++ [ obs "WK" "NZL" "Oceania" "T20" 4 2016 178 ]).



(** The same libraries with a t-test that reports a very small p-value,
    as for two clearly separated groups. *)
Definition libs_small_p : Libs := {|
  HAS_STATSMODELS := true;
  HAS_PINGOUIN := false;
  ols_fit := fit;
  anova_lm := anova;
  mixedlm_fit := mixed;
  f_cdf := fcdf;
  f_oneway := oneway;
  ttest_ind := fun _ _ => (Fin 12, Fin (1 # 10000000));
  np_sqrt := sqrt4;
  get_dummies := dummies;
  parse_numeric := fun _ => None;
  cell_repr := @cell_repr libs;
  key_repr := @key_repr libs;
  np_repr := @np_repr libs
|}.

End Sample.

(* ================================================================== *)
(** * Vocabulary of the statements *)
(* ================================================================== *)

(** The fields of a coefficient entry and the decimals each is kept to. *)
Definition coef_fields : list string :=
  ["estimate"; "std_err"; "t_value"; "p_value"; "ci_lower"; "ci_upper"].

Definition places (field : string) : nat :=
  if String.eqb field "p_value" then 6%nat else 4%nat.

(** The quantity of a fitted model that a field of a coefficient entry
    reports. *)
Definition coef_value (model : OLSResults) (param field : string) : float :=
  if String.eqb field "estimate" then params model param
  else if String.eqb field "std_err" then bse model param
  else if String.eqb field "t_value" then tvalues model param
  else if String.eqb field "p_value" then pvalues model param
  else if String.eqb field "ci_lower" then fst (conf_int model param)
  else snd (conf_int model param).

(** [r] is [q] rounded to [nd] decimal places: a multiple of 10^-nd
    within half a unit of the last place of [q], the even multiple when
    [q] lies halfway between two. *)
Definition nearest (nd : nat) (q r : Q) : Prop :=
  exists z : Z,
    r == Qmake z (pow10 nd)
    /\ q - (1 # (2 * pow10 nd)) <= r <= q + (1 # (2 * pow10 nd))
    /\ (r - q == 1 # (2 * pow10 nd) \/ q - r == 1 # (2 * pow10 nd) ->
        Z.even z = true).

(** The document value [v] is the quantity [x] rounded to [nd] decimal
    places; an infinity or NaN is kept as it is. *)
Definition rounds_to (nd : nat) (x : float) (v : pyobj) : Prop :=
  match x with
  | Fin q => exists r, v = PyFloat (Fin r) /\ nearest nd q r
  | _ => v = PyFloat x
  end.

(** The same for a quantity that is reported as [None] when it is NaN. *)
Definition none_or_rounds_to (nd : nat) (x : float) (v : pyobj) : Prop :=
  if isnan x then v = PyNone else rounds_to nd x v.

(** The Chow statistic in the words of the specification:
    F = ((RSS_full − RSS_restricted) / k) / (RSS_restricted / (n − 2k)). *)
Definition chow_statistic_spec (rss_full rss_restricted : Q) (k n : Z) : Q :=
  ((rss_full - rss_restricted) / inject_Z k)
  / (rss_restricted / inject_Z (n - 2 * k)).

Section Scores.

Context {L : Libs}.

(** What one candidate year contributes to the search on a slice: its
    statistic and p-value when both segments hold at least 5 rows and
    the three fits return. *)
Definition score (subset : DataFrame) (bp : Z) : option (float * float) :=
  if admissible subset bp
  then chow_test subset (pre_of bp subset) (post_of bp subset)
  else None.

(** The state of the search after the candidates [seen]. *)
Definition search_inv (subset : DataFrame) (seen : list Z) (st : best)
    : Prop :=
  let '(obp, bf, bpv) := st in
  (forall c fc pc, In c seen -> score subset c = Some (fc, pc) ->
                   fgtb fc bf = false)
  /\ match obp with
     | None => bf = Fin (-1) /\ bpv = Fin 1
     | Some bp =>
         exists l1 l2,
           seen = l1 ++ bp :: l2
           /\ score subset bp = Some (bf, bpv)
           /\ fgtb bf (Fin (-1)) = true
           /\ forall c fc pc, In c l1 -> score subset c = Some (fc, pc) ->
                              fgtb bf fc = true \/ isnan fc = true
     end.

End Scores.

Section PairEntries.

Context {L : Libs}.

(** The entry of a pair of regions. *)
Definition pair_entry (subset : DataFrame) (C : Z) (r1 r2 : cell) : pyobj :=
  let '(t, p) :=
    ttest_ind (region_heights r1 subset) (region_heights r2 subset) in
  PyDict
    [ (KStr "pair",
       PyStr (String.append (cell_text r1)
                (String.append " vs " (cell_text r2))));
      (KStr "t", PyFloat (pyround t 4));
      (KStr "p_adj",
       PyFloat (pyround (pymin (fmul p (of_Z C)) (Fin 1)) 6)) ].

End PairEntries.


(** ** Round trips of the results document *)

Fixpoint nodupb (l : list string) : bool :=
  match l with
  | [] => true
  | x :: t => negb (str_in x t) && nodupb t
  end.

(** No wrapper value anywhere in a document. *)
Fixpoint plain (o : pyobj) : bool :=
  match o with
  | PyNone | PyBool _ | PyInt _ | PyFloat _ | PyStr _ => true
  | PyList l => forallb plain l
  | PyDict d => forallb (fun kv => plain (snd kv)) d
  | _ => false
  end.

Section RoundTrip.

Context {L : Libs}.

(** The elements of a list, encoded from left to right. *)
Definition encode_list (default : hook) (l : list pyobj)
    : option (list json) :=
  fold_right
    (fun x acc =>
       match encode default x, acc with
       | Some j, Some js => Some (j :: js)
       | _, _ => None
       end)
    (Some []) l.

Definition encode_dict (default : hook) (d : pydict)
    : option (list (string * json)) :=
  fold_right
    (fun kv acc =>
       match encode default (snd kv), acc with
       | Some j, Some js => Some ((key_text (fst kv), j) :: js)
       | _, _ => None
       end)
    (Some []) d.

(** The members of an object, loaded from left to right into a dict. *)
Definition load_members (m : list (string * json)) (acc : pydict) : pydict :=
  fold_left (fun acc kv => dict_set (KStr (fst kv)) (json_load (snd kv)) acc)
    m acc.

(** A document with every dict key replaced by its text. *)
Fixpoint text_keys (o : pyobj) : pyobj :=
  match o with
  | PyList l => PyList (map text_keys l)
  | PyDict d =>
      PyDict (map (fun kv => (KStr (key_text (fst kv)), text_keys (snd kv))) d)
  | _ => o
  end.

(** In every dict of a document the keys have pairwise distinct texts. *)
Fixpoint distinct_keys (o : pyobj) : bool :=
  match o with
  | PyList l => forallb distinct_keys l
  | PyDict d =>
      nodupb (map (fun kv => key_text (fst kv)) d)
      && forallb (fun kv => distinct_keys (snd kv)) d
  | _ => true
  end.

End RoundTrip.

(** In every object of a tree the member names are pairwise distinct. *)
Fixpoint distinct_members (j : json) : bool :=
  match j with
  | JArr l => forallb distinct_members l
  | JObj m =>
      nodupb (map fst m) && forallb (fun kv => distinct_members (snd kv)) m
  | _ => true
  end.

(** ** Effects of a computation on the store *)

(** [m], started with at least [n] frames in the store, leaves the
    frames below [n] as they are, keeps the store at least as long, and
    adds to the log events [evs] with [Q a evs] for its result [a]. *)
Definition runs {A : Type} (n : nat) (m : M A)
    (Q : A -> list event -> Prop) : Prop :=
  forall s : state,
    (n <= length (heap s))%nat ->
    (n <= length (heap (snd (m s))))%nat
    /\ (forall r : nat, (r < n)%nat -> heap (snd (m s)) !! r = heap s !! r)
    /\ exists evs, log (snd (m s)) = log s ++ evs /\ Q (fst (m s)) evs.

(** A computation that logs nothing. *)
Definition quiet {A : Type} (n : nat) (m : M A) (Q : A -> Prop) : Prop :=
  runs n m (fun a evs => evs = [] /\ Q a).

Section Inputs.

Context {L : Libs}.

(** The analysis functions, as [main] calls them on a frame. *)
Definition analysis_functions : list (string * (ref -> M pydict)) :=
  [ ("table2_descriptive", call table2_descriptive);
    ("table3_unadjusted_regression", call table3_unadjusted_regression);
    ("table4_adjusted_regression", call table4_adjusted_regression);
    ("table5_country_regression", call table5_country_regression);
    ("table6_regional_anova", call table6_regional_anova);
    ("table7_breakpoint", call table7_breakpoint);
    ("table8_two_way_anova", table8_two_way_anova);
    ("table9_mixed_effects", table9_mixed_effects);
    ("table10_sensitivity", call table10_sensitivity) ].

(** One pass of the coercion loop over a row. *)
Definition coerce_step (cols : list string) (r : row) (c : string) : row :=
  if str_in c cols then row_set c (to_numeric (row_get c r)) r else r.

(** A row of the loaded table after the numeric columns were coerced. *)
Definition coerce_row (cols : list string) (r : row) : row :=
  fold_left (coerce_step cols) numeric_columns r.

Definition numeric_view (file : DataFrame) : DataFrame :=
  mkDF (columns file) (map (coerce_row (columns file)) (rows file)).

(** The height of a row of the file as the validity filter sees it. *)
Definition loaded_height (file : DataFrame) (r : row) : cell :=
  if str_in "height_cm" (columns file)
  then to_numeric (row_get "height_cm" r)
  else row_get "height_cm" r.

(** The rows of the file with a valid height: the frame [df_valid]. *)
Definition valid_rows (file : DataFrame) : DataFrame :=
  df_filter (fun r => notna (row_get "height_cm" r)) (numeric_view file).

(** The state in which the analyses start: the loaded table, the rows
    with a valid height, and their copy [df_valid]. *)
Definition loaded (file : DataFrame) : state :=
  mkState [numeric_view file; valid_rows file; valid_rows file] [].

End Inputs.

(** The input of a run is malformed: there is no file, or none of its
    rows has a valid height. *)
Definition malformed {L : Libs} (csv : option DataFrame) : bool :=
  match csv with
  | None => true
  | Some file => forallb (fun r => isna (loaded_height file r)) (rows file)
  end.

(** The value reached in a document by a path of dict keys. *)
Fixpoint lookup_path (path : list pykey) (o : pyobj) : option pyobj :=
  match path with
  | [] => Some o
  | k :: rest =>
      match o with
      | PyDict d =>
          match dict_get k d with
          | Some v => lookup_path rest v
          | None => None
          end
      | _ => None
      end
  end.

(* ================================================================== *)
(** * run_analysis.py: formatting of a coefficient *)
(* ================================================================== *)

(** A number as Python arithmetic and formatting take it from a
    document value ([bool] is a subtype of [int]). *)
Definition as_number (v : pyobj) : option float :=
  match v with
  | PyFloat x => Some x
  | PyInt z => Some (of_Z z)
  | PyBool b => Some (if b then Fin 1 else Fin 0)
  | _ => None
  end.

(** [c[name]] as a number; [None] when indexing or the use of the value
    as a number raises. *)
Definition number_at (name : string) (c : pyobj) : option float :=
  match c with
  | PyDict d =>
      match dict_get (KStr name) d with
      | Some v => as_number v
      | None => None
      end
  | _ => None
  end.

(** The significance marks of [format_coef]. *)
Definition stars (p : float) : string :=
  if fltb p (Fin (1 # 1000)) then "***"
  else if fltb p (Fin (1 # 100)) then "**"
  else if fltb p (Fin (5 # 100)) then "*"
  else "".

Section Formatting.

(** [fixed nd x] is the text of [f"{x:.{nd}f}"]: the number formatting of
    the language, which the embedding leaves open. *)
Variable fixed : nat -> float -> string.

(** [format_coef]; the dict argument may be [None]; the result is
    [None] when the function raises. *)
Definition format_coef (coef_dict : option pydict) (key : string)
    : option string :=
  match coef_dict with
  | None => Some "N/A"
  | Some d =>
      match dict_get (KStr key) d with
      | None => Some "N/A"
      | Some c =>
          match number_at "p_value" c, number_at "estimate" c,
                number_at "ci_lower" c, number_at "ci_upper" c with
          | Some p, Some estimate, Some ci_lower, Some ci_upper =>
              Some (String.append (fixed 4 estimate)
                      (String.append (stars p)
                         (String.append " ["
                            (String.append (fixed 3 ci_lower)
                               (String.append ", "
                                  (String.append (fixed 3 ci_upper)
                                     "]"))))))
          | _, _, _, _ => None
          end
      end
  end.

End Formatting.

(* ================================================================== *)
(** * Frames with the columns a function reads *)
(* ================================================================== *)

(** The frame has the columns [cols]. Indexing a frame by a column it
    lacks raises [KeyError]; the merged file has all the columns of the
    study, and the properties of the functions that index columns
    unguarded are stated for frames that have them. *)
Definition has_columns (cols : list string) (df : DataFrame) : bool :=
  forallb (fun c => str_in c (columns df)) cols.

(* ================================================================== *)
(** * generate_figures.py: the numeric helpers *)
(* ================================================================== *)

Section Figures.

Context {L : Libs}.

(** [_adjusted_slope]: slope and p-value of the year in the adjusted
    model. The outer [None] is an exception that leaves the function
    (the [dropna] before the [try] on a frame without the columns); the
    inner [None] stands for the returned pair [(None, None)]. *)
Definition _adjusted_slope (subset : DataFrame)
    : option (option (float * float)) :=
  if negb HAS_STATSMODELS then Some None
  else if negb (has_columns
                  ["height_cm"; "tournament_year"; "pop_height_birth_cohort"]
                  subset)
  then None
  else
    let data :=
      dropna ["height_cm"; "tournament_year"; "pop_height_birth_cohort"]
        subset in
    if (len data <? 10)%nat then Some None
    else
      match ols_fit adjusted_formula data with
      | None => Some None
      | Some model =>
          if str_in "tournament_year" (params_index model)
          then Some (Some (params model "tournament_year",
                           pvalues model "tournament_year"))
          else Some None
      end.

(** The slice of a panel of figure 6. *)
Definition fig6_slice (cat : string) (df : DataFrame) : DataFrame :=
  complete_hy (where_eq "category" cat df).

(** The breakpoint loop of [_country_segmented_regression], one
    iteration. *)
Definition country_step (sub : DataFrame) (st : best) (bp : Z) : best :=
  let pre := pre_of bp sub in
  let post := post_of bp sub in
  if ((len pre <? 5)%nat || (len post <? 5)%nat)%bool then st
  else
    match ols_fit year_formula sub with
    | None => st
    | Some model_full =>
        match ols_fit year_formula pre with
        | None => st
        | Some model_pre =>
            match ols_fit year_formula post with
            | None => st
            | Some model_post =>
                let rss_full := ssr model_full in
                let rss_rest := fadd (ssr model_pre) (ssr model_post) in
                let k := 2%Z in
                let n := Z.of_nat (len sub) in
                let f_stat :=
                  fdiv (fdiv (fsub rss_full rss_rest) (of_Z k))
                       (fdiv rss_rest (of_Z (n - 2 * k))) in
                let '(_, best_f, _) := st in
                if fgtb f_stat best_f then
                  (Some bp, f_stat, fsub (Fin 1) (f_cdf f_stat k (n - 2 * k)))
                else st
            end
        end
    end.

(** What a country panel is drawn with: the selected breakpoint with its
    statistic, or [None] for the single regression line ("No valid BP");
    a panel with fewer than 10 rows is left empty. *)
Definition country_panel (sub : DataFrame) : option (option (Z * float * float)) :=
  if (len sub <? 10)%nat then None
  else
    let '(best_bp, best_f, best_p) :=
      if HAS_STATSMODELS
      then fold_left (country_step sub)
             [1996; 1999; 2003; 2007; 2010; 2012]%Z best_init
      else best_init in
    match best_bp with
    | None => Some None
    | Some bp => Some (Some (bp, best_f, best_p))
    end.

(** The numeric columns in the order [main] of generate_figures.py
    coerces them. *)
Definition figure_numeric_columns : list string :=
  ["height_cm"; "tournament_year"; "pop_height_birth_cohort";
   "height_excess"; "era"; "birth_year"; "age_at_tournament"].

(** [main] of generate_figures.py up to [setup_style()]: the exit
    status, or the frame [df_valid] the figures are drawn from. *)
Definition figures_load (csv : option DataFrame) : M (outcome + ref) :=
  match csv with
  | None => ret (inl (SysExit 1))
  | Some file =>
      df <- alloc file ;;
      coerce_columns df figure_numeric_columns ;;;
      with_height <- ref_filter (fun r => notna (row_get "height_cm" r)) df ;;
      df_valid <- ref_copy with_height ;;
      v <- load df_valid ;;
      if (len v =? 0)%nat then ret (inl (SysExit 1))
      else ret (inr df_valid)
  end.

End Figures.

(* ================================================================== *)
(** * generate_figures.py: the panels of figure 6 *)
(* ================================================================== *)

Section Panels.

Context {L : Libs}.

(** What a panel of figure 6 is drawn with: breakpoint, statistic and
    p-value; [None] is the panel "Insufficient data". *)
Definition fig6_panel (cat : string) (df : DataFrame)
    : option (Z * float * float) :=
  let subset := fig6_slice cat df in
  if (len subset <? 10)%nat then None else Some (fig6_search subset).

(** A segment gets its regression line unless [len(seg) < 3]. *)
Definition segment_drawn (seg : DataFrame) : bool := negb (len seg <? 3)%nat.

End Panels.

(* ================================================================== *)
(** * build_dashboard_data.py: the callouts read from the document *)
(* ================================================================== *)

(** Python numbers as [json.load] yields them ([bool] counts as [int]). *)
Inductive pynum : Type :=
| NInt (z : Z)
| NFloat (x : float).

Definition as_pynum (o : pyobj) : option pynum :=
  match o with
  | PyBool b => Some (NInt (if b then 1 else 0))
  | PyInt z => Some (NInt z)
  | PyFloat x => Some (NFloat x)
  | _ => None
  end.

Definition num_float (n : pynum) : float :=
  match n with NInt z => of_Z z | NFloat x => x end.

Definition py_of_num (n : pynum) : pyobj :=
  match n with NInt z => PyInt z | NFloat x => PyFloat x end.

Definition num_mul (a b : pynum) : pynum :=
  match a, b with
  | NInt x, NInt y => NInt (x * y)
  | _, _ => NFloat (fmul (num_float a) (num_float b))
  end.

Definition num_add (a b : pynum) : pynum :=
  match a, b with
  | NInt x, NInt y => NInt (x + y)
  | _, _ => NFloat (fadd (num_float a) (num_float b))
  end.

Definition num_is_zero (n : pynum) : bool :=
  match n with
  | NInt z => (z =? 0)%Z
  | NFloat (Fin q) => Qeq_bool q 0
  | NFloat _ => false
  end.

(** [a / b] on Python numbers: a float, or [ZeroDivisionError]. *)
Definition num_truediv (a b : pynum) : option float :=
  if num_is_zero b then None else Some (fdiv (num_float a) (num_float b)).

(** [o[k]] for a text key; [None] when it raises ([KeyError] on a dict
    without the key, [TypeError] on a value that is no dict). *)
Definition getitem (k : string) (o : pyobj) : option pyobj :=
  match o with
  | PyDict d => dict_get (KStr k) d
  | _ => None
  end.

(** [o[k1][k2]...] *)
Fixpoint getpath (path : list string) (o : pyobj) : option pyobj :=
  match path with
  | [] => Some o
  | k :: rest =>
      match getitem k o with
      | Some v => getpath rest v
      | None => None
      end
  end.

(** [sum(excess["mean"][c] * excess["count"][c] for c in excess["count"])];
    a product or a sum that is no number ends in [TypeError]. *)
Definition total_excess_of (excess : pyobj) : option pynum :=
  match getitem "count" excess with
  | Some (PyDict count) =>
      fold_left
        (fun acc kv =>
           match acc with
           | None => None
           | Some a =>
               match getitem "mean" excess with
               | Some (PyDict mean) =>
                   match dict_get (fst kv) mean with
                   | Some m =>
                       match as_pynum m, as_pynum (snd kv) with
                       | Some x, Some y => Some (num_add a (num_mul x y))
                       | _, _ => None
                       end
                   | None => None
                   end
               | _ => None
               end
           end)
        count (Some (NInt 0))
  | _ => None
  end.

(** [sum(excess["count"].values())] *)
Definition total_n_of (excess : pyobj) : option pynum :=
  match getitem "count" excess with
  | Some (PyDict count) =>
      fold_left
        (fun acc kv =>
           match acc, as_pynum (snd kv) with
           | Some a, Some y => Some (num_add a y)
           | _, _ => None
           end)
        count (Some (NInt 0))
  | _ => None
  end.

(** The entry of one country in ["country_slopes"]. *)
Definition country_slope (data : pyobj) : option pyobj :=
  match getpath ["coefficients"; "tournament_year"; "estimate"] data,
        getpath ["coefficients"; "tournament_year"; "p_value"] data,
        getitem "n" data with
  | Some slope, Some p_value, Some n =>
      Some (PyDict [ (KStr "slope", slope);
                     (KStr "p_value", p_value);
                     (KStr "n", n) ])
  | _, _, _ => None
  end.

(** The loop over [analysis["table5_country"].items()]. *)
Fixpoint country_slopes (items : pydict) (acc : pydict) : option pydict :=
  match items with
  | [] => Some acc
  | (country, data) :: rest =>
      match country_slope data with
      | Some entry => country_slopes rest (dict_set country entry acc)
      | None => None
      end
  end.

Section Dashboard.

Context {L : Libs}.

(** [build_analysis_stats]; the argument is the content of
    [analysis_results.json]; [None] when an exception leaves the
    function. *)
Definition build_analysis_stats (file : json) : option pydict :=
  let analysis := json_load file in
  match getpath ["table2_descriptive"; "overall"] analysis,
        getpath ["table2_descriptive"; "excess_by_category"] analysis with
  | Some overall, Some excess =>
      match total_excess_of excess, total_n_of excess with
      | Some total_excess, Some total_n =>
          match num_truediv total_excess total_n with
          | None => None
          | Some ratio =>
              let mean_excess := PyFloat (pyround ratio 1) in
              match getitem "n" overall,
                    getitem "n_unique_players" overall,
                    getitem "n_tournaments" overall,
                    getitem "mean_height" overall,
                    getpath ["table2_descriptive"; "by_category"; "mean"]
                      analysis,
                    getpath ["table2_descriptive"; "by_category"; "count"]
                      analysis,
                    getitem "mean" excess,
                    getpath ["table7_breakpoint"; "BAT"] analysis,
                    getpath ["table10_sensitivity"; "format_comparison"]
                      analysis,
                    getpath ["table10_sensitivity"; "fast_vs_bat"] analysis,
                    getpath ["table3_unadjusted"; "BAT"; "coefficients";
                             "tournament_year"; "estimate"] analysis,
                    getpath ["table4_adjusted"; "BAT"; "coefficients";
                             "tournament_year"; "estimate"] analysis,
                    getitem "table5_country" analysis with
              | Some n, Some n_players, Some n_tournaments, Some mean_height,
                Some category_means, Some category_counts,
                Some category_excess, Some breakpoint_bat,
                Some format_cmp, Some fast_bat_cmp,
                Some unadjusted, Some adjusted, Some (PyDict table5) =>
                  match country_slopes table5 [] with
                  | None => None
                  | Some slopes =>
                      Some [ (KStr "n_observations", n);
                             (KStr "n_players", n_players);
                             (KStr "n_tournaments", n_tournaments);
                             (KStr "mean_excess", mean_excess);
                             (KStr "mean_height", mean_height);
                             (KStr "category_means", category_means);
                             (KStr "category_counts", category_counts);
                             (KStr "category_excess", category_excess);
                             (KStr "breakpoint_bat", breakpoint_bat);
                             (KStr "format_comparison", format_cmp);
                             (KStr "fast_vs_bat", fast_bat_cmp);
                             (KStr "bat_unadjusted_slope", unadjusted);
                             (KStr "bat_adjusted_slope", adjusted);
                             (KStr "country_slopes", PyDict slopes) ]
                  end
              | _, _, _, _, _, _, _, _, _, _, _, _, _ => None
              end
          end
      | _, _ => None
      end
  | _, _ => None
  end.

End Dashboard.

(* ================================================================== *)
(** * The results document as a function of the valid rows *)
(* ================================================================== *)


(** The result of a function of one frame when the store holds just
    that frame. *)
Definition on_frame {A : Type} (f : ref -> M A) (d : DataFrame) : A :=
  fst (f 0%nat (mkState [d] [])).

Section Document.

Context {L : Libs}.

(** The dict [all_results] of [main] for the frame [df_valid]. *)
Definition all_results_of (v : DataFrame) : pyobj :=
  PyDict
    [ (KStr "table2_descriptive", PyDict (table2_descriptive v));
      (KStr "table3_unadjusted", PyDict (table3_unadjusted_regression v));
      (KStr "table4_adjusted", PyDict (table4_adjusted_regression v));
      (KStr "table5_country", PyDict (table5_country_regression v));
      (KStr "table6_regional", PyDict (table6_regional_anova v));
      (KStr "table7_breakpoint", PyDict (table7_breakpoint v));
      (KStr "table8_two_way_anova",
       PyDict (on_frame table8_two_way_anova v));
      (KStr "table9_mixed_effects",
       PyDict (on_frame table9_mixed_effects v));
      (KStr "table10_sensitivity", PyDict (table10_sensitivity v)) ].

(** The document written for the valid rows of a file. *)
Definition document_of (file : DataFrame) : json :=
  match json_dump (all_results_of (valid_rows file)) with
  | Some doc => doc
  | None => JNull
  end.

(** [table9_mixed_effects] with the frames it creates named by their
    content: what the function computes from the rows of [df]. *)
Definition table9_of (d : DataFrame) : pydict :=
  if negb HAS_STATSMODELS then []
  else
    let s := dropna ["height_cm"; "tournament_year"; "country"] d in
    if (len s <? 10)%nat then []
    else if (nunique (col "country" s) <? 2)%nat then []
    else
      match on_frame (fit_mixed [])
              (dropna ["height_cm"; "tournament_year"; "category"] s) with
      | None => []
      | Some fit =>
          let results := dict_set (KStr "model1") (model1_entry fit) [] in
          let m2 :=
            dropna ["height_cm"; "tournament_year"; "pop_height_birth_cohort"]
              s in
          if ((10 <=? len m2)%nat && (2 <=? nunique (col "country" m2))%nat)%bool
          then
            match on_frame (fit_mixed ["pop_height_birth_cohort"]) m2 with
            | None => results
            | Some fit2 => dict_set (KStr "model2") (model2_entry fit2) results
            end
          else results
      end.

End Document.

(* ================================================================== *)
(** * Further sample data *)
(* ================================================================== *)

Module Cases.

Import Sample.

(** A stand-in for the number formatting of the language in the sample
    runs: the value scaled by 10^nd and rounded, as an integer. *)
Definition scaled_text (nd : nat) (x : float) : string :=
  match x with
  | Fin q => zstr (round_half_even (q * inject_Z (Zpos (pow10 nd))))
  | _ => "nan"
  end.

(** Recent tournaments only, every player of a format of one height. *)
Definition flat_formats : DataFrame :=
  mkDF schema
    [ obs "BAT" "AUS" "Oceania" "ODI" 3 2007 180;
      obs "BAT" "ENG" "Europe" "ODI" 3 2011 180;
      obs "BAT" "IND" "Asia" "ODI" 4 2015 180;
      obs "BAT" "PAK" "Asia" "T20" 3 2009 183;
      obs "BAT" "AUS" "Oceania" "T20" 4 2012 183;
      obs "BAT" "ENG" "Europe" "T20" 4 2016 183 ].

(** Twelve batsmen all of the nation AUS. *)
Definition aus12 : DataFrame :=
  mkDF schema
    (map (fun r => row_set "country" (Str "AUS") r) (rows bat12)).

(** Twelve batsmen and three fast bowlers. *)
Definition squad15 : DataFrame :=
  mkDF schema
    (rows bat12
     ++ [ obs "FAST" "AUS" "Oceania" "ODI" 2 1999 188;
          obs "FAST" "ENG" "Europe" "ODI" 3 2007 191;
          obs "FAST" "PAK" "Asia" "T20" 4 2012 194 ]).

End Cases.
(* ================================================================== *)
(** * Properties *)
(* ================================================================== *)

(** ** Rounding, evaluated *)

Example round_ex1 : pyround (Fin (4 # 10000000)) 6 = Fin (0 # 1000000).
Proof. reflexivity. Qed.
Example round_ex2 : pyround (Fin (25 # 1000000)) 4 = Fin (0 # 10000).
Proof. reflexivity. Qed.
Example round_ex3 : pyround (Fin (35 # 100000)) 4 = Fin (4 # 10000).
Proof. vm_compute. reflexivity. Qed.
Example round_ex4 : pyround (Fin (-(123456 # 100000))) 4 = Fin (-12346 # 10000).
Proof. vm_compute. reflexivity. Qed.

(** ** Dictionaries *)

Lemma key_eqb_refl (k : pykey) : key_eqb k k = true.
Proof.
  destruct k as [s | q]; simpl.
  - apply String.eqb_refl.
  - apply Qeq_bool_iff. reflexivity.
Qed.

Lemma key_eqb_sym (a b : pykey) : key_eqb a b = key_eqb b a.
Proof.
  destruct a as [s | p], b as [t | q]; simpl; try reflexivity.
  - apply String.eqb_sym.
  - destruct (Qeq_bool p q) eqn:E, (Qeq_bool q p) eqn:E'; try reflexivity.
    + apply Qeq_bool_iff in E. symmetry in E.
      apply Qeq_bool_iff in E. congruence.
    + apply Qeq_bool_iff in E'. symmetry in E'.
      apply Qeq_bool_iff in E'. congruence.
Qed.

Lemma key_eqb_trans (a b c : pykey) :
  key_eqb a b = true -> key_eqb b c = true -> key_eqb a c = true.
Proof.
  destruct a as [s | p], b as [t | q], c as [u | r]; simpl;
    try discriminate.
  - rewrite !String.eqb_eq. congruence.
  - rewrite !Qeq_bool_iff. intros -> ->. reflexivity.
Qed.

Lemma dict_get_set_eq (k : pykey) (v : pyobj) (d : pydict) :
  dict_get k (dict_set k v d) = Some v.
Proof.
  induction d as [| [k' w] d IH]; simpl.
  - now rewrite key_eqb_refl.
  - destruct (key_eqb k' k) eqn:E; simpl; rewrite E; auto.
Qed.

Lemma dict_get_set_ne (k k2 : pykey) (v : pyobj) (d : pydict) :
  key_eqb k2 k = false ->
  dict_get k (dict_set k2 v d) = dict_get k d.
Proof.
  intros Hne. induction d as [| [k' w] d IH]; simpl.
  - now rewrite Hne.
  - destruct (key_eqb k' k2) eqn:E; simpl.
    + destruct (key_eqb k' k) eqn:E'; [| reflexivity].
      rewrite key_eqb_sym in E.
      now rewrite (key_eqb_trans _ _ _ E E') in Hne.
    + destruct (key_eqb k' k); auto.
Qed.

Lemma has_key_set_eq (k : pykey) (v : pyobj) (d : pydict) :
  has_key k (dict_set k v d) = true.
Proof. unfold has_key. now rewrite dict_get_set_eq. Qed.

Lemma has_key_set_ne (k k2 : pykey) (v : pyobj) (d : pydict) :
  key_eqb k2 k = false -> has_key k (dict_set k2 v d) = has_key k d.
Proof. intros H. unfold has_key. now rewrite dict_get_set_ne. Qed.

(** Every value of a dict after an assignment is the assigned one or was
    there before. *)
Lemma dict_set_values (P : pyobj -> Prop) (k : pykey) (v : pyobj) (d : pydict) :
  P v -> Forall (fun kv => P (snd kv)) d ->
  Forall (fun kv => P (snd kv)) (dict_set k v d).
Proof.
  intros Hv Hd. induction Hd as [| [k' w] d Hw Hd IH]; simpl.
  - constructor; auto.
  - destruct (key_eqb k' k); constructor; auto.
Qed.

Lemma dict_get_In (k : pykey) (v : pyobj) (d : pydict) :
  dict_get k d = Some v -> exists k', In (k', v) d.
Proof.
  induction d as [| [k' w] d IH]; simpl; [discriminate |].
  destruct (key_eqb k' k).
  - intros [= ->]. eauto.
  - intros H. destruct (IH H) as [k2 Hin]. eauto.
Qed.

(** ** Rounding *)

Lemma decimals_pyround (x : float) (nd : nat) : decimals nd (pyround x nd).
Proof.
  destruct x as [q | | |]; simpl; auto.
  eexists. unfold Qround_nd. reflexivity.
Qed.

Lemma Qfloor_frac (q : Q) : 0 <= q - inject_Z (Qfloor q) < 1.
Proof.
  pose proof (Qfloor_le q). pose proof (Qlt_floor q).
  rewrite inject_Z_plus in H0. change (inject_Z 1) with 1 in H0.
  split; lra.
Qed.

(** Rounding never leaves an interval with integer bounds. *)
Lemma round_half_even_bounds (q : Q) (lo hi : Z) :
  inject_Z lo <= q <= inject_Z hi ->
  (lo <= round_half_even q <= hi)%Z.
Proof.
  intros [Hlo Hhi]. unfold round_half_even.
  pose proof (Qfloor_frac q) as [Hf0 Hf1].
  assert (Hfl : (lo <= Qfloor q)%Z).
  { apply Qfloor_resp_le in Hlo. now rewrite Qfloor_Z in Hlo. }
  assert (Hfh : (Qfloor q <= hi)%Z).
  { apply Qfloor_resp_le in Hhi. now rewrite Qfloor_Z in Hhi. }
  assert (Hstep : ~ q == inject_Z (Qfloor q) -> (Qfloor q + 1 <= hi)%Z).
  { intros Hne.
    destruct (Z.eq_dec (Qfloor q) hi) as [E | E]; [| lia].
    exfalso. apply Hne. rewrite E in *. lra. }
  destruct (Qcompare_spec (q - inject_Z (Qfloor q)) (1 # 2)) as [E | E | E].
  - destruct (Z.even (Qfloor q)); [lia |].
    split; [lia |]. apply Hstep. lra.
  - lia.
  - split; [lia |]. apply Hstep. lra.
Qed.

Lemma Qround_nd_unit (nd : nat) (q : Q) :
  0 <= q <= 1 -> 0 <= Qround_nd nd q <= 1.
Proof.
  intros [H0 H1]. unfold Qround_nd.
  set (s := pow10 nd).
  assert (Hs : 0 < inject_Z (Zpos s)) by (unfold Qlt; simpl; lia).
  destruct (round_half_even_bounds (q * inject_Z (Zpos s)) 0 (Zpos s))
    as [Ha Hb].
  { split.
    - change (inject_Z 0) with 0. nra.
    - nra. }
  unfold Qle. simpl. split; lia.
Qed.

(** ** Rounding to the nearest decimal *)

Lemma round_half_even_near (s : Q) :
  s - (1 # 2) <= inject_Z (round_half_even s) <= s + (1 # 2)
  /\ (inject_Z (round_half_even s) - s == 1 # 2
      \/ s - inject_Z (round_half_even s) == 1 # 2 ->
      Z.even (round_half_even s) = true).
Proof.
  unfold round_half_even.
  pose proof (Qfloor_frac s) as [Hf0 Hf1].
  set (f := Qfloor s) in *.
  assert (Hs : inject_Z (f + 1) == inject_Z f + 1).
  { rewrite inject_Z_plus. reflexivity. }
  destruct (Qcompare_spec (s - inject_Z f) (1 # 2)) as [E | E | E].
  - destruct (Z.even f) eqn:Hev.
    + split; [split; lra | auto].
    + split; [rewrite Hs; split; lra |].
      intros _. replace (f + 1)%Z with (Z.succ f) by lia.
      rewrite Z.even_succ, <- Z.negb_even, Hev. reflexivity.
  - split; [split; lra |]. intros [H | H]; lra.
  - split; [rewrite Hs; split; lra |]. rewrite Hs. intros [H | H]; lra.
Qed.

Lemma Qround_nd_nearest (nd : nat) (q : Q) : nearest nd q (Qround_nd nd q).
Proof.
  unfold nearest, Qround_nd. set (P := pow10 nd).
  destruct (round_half_even_near (q * inject_Z (Zpos P))) as [[Hlo Hhi] Htie].
  set (z := round_half_even (q * inject_Z (Zpos P))) in *.
  exists z. split; [reflexivity |].
  assert (Hx : 0 < inject_Z (Zpos P)) by (unfold Qlt; simpl; lia).
  assert (Ez : Qmake z P * inject_Z (Zpos P) == inject_Z z).
  { unfold Qeq, Qmult, inject_Z. simpl. lia. }
  assert (Eh : (1 # (2 * P)) * inject_Z (Zpos P) == 1 # 2).
  { unfold Qeq, Qmult, inject_Z. simpl. lia. }
  set (x := inject_Z (Zpos P)) in *.
  set (r := Qmake z P) in *.
  set (h := 1 # (2 * P)) in *.
  set (iz := inject_Z z) in *.
  clearbody x r h iz.
  split; [split |].
  - apply (Qmult_lt_0_le_reg_r _ _ x Hx). lra.
  - apply (Qmult_lt_0_le_reg_r _ _ x Hx). lra.
  - intros H. apply Htie.
    destruct H as [H | H]; [left | right].
    + assert (E : (r - q) * x == h * x) by (now apply Qmult_inj_r; [lra |]).
      lra.
    + assert (E : (q - r) * x == h * x) by (now apply Qmult_inj_r; [lra |]).
      lra.
Qed.

(** What [round(x, nd)] returns is [x] rounded to [nd] places. *)
Lemma pyround_rounds_to (nd : nat) (x : float) :
  rounds_to nd x (PyFloat (pyround x nd)).
Proof.
  destruct x as [q | | |]; simpl; try reflexivity.
  eexists. split; [reflexivity | apply Qround_nd_nearest].
Qed.

Lemma round_or_none_rounds_to (nd : nat) (x : float) :
  none_or_rounds_to nd x (round_or_none x nd).
Proof.
  unfold none_or_rounds_to, round_or_none.
  destruct (isnan x); [reflexivity | apply pyround_rounds_to].
Qed.

(** A dict built by assignments keeps a property of its entries. *)
Lemma dict_set_pairs (P : pykey -> pyobj -> Prop) (k : pykey) (v : pyobj)
    (d : pydict) :
  P k v ->
  (forall k' w, P k' w -> key_eqb k' k = true -> P k' v) ->
  Forall (fun kv => P (fst kv) (snd kv)) d ->
  Forall (fun kv => P (fst kv) (snd kv)) (dict_set k v d).
Proof.
  intros Hv Hsame Hd. induction Hd as [| [k' w] d Hw Hd IH]; simpl.
  - constructor; auto.
  - destruct (key_eqb k' k) eqn:E; constructor; eauto.
Qed.

Section Coefficients.

Context {L : Libs}.

(** The coefficient table holds, under each parameter name, the entry
    of that parameter. *)
Lemma coefficients_get (model : OLSResults) (names : list string)
    (key : string) (d0 : pydict) :
  dict_get (KStr key)
    (fold_left (fun d param => dict_set (KStr param) (coef_entry model param) d)
       names d0)
  = if str_in key names then Some (coef_entry model key)
    else dict_get (KStr key) d0.
Proof.
  revert d0. induction names as [| n names IH]; intros d0.
  - reflexivity.
  - cbn [fold_left]. rewrite IH. unfold str_in. cbn [existsb].
    fold (str_in key names).
    destruct (str_in key names); [now rewrite orb_true_r |].
    rewrite orb_false_r.
    destruct (String.eqb_spec key n) as [-> | Hne].
    + apply dict_get_set_eq.
    + apply dict_get_set_ne. simpl. apply String.eqb_neq. congruence.
Qed.

(** Every entry of the coefficient table belongs to a parameter of the
    model. *)
Lemma coefficients_pairs_from (model : OLSResults) (seen rest : list string)
    (d : pydict) :
  Forall (fun kv => exists p, In p (seen ++ rest) /\ fst kv = KStr p
                              /\ snd kv = coef_entry model p) d ->
  Forall (fun kv => exists p, In p (seen ++ rest) /\ fst kv = KStr p
                              /\ snd kv = coef_entry model p)
    (fold_left (fun d param => dict_set (KStr param) (coef_entry model param) d)
       rest d).
Proof.
  revert seen d. induction rest as [| p rest IH]; intros seen d Hd;
    [exact Hd |].
  cbn [fold_left].
  replace (seen ++ p :: rest) with ((seen ++ [p]) ++ rest) in *
    by now rewrite <- app_assoc.
  apply IH.
  apply (dict_set_pairs
           (fun k v => exists p0, In p0 ((seen ++ [p]) ++ rest)
                                  /\ k = KStr p0
                                  /\ v = coef_entry model p0)).
  - exists p. split; [| auto].
    apply in_or_app. left. apply in_or_app. right. now left.
  - intros k' w (p0 & Hin & -> & _) E. simpl in E.
    apply String.eqb_eq in E. subst p0. eauto.
  - exact Hd.
Qed.

Lemma coefficients_pairs (model : OLSResults) (names : list string) :
  Forall (fun kv => exists p, In p names /\ fst kv = KStr p
                              /\ snd kv = coef_entry model p)
    (fold_left (fun d param => dict_set (KStr param) (coef_entry model param) d)
       names []).
Proof. exact (coefficients_pairs_from model [] names [] (Forall_nil _)). Qed.

(** The six fields of a coefficient entry, each the quantity of the
    model rounded to its number of places. *)
Lemma coef_entry_rounds (model : OLSResults) (param : string) :
  exists e, coef_entry model param = PyDict e
            /\ map fst e = map KStr coef_fields
            /\ forall field, In field coef_fields ->
                 exists v, dict_get (KStr field) e = Some v
                           /\ rounds_to (places field)
                                (coef_value model param field) v.
Proof.
  eexists. split; [reflexivity |]. split; [reflexivity |].
  intros field Hin. unfold coef_fields in Hin. simpl in Hin.
  repeat (destruct Hin as [<- | Hin];
          [eexists; split; [reflexivity | apply pyround_rounds_to] |]).
  contradiction.
Qed.

End Coefficients.

(** ** The regression helper *)

Section OLS.

Context {L : Libs}.

(** The values of the coefficient table are entries built by
    [coef_entry], whatever the parameter names are. *)
Lemma coefficients_entries (model : OLSResults) (names : list string)
    (d0 : pydict) :
  Forall (fun kv => exists p, snd kv = coef_entry model p) d0 ->
  Forall (fun kv => exists p, snd kv = coef_entry model p)
    (fold_left (fun d param => dict_set (KStr param) (coef_entry model param) d)
       names d0).
Proof.
  revert d0. induction names as [| p names IH]; intros d0 H0; simpl; auto.
  apply IH.
  apply (dict_set_values (fun v => exists p, v = coef_entry model p)); eauto.
Qed.

(** Below the threshold nothing is fitted, whatever the environment. *)
Lemma safe_ols_too_few (formula : string) (data : DataFrame) :
  (len (dropna (formula_columns formula) data) < 5)%nat ->
  safe_ols formula data = None.
Proof.
  intros Hlt. unfold safe_ols.
  destruct (negb HAS_STATSMODELS); [reflexivity |].
  destruct (negb _); [reflexivity |].
  apply Nat.ltb_lt in Hlt. now rewrite Hlt.
Qed.

Lemma safe_ols_enough (formula : string) (data : DataFrame) :
  HAS_STATSMODELS = true ->
  forallb (fun c => str_in c (columns data)) (formula_columns formula) = true ->
  (5 <= len (dropna (formula_columns formula) data))%nat ->
  safe_ols formula data =
  option_map (ols_summary formula)
    (ols_fit formula (dropna (formula_columns formula) data)).
Proof.
  intros Hsm Hcols Hge. unfold safe_ols. rewrite Hsm, Hcols. simpl.
  apply Nat.ltb_ge in Hge. rewrite Hge.
  now destruct (ols_fit _ _).
Qed.

Lemma safe_ols_some (formula : string) (data : DataFrame) (res : pyobj) :
  safe_ols formula data = Some res ->
  exists model,
    ols_fit formula (dropna (formula_columns formula) data) = Some model
    /\ res = ols_summary formula model
    /\ (5 <= len (dropna (formula_columns formula) data))%nat.
Proof.
  unfold safe_ols.
  destruct (negb HAS_STATSMODELS); [discriminate |].
  destruct (negb _); [discriminate |].
  destruct (Nat.ltb_spec (len (dropna (formula_columns formula) data)) 5)
    as [Hlt | Hge]; [discriminate |].
  destruct (ols_fit _ _) as [model |]; [| discriminate].
  intros [= <-]. eauto.
Qed.

End OLS.

(** C2. A regression request is rejected (no model is returned) when
    fewer than 5 rows are complete in the columns the formula names;
    with 5 or more complete rows (statsmodels present, the named columns
    in the table) the model is fitted on exactly those rows, and its
    summary is what [safe_ols] returns. *)
Theorem safe_ols_row_threshold {L : Libs} (formula : string)
    (data : DataFrame) :
  let complete := dropna (formula_columns formula) data in
  ((len complete < 5)%nat -> safe_ols formula data = None)
  /\ (HAS_STATSMODELS = true ->
      forallb (fun c => str_in c (columns data)) (formula_columns formula)
        = true ->
      (5 <= len complete)%nat ->
      safe_ols formula data
        = option_map (ols_summary formula) (ols_fit formula complete)
      /\ forall model, ols_fit formula complete = Some model ->
           safe_ols formula data = Some (ols_summary formula model)).
Proof.
  intros complete. split.
  - apply safe_ols_too_few.
  - intros Hsm Hcols Hge.
    pose proof (safe_ols_enough formula data Hsm Hcols Hge) as E.
    split; [exact E |].
    intros model Hfit. fold complete in E. now rewrite E, Hfit.
Qed.

(** C6. In the summary of every fitted model the coefficient table
    holds one entry per parameter of the model and nothing else; an
    entry has exactly the six fields estimate, std_err, t_value, p_value,
    ci_lower and ci_upper, and each field is the corresponding quantity
    of the model rounded to the nearest value with 4 decimal places (6
    for the p-value), ties to the even digit. R² and adjusted R² are
    rounded to 4 places, the F statistic to 4 and its p-value to 6 (None
    when NaN). The fixed effects of a mixed model are rounded to 4
    places likewise (the standard error is None when the model has
    none). *)
Theorem fitted_values_rounded {L : Libs} (formula : string)
    (data : DataFrame) (res : pyobj) :
  safe_ols formula data = Some res ->
  (exists model d coefs,
      ols_fit formula (dropna (formula_columns formula) data) = Some model
      /\ res = PyDict d
      /\ dict_get (KStr "coefficients") d = Some (PyDict coefs)
      /\ (forall k entry, In (k, entry) coefs ->
            exists param e,
              In param (params_index model)
              /\ k = KStr param
              /\ entry = PyDict e
              /\ map fst e = map KStr coef_fields
              /\ forall field, In field coef_fields ->
                   exists v, dict_get (KStr field) e = Some v
                             /\ rounds_to (places field)
                                  (coef_value model param field) v)
      /\ (forall param, In param (params_index model) ->
            exists e,
              dict_get (KStr param) coefs = Some (PyDict e)
              /\ map fst e = map KStr coef_fields
              /\ forall field, In field coef_fields ->
                   exists v, dict_get (KStr field) e = Some v
                             /\ rounds_to (places field)
                                  (coef_value model param field) v)
      /\ (exists v, dict_get (KStr "r_squared") d = Some v
                    /\ rounds_to 4 (rsquared model) v)
      /\ (exists v, dict_get (KStr "adj_r_squared") d = Some v
                    /\ rounds_to 4 (rsquared_adj model) v)
      /\ (exists v, dict_get (KStr "f_statistic") d = Some v
                    /\ none_or_rounds_to 4 (fvalue model) v)
      /\ (exists v, dict_get (KStr "f_pvalue") d = Some v
                    /\ none_or_rounds_to 6 (f_pvalue model) v))
  /\ (forall (fit : MixedLMResults) (param : string),
        exists e, fixed_effect_entry fit param = PyDict e
                  /\ (exists v, dict_get (KStr "estimate") e = Some v
                                /\ rounds_to 4 (fe_params fit param) v)
                  /\ (exists v, dict_get (KStr "std_err") e = Some v
                                /\ if str_in param (bse_fe_index fit)
                                   then rounds_to 4 (bse_fe fit param) v
                                   else v = PyNone)).
Proof.
  intros Hres. split.
  - destruct (safe_ols_some _ _ _ Hres) as (model & Hfit & -> & _).
    exists model. eexists. eexists. split; [exact Hfit |].
    split; [reflexivity |]. split; [reflexivity |]. split.
    { intros k entry Hin.
      pose proof (coefficients_pairs model (params_index model)) as Hall.
      rewrite Forall_forall in Hall.
      destruct (Hall _ Hin) as (p & Hp & Hk & He). cbn [fst snd] in Hk, He.
      subst k entry.
      destruct (coef_entry_rounds model p) as (e & -> & Hkeys & Hfields).
      exists p, e. auto. }
    split.
    { intros param Hin. rewrite coefficients_get.
      assert (Hs : str_in param (params_index model) = true).
      { apply existsb_exists. exists param.
        split; [exact Hin | apply String.eqb_refl]. }
      rewrite Hs.
      destruct (coef_entry_rounds model param) as (e & -> & Hkeys & Hfields).
      exists e. auto. }
    repeat split; eexists; (split; [reflexivity |]);
      first [apply pyround_rounds_to | apply round_or_none_rounds_to].
  - intros fit param. eexists. split; [reflexivity |]. split.
    + eexists. split; [reflexivity | apply pyround_rounds_to].
    + eexists. split; [reflexivity |].
      destruct (str_in param (bse_fe_index fit));
        [apply pyround_rounds_to | reflexivity].
Qed.

(** ** Which slices have an entry *)

(** A loop that stores [g name] under [name] when there is one and
    passes over the name otherwise. *)
Lemma loop_get (f : pydict -> string -> pydict) (g : string -> option pyobj)
    (names : list string) (c : string) :
  (forall results name,
      f results name = match g name with
                       | Some v => dict_set (KStr name) v results
                       | None => results
                       end) ->
  NoDup names ->
  forall d0,
    dict_get (KStr c) (fold_left f names d0) =
    if existsb (String.eqb c) names
    then match g c with Some v => Some v | None => dict_get (KStr c) d0 end
    else dict_get (KStr c) d0.
Proof.
  intros Hf. induction names as [| n names IH]; intros Hnd d0; simpl.
  - reflexivity.
  - inversion Hnd as [| ? ? Hnotin Hnd']; subst.
    rewrite (IH Hnd'), Hf.
    destruct (String.eqb_spec c n) as [-> | Hne]; simpl.
    + assert (Hex : existsb (String.eqb n) names = false).
      { apply not_true_is_false. intros Hex.
        apply existsb_exists in Hex as (x & Hin & Heq).
        apply String.eqb_eq in Heq. now subst x. }
      rewrite Hex.
      destruct (g n) as [v |]; [apply dict_get_set_eq | reflexivity].
    + assert (Hget : dict_get (KStr c)
                       match g n with
                       | Some v => dict_set (KStr n) v d0
                       | None => d0
                       end = dict_get (KStr c) d0).
      { destruct (g n) as [v |]; [| reflexivity].
        apply dict_get_set_ne. simpl.
        apply String.eqb_neq. congruence. }
      rewrite Hget. reflexivity.
Qed.

Lemma NoDup_CATEGORIES : NoDup CATEGORIES.
Proof.
  unfold CATEGORIES.
  repeat (constructor; [simpl; intuition discriminate |]). constructor.
Qed.

Lemma NoDup_bp_slices : NoDup ["BAT"; "FAST"; "ALL"].
Proof.
  repeat (constructor; [simpl; intuition discriminate |]). constructor.
Qed.

Lemma existsb_eqb_In (c : string) (names : list string) :
  In c names -> existsb (String.eqb c) names = true.
Proof.
  intros Hin. apply existsb_exists. exists c. split; auto.
  apply String.eqb_refl.
Qed.

Section Skips.

Context {L : Libs}.

(** What table 3 stores for a category. *)
Lemma table3_entry (df : DataFrame) (cat : string) :
  In cat CATEGORIES ->
  dict_get (KStr cat) (table3_unadjusted_regression df) =
  let subset := complete_hy (where_eq "category" cat df) in
  if (len subset <? 5)%nat then None
  else Some (opt_py (safe_ols year_formula subset)).
Proof.
  intros Hin. unfold table3_unadjusted_regression.
  match goal with
  | |- context [fold_left ?f CATEGORIES []] =>
      set (loop := fold_left f CATEGORIES [])
  end.
  assert (Hloop : dict_get (KStr cat) loop =
                  let subset := complete_hy (where_eq "category" cat df) in
                  if (len subset <? 5)%nat then None
                  else Some (opt_py (safe_ols year_formula subset))).
  { unfold loop.
    rewrite (loop_get _
               (fun c =>
                  let subset := complete_hy (where_eq "category" c df) in
                  if (len subset <? 5)%nat then None
                  else Some (opt_py (safe_ols year_formula subset)))).
    - rewrite (existsb_eqb_In _ _ Hin). simpl.
      now destruct (len _ <? 5)%nat.
    - intros results name. unfold fit_slice. simpl.
      now destruct (len _ <? 5)%nat.
    - apply NoDup_CATEGORIES. }
  destruct (5 <=? len (complete_hy df))%nat; [| exact Hloop].
  rewrite dict_get_set_ne; [exact Hloop |].
  change (String.eqb "ALL" cat = false). apply String.eqb_neq. intros <-.
  unfold CATEGORIES in Hin. simpl in Hin. intuition discriminate.
Qed.

(** What table 7 stores for a slice. *)
Lemma table7_entry (df : DataFrame) (cat : string) :
  In cat ["BAT"; "FAST"; "ALL"] ->
  dict_get (KStr cat) (table7_breakpoint df) =
  let subset := bp_slice cat df in
  if (HAS_STATSMODELS && (10 <=? len subset)%nat)%bool
  then option_map (fun sel => PyDict (bp_entry subset sel))
         (selected (bp_search subset))
  else None.
Proof.
  intros Hin. unfold table7_breakpoint.
  destruct HAS_STATSMODELS; simpl negb; cbv iota; [| reflexivity].
  rewrite (loop_get _
             (fun c =>
                let subset := bp_slice c df in
                if (len subset <? 10)%nat then None
                else option_map (fun sel => PyDict (bp_entry subset sel))
                       (selected (bp_search subset)))).
  - rewrite (existsb_eqb_In _ _ Hin). cbv zeta.
    rewrite Nat.leb_antisym, andb_true_l.
    destruct (len _ <? 10)%nat; simpl; [reflexivity |].
    now destruct (selected _).
  - intros results name. unfold table7_slice. cbv zeta.
    destruct (len _ <? 10)%nat; [reflexivity |].
    now destruct (selected _).
  - apply NoDup_bp_slices.
Qed.

End Skips.

(** C1, as the code has it. A slice that is skipped leaves no entry:
    table 3 holds a category exactly when its slice has at least 5
    complete rows, and then the entry is the fitted summary, or an
    explicit None when the fit failed; table 7 holds a slice exactly
    when statsmodels is present, the slice has at least 10 rows and the
    search selected a breakpoint. *)
Theorem skipped_slices_are_omitted {L : Libs} (df : DataFrame) :
  (forall cat, In cat CATEGORIES ->
     let subset := complete_hy (where_eq "category" cat df) in
     dict_get (KStr cat) (table3_unadjusted_regression df) =
     if (len subset <? 5)%nat then None
     else Some (opt_py (safe_ols year_formula subset)))
  /\ (forall cat, In cat ["BAT"; "FAST"; "ALL"] ->
        let subset := bp_slice cat df in
        dict_get (KStr cat) (table7_breakpoint df) =
        if (HAS_STATSMODELS && (10 <=? len subset)%nat)%bool
        then option_map (fun sel => PyDict (bp_entry subset sel))
               (selected (bp_search subset))
        else None).
Proof.
  split; intros cat Hin.
  - now apply table3_entry.
  - now apply table7_entry.
Qed.

(** ** Order on floats *)

Ltac qcmp :=
  repeat match goal with
         | |- context [Qcompare ?a ?b] => destruct (Qcompare_spec a b)
         | H : context [Qcompare ?a ?b] |- _ => destruct (Qcompare_spec a b)
         end.

Lemma fltb_irrefl (x : float) : fltb x x = false.
Proof. destruct x; simpl; auto. qcmp; auto; lra. Qed.

Lemma fltb_trans (a b c : float) :
  fltb a b = true -> fltb b c = true -> fltb a c = true.
Proof.
  destruct a, b, c; simpl; try discriminate; auto.
  qcmp; try discriminate; auto; lra.
Qed.

(** Among values that are not NaN the order is total. *)
Lemma fltb_below (a b c : float) :
  fltb a b = true -> fltb a c = false -> isnan c = false -> fltb c b = true.
Proof.
  destruct a, b, c; simpl; try discriminate; auto.
  qcmp; try discriminate; auto; lra.
Qed.

Lemma fltb_feq (a b : float) : feq a b -> fltb a b = false.
Proof.
  destruct a, b; simpl; try contradiction; auto.
  intros E. qcmp; auto; lra.
Qed.

Lemma fltb_not_nan (a b : float) :
  fltb a b = true -> isnan a = false /\ isnan b = false.
Proof. destruct a, b; simpl; try discriminate; auto. Qed.

Lemma feq_nan_l (a b : float) : feq a b -> isnan a = isnan b.
Proof. destruct a, b; simpl; try contradiction; auto. Qed.

(** ** The Chow test of one candidate *)

Section Chow.

Context {L : Libs}.

Lemma chow_test_some (subset pre post : DataFrame) (f_stat p_value : float) :
  chow_test subset pre post = Some (f_stat, p_value) ->
  exists model_full model_pre model_post,
    ols_fit year_formula subset = Some model_full
    /\ ols_fit year_formula pre = Some model_pre
    /\ ols_fit year_formula post = Some model_post
    /\ let rss_full := ssr model_full in
       let rss_restricted := fadd (ssr model_pre) (ssr model_post) in
       let n := Z.of_nat (len subset) in
       f_stat = fdiv (fdiv (fsub rss_full rss_restricted) (of_Z 2))
                     (fdiv rss_restricted (of_Z (n - 4)))
       /\ p_value = fsub (Fin 1) (f_cdf f_stat 2 (n - 4)).
Proof.
  unfold chow_test.
  destruct (ols_fit year_formula subset) as [mf |]; [| discriminate].
  destruct (ols_fit year_formula pre) as [mpre |]; [| discriminate].
  destruct (ols_fit year_formula post) as [mpost |]; [| discriminate].
  intros [= <- <-]. exists mf, mpre, mpost. repeat split.
Qed.

(** On finite sums of squares with a nonzero restricted sum, the float
    computation is the formula of the specification. *)
Lemma chow_float_is_spec (a b : Q) (n : Z) :
  ~ b == 0 -> n <> 4%Z ->
  feq (fdiv (fdiv (fsub (Fin a) (Fin b)) (of_Z 2))
            (fdiv (Fin b) (of_Z (n - 4))))
      (Fin (chow_statistic_spec a b 2 n)).
Proof.
  intros Hb Hn. unfold chow_statistic_spec, of_Z, fsub, fneg, fadd, fdiv, Qsign.
  replace (n - 2 * 2)%Z with (n - 4)%Z by lia.
  assert (H2 : ~ inject_Z 2 == 0) by (unfold Qeq; simpl; lia).
  assert (Hn4 : ~ inject_Z (n - 4) == 0) by (unfold Qeq; simpl; lia).
  destruct (Qcompare_spec (inject_Z 2) 0) as [E | E | E];
    [contradiction | |];
    (destruct (Qcompare_spec (inject_Z (n - 4)) 0) as [E' | E' | E'];
     [contradiction | |]);
    (destruct (Qcompare_spec (b / inject_Z (n - 4)) 0) as [E2 | E2 | E2];
     [exfalso; apply Hb;
      assert (Hm : b / inject_Z (n - 4) * inject_Z (n - 4) == b)
        by (field; exact Hn4);
      rewrite E2 in Hm; lra | |]);
    simpl; unfold Qminus; reflexivity.
Qed.

(** The loop of the figure script is the loop of the analysis script. *)
Lemma fig6_step_is_bp_step (subset : DataFrame) (st : best) (bp : Z) :
  fig6_step subset st bp = bp_step subset st bp.
Proof.
  unfold fig6_step, bp_step, chow_test.
  destruct (_ || _)%bool; [reflexivity |].
  destruct (ols_fit year_formula subset) as [mf |]; [| reflexivity].
  destruct (ols_fit year_formula (pre_of bp subset)) as [mpre |];
    [| reflexivity].
  destruct (ols_fit year_formula (post_of bp subset)) as [mpost |];
    reflexivity.
Qed.

Lemma fig6_fold_is_bp_search (subset : DataFrame) :
  fold_left (fig6_step subset) candidate_years best_init = bp_search subset.
Proof.
  unfold bp_search. generalize best_init.
  induction candidate_years as [| c cs IH]; intros st; simpl; auto.
  now rewrite fig6_step_is_bp_step, IH.
Qed.

End Chow.

(** C3. For a candidate year that is evaluated on a slice of n rows,
    with RSS_full the residual sum of squares of the pooled fit and
    RSS_restricted the sum of those of the two segment fits, the
    statistic is ((RSS_full − RSS_restricted) / 2) / (RSS_restricted /
    (n − 4)) and the p-value is 1 − CDF_F(F; 2, n − 4); on finite sums with
    RSS_restricted and n − 4 nonzero this is the value of the formula of
    the specification with k = 2. The figure script computes the same. *)
Theorem chow_statistic_and_p_value {L : Libs} (subset : DataFrame) (bp : Z)
    (f_stat p_value : float) :
  chow_test subset (pre_of bp subset) (post_of bp subset)
    = Some (f_stat, p_value) ->
  (exists model_full model_pre model_post,
     ols_fit year_formula subset = Some model_full
     /\ ols_fit year_formula (pre_of bp subset) = Some model_pre
     /\ ols_fit year_formula (post_of bp subset) = Some model_post
     /\ let rss_full := ssr model_full in
        let rss_restricted := fadd (ssr model_pre) (ssr model_post) in
        let n := Z.of_nat (len subset) in
        f_stat = fdiv (fdiv (fsub rss_full rss_restricted) (of_Z 2))
                      (fdiv rss_restricted (of_Z (n - 4)))
        /\ p_value = fsub (Fin 1) (f_cdf f_stat 2 (n - 4))
        /\ forall a b : Q,
             rss_full = Fin a -> rss_restricted = Fin b ->
             ~ b == 0 -> n <> 4%Z ->
             feq f_stat (Fin (chow_statistic_spec a b 2 n)))
  /\ (forall st, fig6_step subset st bp = bp_step subset st bp).
Proof.
  intros H. split.
  - destruct (chow_test_some _ _ _ _ _ H)
      as (mf & mpre & mpost & Hf & Hpre & Hpost & HF & HP).
    exists mf, mpre, mpost. repeat (split; [assumption |]).
    cbv zeta in *. repeat (split; [assumption |]).
    intros a b Ha Hb Hb0 Hn. rewrite HF, Ha, Hb.
    now apply chow_float_is_spec.
  - intros st. apply fig6_step_is_bp_step.
Qed.

(** ** The breakpoint search *)

Section Search.

Context {L : Libs}.

Variable subset : DataFrame.

Lemma bp_step_score (st : best) (bp : Z) :
  bp_step subset st bp =
  match score subset bp with
  | None => st
  | Some (f_stat, p_value) =>
      if fgtb f_stat (snd (fst st)) then (Some bp, f_stat, p_value) else st
  end.
Proof.
  unfold bp_step, score, admissible.
  destruct (_ || _)%bool; simpl; [reflexivity |].
  destruct (chow_test _ _ _) as [[f p] |]; [| reflexivity].
  now destruct st as [[obp bf] bpv].
Qed.

Lemma above_floor (obp : option Z) (bf bpv : float) (seen : list Z) :
  search_inv subset seen (obp, bf, bpv) ->
  bf = Fin (-1) \/ fgtb bf (Fin (-1)) = true.
Proof.
  intros [_ H]. destruct obp as [bp |].
  - destruct H as (l1 & l2 & _ & _ & H & _). now right.
  - left. apply H.
Qed.

Lemma search_inv_step (seen : list Z) (st : best) (c : Z) :
  search_inv subset seen st -> search_inv subset (seen ++ [c]) (bp_step subset st c).
Proof.
  destruct st as [[obp bf] bpv]. intros Hinv.
  pose proof (above_floor _ _ _ _ Hinv) as Hfloor.
  destruct Hinv as [Hbest Hsel].
  rewrite bp_step_score. simpl snd. simpl fst.
  destruct (score subset c) as [[f p] |] eqn:Hsc.
  - destruct (fgtb f bf) eqn:Hgt.
    + (* the candidate becomes the best *)
      unfold fgtb in Hgt. split.
      * intros c' fc pc Hin Hc'. apply in_app_or in Hin as [Hin | [<- | []]].
        -- pose proof (Hbest _ _ _ Hin Hc') as Hle. unfold fgtb in *.
           destruct (fltb f fc) eqn:E; [| reflexivity].
           now rewrite (fltb_trans _ _ _ Hgt E) in Hle.
        -- rewrite Hsc in Hc'. injection Hc' as <- <-.
           apply fltb_irrefl.
      * exists seen, []. split; [reflexivity |]. split; [exact Hsc |]. split.
        -- unfold fgtb. destruct Hfloor as [-> | Hfl]; [exact Hgt |].
           unfold fgtb in Hfl. exact (fltb_trans _ _ _ Hfl Hgt).
        -- intros c' fc pc Hin Hc'.
           pose proof (Hbest _ _ _ Hin Hc') as Hle. unfold fgtb in *.
           destruct (isnan fc) eqn:Hnan; [now right | left].
           exact (fltb_below _ _ _ Hgt Hle Hnan).
    + (* the best stays *)
      split.
      * intros c' fc pc Hin Hc'. apply in_app_or in Hin as [Hin | [<- | []]].
        -- exact (Hbest _ _ _ Hin Hc').
        -- rewrite Hsc in Hc'. now injection Hc' as <- <-.
      * destruct obp as [bp |]; [| exact Hsel].
        destruct Hsel as (l1 & l2 & -> & Hrest).
        exists l1, (l2 ++ [c]). split; [| exact Hrest].
        now rewrite <- app_assoc.
  - split.
    + intros c' fc pc Hin Hc'. apply in_app_or in Hin as [Hin | [<- | []]].
      * exact (Hbest _ _ _ Hin Hc').
      * rewrite Hsc in Hc'. discriminate.
    + destruct obp as [bp |]; [| exact Hsel].
      destruct Hsel as (l1 & l2 & -> & Hrest).
      exists l1, (l2 ++ [c]). split; [| exact Hrest].
      now rewrite <- app_assoc.
Qed.

Lemma search_inv_fold (rest seen : list Z) (st : best) :
  search_inv subset seen st ->
  search_inv subset (seen ++ rest) (fold_left (bp_step subset) rest st).
Proof.
  revert seen st. induction rest as [| c rest IH]; intros seen st Hinv; simpl.
  - now rewrite app_nil_r.
  - replace (seen ++ c :: rest) with ((seen ++ [c]) ++ rest)
      by now rewrite <- app_assoc.
    apply IH. now apply search_inv_step.
Qed.

Lemma search_inv_init : search_inv subset [] best_init.
Proof. split; [intros ? ? ? [] | split; reflexivity]. Qed.

Lemma bp_search_inv : search_inv subset candidate_years (bp_search subset).
Proof. exact (search_inv_fold candidate_years [] best_init search_inv_init). Qed.

End Search.

(** In a strictly increasing list, what is smaller than an element
    stands before it. *)
Lemma increasing_before (l1 l2 : list Z) (x c : Z) :
  StronglySorted Z.lt (l1 ++ x :: l2) ->
  In c (l1 ++ x :: l2) -> (c < x)%Z -> In c l1.
Proof.
  induction l1 as [| y l1 IH]; simpl; intros Hs Hin Hlt.
  - inversion Hs as [| ? ? _ Hall]; subst.
    destruct Hin as [-> | Hin]; [lia |].
    rewrite Forall_forall in Hall. specialize (Hall _ Hin). lia.
  - inversion Hs as [| ? ? Hs' Hall]; subst.
    destruct Hin as [-> | Hin]; [now left | right].
    now apply IH.
Qed.

Lemma candidate_years_increasing : StronglySorted Z.lt candidate_years.
Proof.
  unfold candidate_years.
  repeat (constructor; [| repeat constructor; lia]). constructor.
Qed.

Lemma score_admissible {L : Libs} (subset : DataFrame) (bp : Z)
    (f p : float) :
  score subset bp = Some (f, p) ->
  (5 <= len (pre_of bp subset))%nat /\ (5 <= len (post_of bp subset))%nat
  /\ chow_test subset (pre_of bp subset) (post_of bp subset) = Some (f, p).
Proof.
  unfold score, admissible.
  destruct (Nat.ltb_spec (len (pre_of bp subset)) 5);
    destruct (Nat.ltb_spec (len (post_of bp subset)) 5);
    simpl; try discriminate.
  auto.
Qed.

(** C4. On every slice: rows are split at a candidate year into those
    with year ≤ bp and those with year > bp; a candidate with fewer than
    5 rows on a side is never selected; the selected candidate has the
    largest statistic among the candidates that were evaluated, and of
    candidates with an equal statistic the earliest year; when no
    candidate has 5 rows on both sides nothing is selected; when some
    evaluated candidate has a statistic above −1 something is. *)
Theorem breakpoint_selection {L : Libs} (subset : DataFrame) :
  (forall bp (r : row),
      In r (rows (pre_of bp subset)) <->
      In r (rows subset) /\ le_year bp (row_get "tournament_year" r) = true)
  /\ (forall bp (r : row),
      In r (rows (post_of bp subset)) <->
      In r (rows subset) /\ gt_year bp (row_get "tournament_year" r) = true)
  /\ (forall bp f p,
        bp_search subset = (Some bp, f, p) ->
        In bp candidate_years
        /\ (5 <= len (pre_of bp subset))%nat
        /\ (5 <= len (post_of bp subset))%nat
        /\ chow_test subset (pre_of bp subset) (post_of bp subset)
           = Some (f, p)
        /\ forall c fc pc,
             In c candidate_years ->
             (5 <= len (pre_of c subset))%nat ->
             (5 <= len (post_of c subset))%nat ->
             chow_test subset (pre_of c subset) (post_of c subset)
               = Some (fc, pc) ->
             fgtb fc f = false /\ (feq fc f -> (bp <= c)%Z))
  /\ ((forall c, In c candidate_years ->
         (len (pre_of c subset) < 5)%nat \/ (len (post_of c subset) < 5)%nat) ->
      bp_search subset = best_init /\ selected (bp_search subset) = None)
  /\ ((exists c fc pc,
         In c candidate_years
         /\ (5 <= len (pre_of c subset))%nat
         /\ (5 <= len (post_of c subset))%nat
         /\ chow_test subset (pre_of c subset) (post_of c subset)
            = Some (fc, pc)
         /\ fgtb fc (Fin (-1)) = true) ->
      exists bp f p, bp_search subset = (Some bp, f, p)
                     /\ selected (bp_search subset) = Some (bp, f, p)).
Proof.
  assert (Hscore : forall c fc pc,
             (5 <= len (pre_of c subset))%nat ->
             (5 <= len (post_of c subset))%nat ->
             chow_test subset (pre_of c subset) (post_of c subset)
               = Some (fc, pc) ->
             score subset c = Some (fc, pc)).
  { intros c fc pc H1 H2 H3. unfold score, admissible.
    apply Nat.ltb_ge in H1, H2. now rewrite H1, H2. }
  pose proof (bp_search_inv subset) as Hinv.
  split; [| split; [| split; [| split]]].
  - intros bp r. unfold pre_of, df_filter. simpl. apply filter_In.
  - intros bp r. unfold post_of, df_filter. simpl. apply filter_In.
  - intros bp f p Hres. rewrite Hres in Hinv.
    destruct Hinv as [Hbest (l1 & l2 & Hsplit & Hsc & Hfl & Hearlier)].
    destruct (score_admissible _ _ _ _ Hsc) as (Hpre & Hpost & Hchow).
    split; [rewrite Hsplit; apply in_elt |].
    repeat (split; [assumption |]).
    intros c fc pc Hin H1 H2 H3.
    pose proof (Hscore _ _ _ H1 H2 H3) as Hc.
    split; [exact (Hbest _ _ _ Hin Hc) |].
    intros Heq. destruct (Z_lt_le_dec c bp) as [Hlt | Hle]; [| lia].
    exfalso.
    assert (Hin1 : In c l1).
    { apply (increasing_before l1 l2 bp c); auto.
      - rewrite <- Hsplit. apply candidate_years_increasing.
      - now rewrite <- Hsplit. }
    destruct (Hearlier _ _ _ Hin1 Hc) as [Hgt | Hnan].
    + unfold fgtb in Hgt. rewrite (fltb_feq _ _ Heq) in Hgt. discriminate.
    + rewrite (feq_nan_l _ _ Heq) in Hnan.
      destruct (fltb_not_nan _ _ Hfl) as [_ Hn]. congruence.
  - intros Hnone.
    assert (E : bp_search subset = best_init).
    { unfold bp_search.
      assert (Hfold : forall l st,
                 (forall c, In c l -> In c candidate_years) ->
                 fold_left (bp_step subset) l st = st).
      { induction l as [| c l IH]; intros st Hl; simpl; auto.
        rewrite bp_step_score.
        assert (Hs : score subset c = None).
        { unfold score, admissible.
          destruct (Hnone c (Hl c (or_introl eq_refl))) as [H | H];
            apply Nat.ltb_lt in H; rewrite H; simpl;
            rewrite ?orb_true_r; reflexivity. }
        rewrite Hs. apply IH. intros c' Hc'. apply Hl. now right. }
      apply Hfold. auto. }
    split; [exact E |]. now rewrite E.
  - intros (c & fc & pc & Hin & H1 & H2 & H3 & Hgt).
    pose proof (Hscore _ _ _ H1 H2 H3) as Hc.
    destruct (bp_search subset) as [[obp bf] bpv].
    destruct Hinv as [Hbest Hsel].
    destruct obp as [bp |].
    + exists bp, bf, bpv. split; [reflexivity |].
      destruct Hsel as (l1 & l2 & Hsplit & _).
      assert (Hbp : In bp candidate_years)
        by (rewrite Hsplit; apply in_elt).
      unfold selected.
      destruct (Z.eqb_spec bp 0) as [-> | _]; [| reflexivity].
      exfalso. unfold candidate_years in Hbp. simpl in Hbp.
      intuition discriminate.
    + exfalso. destruct Hsel as [-> _].
      rewrite (Hbest _ _ _ Hin Hc) in Hgt. discriminate.
Qed.

(** ** Pairwise comparisons *)

Lemma n_pairs_succ (m : nat) :
  n_pairs (S m) = (Z.of_nat m + n_pairs m)%Z.
Proof.
  unfold n_pairs. rewrite Nat2Z.inj_succ.
  replace (Z.succ (Z.of_nat m) * (Z.succ (Z.of_nat m) - 1))%Z
    with (Z.of_nat m * 2 + Z.of_nat m * (Z.of_nat m - 1))%Z by lia.
  rewrite Z.div_add_l by lia. reflexivity.
Qed.

Lemma n_pairs_pos (k : nat) : (2 <= k)%nat -> (1 <= n_pairs k)%Z.
Proof.
  intros Hk. destruct k as [| [| m]]; try lia.
  rewrite !n_pairs_succ. unfold n_pairs.
  assert (0 <= Z.of_nat m * (Z.of_nat m - 1) / 2)%Z.
  { destruct m; [reflexivity |]. apply Z.div_pos; lia. }
  lia.
Qed.

(** The Bonferroni step on a p-value:
    between the raw value and 1, and it is min(p × C, 1). *)
Lemma bonferroni_bounds (q : Q) (C : Z) :
  0 <= q <= 1 -> (1 <= C)%Z ->
  exists a, pymin (fmul (Fin q) (of_Z C)) (Fin 1) = Fin a
            /\ a == Qmin (q * inject_Z C) 1
            /\ q <= a /\ a <= 1.
Proof.
  intros [H0 H1] HC.
  assert (HCq : 1 <= inject_Z C).
  { change 1 with (inject_Z 1). now rewrite <- Zle_Qle. }
  unfold pymin, fmul, of_Z, fltb.
  destruct (Qcompare_spec 1 (q * inject_Z C)) as [E | E | E].
  - exists (q * inject_Z C). split; [reflexivity |].
    split; [| split; [nra | lra]].
    symmetry. apply Q.min_l. lra.
  - exists 1. split; [reflexivity |].
    split; [| split; lra].
    symmetry. apply Q.min_r. lra.
  - exists (q * inject_Z C). split; [reflexivity |].
    split; [| split; [nra | lra]].
    symmetry. apply Q.min_l. lra.
Qed.

Section Pairs.

Context {L : Libs}.

Lemma pairwise_row_entries (subset : DataFrame) (C : Z) (r1 : cell)
    (rest : list cell) :
  pairwise_row subset C r1 rest = map (pair_entry subset C r1) rest.
Proof.
  unfold pairwise_row. apply map_ext. intros r2. unfold pair_entry.
  now destruct (ttest_ind _ _).
Qed.

Lemma pairwise_loop_length (subset : DataFrame) (C : Z) (regions : list cell) :
  Z.of_nat (List.length (pairwise_loop subset C regions))
  = n_pairs (List.length regions).
Proof.
  induction regions as [| r1 rest IH]; [reflexivity |].
  cbn [pairwise_loop List.length].
  rewrite length_app, Nat2Z.inj_add, IH, pairwise_row_entries, length_map.
  now rewrite n_pairs_succ.
Qed.

Lemma pairwise_loop_entries (subset : DataFrame) (C : Z) (regions : list cell)
    (entry : pyobj) :
  In entry (pairwise_loop subset C regions) ->
  exists r1 r2, In r1 regions /\ In r2 regions
                /\ entry = pair_entry subset C r1 r2.
Proof.
  induction regions as [| r1 rest IH]; [intros [] |].
  cbn [pairwise_loop]. intros Hin. apply in_app_or in Hin as [Hin | Hin].
  - rewrite pairwise_row_entries in Hin.
    apply in_map_iff in Hin as (r2 & <- & Hr2).
    exists r1, r2. simpl. auto.
  - destruct (IH Hin) as (a & b & Ha & Hb & ->).
    exists a, b. simpl. auto.
Qed.

Lemma table6_pairwise (df : DataFrame) :
  let subset := dropna ["height_cm"; "region"] df in
  let valid_regions :=
    filter (fun r => (2 <=? len (region_rows r subset))%nat)
      (sorted (unique (col "region" subset))) in
  (2 <= List.length valid_regions)%nat ->
  HAS_PINGOUIN = false ->
  dict_get (KStr "pairwise") (table6_regional_anova df)
  = Some (PyList (pairwise_loop subset (n_pairs (List.length valid_regions))
                    valid_regions)).
Proof.
  intros subset valid_regions Hk Hpg. unfold table6_regional_anova.
  fold subset. fold valid_regions. rewrite length_map.
  apply Nat.leb_le in Hk. rewrite Hk.
  destruct (f_oneway _) as [f_stat p_value]. rewrite Hpg.
  apply dict_get_set_eq.
Qed.

End Pairs.

(** C5, as the code has it. With k >= 2 valid groups there are
    C = k(k-1)/2 entries, one Welch t-test per pair; the adjusted p-value
    of a pair is min(p * C, 1.0), which lies between the raw p and 1.0;
    the value stored in the document is that adjusted value rounded to
    6 decimals, which lies between 0 and 1.0. *)
Theorem bonferroni_adjustment {L : Libs} (subset : DataFrame)
    (valid_regions : list cell) :
  (2 <= List.length valid_regions)%nat ->
  let C := n_pairs (List.length valid_regions) in
  Z.of_nat (List.length (pairwise_loop subset C valid_regions)) = C
  /\ forall entry,
       In entry (pairwise_loop subset C valid_regions) ->
       exists r1 r2 t p,
         In r1 valid_regions /\ In r2 valid_regions
         /\ ttest_ind (region_heights r1 subset) (region_heights r2 subset)
            = (t, p)
         /\ let p_adj := pymin (fmul p (of_Z C)) (Fin 1) in
            entry =
            PyDict
              [ (KStr "pair",
                 PyStr (String.append (cell_text r1)
                          (String.append " vs " (cell_text r2))));
                (KStr "t", PyFloat (pyround t 4));
                (KStr "p_adj", PyFloat (pyround p_adj 6)) ]
            /\ forall q, p = Fin q -> 0 <= q <= 1 ->
                 exists a r,
                   p_adj = Fin a
                   /\ a == Qmin (q * inject_Z C) 1
                   /\ q <= a /\ a <= 1
                   /\ pyround p_adj 6 = Fin r
                   /\ 0 <= r /\ r <= 1.
Proof.
  intros Hk C. split; [apply pairwise_loop_length |].
  intros entry Hin.
  destruct (pairwise_loop_entries _ _ _ _ Hin) as (r1 & r2 & H1 & H2 & ->).
  unfold pair_entry.
  destruct (ttest_ind _ _) as [t p] eqn:Ht.
  exists r1, r2, t, p. repeat (split; [auto |]).
  cbv zeta. intros q -> Hq.
  destruct (bonferroni_bounds q C Hq (n_pairs_pos _ Hk))
    as (a & Ha & Hmin & Hlo & Hhi).
  exists a, (Qround_nd 6 a). rewrite Ha.
  split; [reflexivity |].
  repeat (split; [assumption |]). split; [reflexivity |].
  apply Qround_nd_unit. lra.
Qed.

(** ** Effect size of FAST against BAT *)







Section Cohen.

Context {L : Libs}.



End Cohen.


(** ** Serialization *)

Lemma pyobj_induction (P : pyobj -> Prop) :
  P PyNone -> (forall b, P (PyBool b)) -> (forall z, P (PyInt z)) ->
  (forall x, P (PyFloat x)) -> (forall s, P (PyStr s)) ->
  (forall l, Forall P l -> P (PyList l)) ->
  (forall d, Forall (fun kv => P (snd kv)) d -> P (PyDict d)) ->
  (forall b, P (NpBool b)) -> (forall z, P (NpInt z)) ->
  (forall x, P (NpFloat x)) -> (forall l, P (NpArray l)) ->
  (forall s, P (PdTimestamp s)) ->
  forall o, P o.
Proof.
  intros HN HB HI HF HS HL HD HNB HNI HNF HNA HT.
  fix IH 1. intros [| b | z | x | s | l | d | b | z | x | l | s];
    [ exact HN | apply HB | apply HI | apply HF | apply HS | | | apply HNB
    | apply HNI | apply HNF | apply HNA | apply HT ].
  - apply HL. induction l as [| a l IHl]; constructor;
      [apply IH | exact IHl].
  - apply HD. induction d as [| [k v] d IHd]; constructor;
      [apply IH | exact IHd].
Qed.

Lemma json_induction (P : json -> Prop) :
  P JNull -> (forall b, P (JBool b)) -> (forall z, P (JInt z)) ->
  (forall x, P (JFloat x)) -> (forall s, P (JStr s)) ->
  (forall l, Forall P l -> P (JArr l)) ->
  (forall m, Forall (fun kv => P (snd kv)) m -> P (JObj m)) ->
  forall j, P j.
Proof.
  intros HN HB HI HF HS HL HO.
  fix IH 1. intros [| b | z | x | s | l | m];
    [ exact HN | apply HB | apply HI | apply HF | apply HS | | ].
  - apply HL. induction l as [| a l IHl]; constructor;
      [apply IH | exact IHl].
  - apply HO. induction m as [| [k v] m IHm]; constructor;
      [apply IH | exact IHm].
Qed.

Lemma str_in_In (s : string) (l : list string) :
  str_in s l = true <-> In s l.
Proof.
  unfold str_in. rewrite existsb_exists. split.
  - intros (x & Hin & E). apply String.eqb_eq in E. now subst.
  - intros Hin. exists s. split; auto. apply String.eqb_refl.
Qed.

Lemma nodupb_NoDup (l : list string) : nodupb l = true -> NoDup l.
Proof.
  induction l as [| x l IH]; simpl; [constructor |].
  intros H. apply andb_prop in H as [Hx Hl]. constructor; auto.
  intros Hin. apply str_in_In in Hin. rewrite Hin in Hx. discriminate.
Qed.

Lemma dict_set_fresh (k : pykey) (v : pyobj) (d : pydict) :
  dict_get k d = None -> dict_set k v d = d ++ [(k, v)].
Proof.
  induction d as [| [k' w] d IH]; simpl; [reflexivity |].
  destruct (key_eqb k' k); [discriminate |].
  intros H. now rewrite IH.
Qed.

Lemma dict_get_app_fresh (k k2 : pykey) (v : pyobj) (d : pydict) :
  dict_get k d = None -> key_eqb k2 k = false ->
  dict_get k (d ++ [(k2, v)]) = None.
Proof.
  induction d as [| [k' w] d IH]; simpl; intros H Hne.
  - now rewrite Hne.
  - destruct (key_eqb k' k); [discriminate | auto].
Qed.

Section Json.

Context {L : Libs}.

Lemma encode_PyList (h : hook) (l : list pyobj) :
  encode h (PyList l) = option_map JArr (encode_list h l).
Proof.
  reflexivity.
Qed.

Lemma encode_PyDict (h : hook) (d : pydict) :
  encode h (PyDict d) = option_map JObj (encode_dict h d).
Proof.
  simpl. f_equal. induction d as [| [k v] d IH]; simpl; [reflexivity |].
  now rewrite <- IH.
Qed.

Lemma json_load_JObj (m : list (string * json)) :
  json_load (JObj m) = PyDict (load_members m []).
Proof.
  simpl. f_equal. unfold load_members. generalize (@nil (pykey * pyobj)).
  induction m as [| [k v] m IH]; intros acc; simpl; [reflexivity |].
  apply IH.
Qed.

(** With the [str] hook every document can be written. *)
Lemma encode_str_total (o : pyobj) : exists j, encode str_hook o = Some j.
Proof.
  induction o using pyobj_induction; try (eexists; reflexivity).
  - rewrite encode_PyList.
    assert (Hl : exists js, encode_list str_hook l = Some js).
    { induction H as [| x l [j Hj] _ [js Hjs]]; simpl.
      - eexists; reflexivity.
      - rewrite Hj, Hjs. eexists; reflexivity. }
    destruct Hl as [js ->]. eexists; reflexivity.
  - rewrite encode_PyDict.
    assert (Hd : exists js, encode_dict str_hook d = Some js).
    { induction H as [| [k v] d [j Hj] _ [js Hjs]]; simpl in *.
      - eexists; reflexivity.
      - rewrite Hj, Hjs. eexists; reflexivity. }
    destruct Hd as [js ->]. eexists; reflexivity.
Qed.

Lemma json_dump_total (doc : pyobj) : exists j, json_dump doc = Some j.
Proof. apply encode_str_total. Qed.

(** Distinct member names are loaded one after the other. *)
Lemma load_members_distinct (m : list (string * json)) (acc : pydict) :
  nodupb (map fst m) = true ->
  (forall k, In k (map fst m) -> dict_get (KStr k) acc = None) ->
  load_members m acc
  = acc ++ map (fun kv => (KStr (fst kv), json_load (snd kv))) m.
Proof.
  revert acc. induction m as [| [k v] m IH]; intros acc Hnd Hfresh.
  - simpl. now rewrite app_nil_r.
  - cbn [map fst nodupb] in Hnd. apply andb_prop in Hnd as [Hk Hnd].
    cbn [load_members fold_left fst snd map].
    rewrite dict_set_fresh by (apply Hfresh; now left).
    fold (load_members m (acc ++ [(KStr k, json_load v)])).
    rewrite IH; auto.
    + now rewrite <- app_assoc.
    + intros k' Hin. apply dict_get_app_fresh.
      * apply Hfresh. now right.
      * simpl. apply String.eqb_neq. intros <-.
        apply str_in_In in Hin. rewrite Hin in Hk. discriminate.
Qed.

(** Loading a tree with distinct member names and writing it again
    gives the tree back, whatever the hook. *)
Lemma encode_load (h : hook) (j : json) :
  distinct_members j = true -> encode h (json_load j) = Some j.
Proof.
  induction j using json_induction; intros Hd; try reflexivity.
  - cbn [json_load]. rewrite encode_PyList.
    assert (Hl : encode_list h (map json_load l) = Some l).
    { cbn [distinct_members] in Hd. rewrite forallb_forall in Hd.
      induction H as [| x l Hx _ IHl]; simpl; [reflexivity |].
      rewrite Hx by (apply Hd; now left).
      rewrite IHl; [reflexivity |]. intros y Hy. apply Hd. now right. }
    now rewrite Hl.
  - rewrite json_load_JObj. cbn [distinct_members] in Hd.
    apply andb_prop in Hd as [Hnd Hall].
    rewrite load_members_distinct by (auto; intros; reflexivity).
    rewrite app_nil_l, encode_PyDict.
    assert (Hm : encode_dict h
                   (map (fun kv => (KStr (fst kv), json_load (snd kv))) m)
                 = Some m).
    { clear Hnd. rewrite forallb_forall in Hall.
      induction H as [| [k v] m Hx _ IHm]; simpl in *; [reflexivity |].
      rewrite Hx by (apply (Hall (k, v)); now left).
      rewrite IHm; [reflexivity |]. intros y Hy. apply Hall. now right. }
    now rewrite Hm.
Qed.

Lemma encode_list_some (h : hook) (l : list pyobj) (js : list json) :
  encode_list h l = Some js -> Forall2 (fun x j => encode h x = Some j) l js.
Proof.
  revert js. induction l as [| x l IH]; simpl; intros js.
  - intros [= <-]. constructor.
  - destruct (encode h x) as [j |] eqn:Ex; [| discriminate].
    destruct (encode_list h l) as [js' |]; [| discriminate].
    intros [= <-]. constructor; auto.
Qed.

Lemma encode_dict_some (h : hook) (d : pydict) (js : list (string * json)) :
  encode_dict h d = Some js ->
  Forall2 (fun kv kj => fst kj = key_text (fst kv)
                        /\ encode h (snd kv) = Some (snd kj)) d js.
Proof.
  revert js. induction d as [| [k v] d IH]; simpl; intros js.
  - intros [= <-]. constructor.
  - destruct (encode h v) as [j |] eqn:Ex; [| discriminate].
    destruct (encode_dict h d) as [js' |]; [| discriminate].
    intros [= <-]. constructor; auto.
Qed.

Lemma Forall2_keys (h : hook) (d : pydict) (js : list (string * json)) :
  Forall2 (fun kv kj => fst kj = key_text (fst kv)
                        /\ encode h (snd kv) = Some (snd kj)) d js ->
  map fst js = map (fun kv => key_text (fst kv)) d.
Proof.
  induction 1 as [| kv kj d js [Hk _] _ IH]; simpl; [reflexivity |].
  now rewrite Hk, IH.
Qed.

(** What is written for a document with distinct key texts has distinct
    member names. *)
Lemma encode_distinct (o : pyobj) :
  forall j, distinct_keys o = true -> encode str_hook o = Some j ->
            distinct_members j = true.
Proof.
  induction o using pyobj_induction; intros j Hd He;
    try (injection He as <-; reflexivity).
  - rewrite encode_PyList in He.
    destruct (encode_list str_hook l) as [js |] eqn:El; [| discriminate].
    injection He as <-. cbn [distinct_keys distinct_members] in *.
    apply encode_list_some in El. rewrite forallb_forall in Hd.
    apply forallb_forall. intros y Hy.
    induction El as [| x j l js Hxj _ IHl]; [destruct Hy |].
    inversion H as [| ? ? Hx Hl]; subst.
    destruct Hy as [<- | Hy].
    + apply (Hx j); auto. apply Hd. now left.
    + apply IHl; auto. intros z Hz. apply Hd. now right.
  - rewrite encode_PyDict in He.
    destruct (encode_dict str_hook d) as [js |] eqn:Ed; [| discriminate].
    injection He as <-. cbn [distinct_keys distinct_members] in *.
    apply andb_prop in Hd as [Hnd Hall].
    apply encode_dict_some in Ed.
    rewrite (Forall2_keys _ _ _ Ed), Hnd. simpl.
    rewrite forallb_forall in Hall. apply forallb_forall. intros y Hy.
    induction Ed as [| kv kj d js [_ Hxj] _ IHd]; [destruct Hy |].
    inversion H as [| ? ? Hx Hl]; subst.
    cbn [map nodupb] in Hnd. apply andb_prop in Hnd as [_ Hnd].
    destruct Hy as [<- | Hy].
    + apply Hx; auto. apply Hall. now left.
    + apply IHd; auto. intros z Hz. apply Hall. now right.
Qed.

(** Loading what was written for a plain document gives the document
    with its keys as text. *)
Lemma load_encode_plain (o : pyobj) :
  forall j, plain o = true -> distinct_keys o = true ->
            encode str_hook o = Some j -> json_load j = text_keys o.
Proof.
  induction o using pyobj_induction; intros j Hp Hd He;
    try (injection He as <-; reflexivity); try discriminate.
  - rewrite encode_PyList in He.
    destruct (encode_list str_hook l) as [js |] eqn:El; [| discriminate].
    injection He as <-. cbn [plain distinct_keys json_load text_keys] in *.
    f_equal. apply encode_list_some in El.
    rewrite forallb_forall in Hp, Hd.
    induction El as [| x j l js Hxj _ IHl]; [reflexivity |].
    inversion H as [| ? ? Hx Hl]; subst. simpl. f_equal.
    + apply Hx; auto; [apply Hp | apply Hd]; now left.
    + apply IHl; auto; intros z Hz; [apply Hp | apply Hd]; now right.
  - rewrite encode_PyDict in He.
    destruct (encode_dict str_hook d) as [js |] eqn:Ed; [| discriminate].
    injection He as <-. rewrite json_load_JObj.
    cbn [plain distinct_keys text_keys] in *.
    apply andb_prop in Hd as [Hnd Hall].
    apply encode_dict_some in Ed.
    rewrite load_members_distinct;
      [| now rewrite (Forall2_keys _ _ _ Ed) | intros; reflexivity].
    rewrite app_nil_l. f_equal. clear Hnd.
    rewrite forallb_forall in Hp, Hall.
    induction Ed as [| kv kj d js [Hk Hxj] _ IHd]; [reflexivity |].
    inversion H as [| ? ? Hx Hl]; subst. simpl. f_equal.
    + rewrite Hk. f_equal. apply Hx; auto; [apply Hp | apply Hall]; now left.
    + apply IHd; auto; intros z Hz; [apply Hp | apply Hall]; now right.
Qed.

End Json.

(** C9, as the code has it. Every results document can be written.
    When the keys of each dict have distinct texts: writing the loaded
    document again gives the same output; and a document without
    wrapper values loads back as itself with every dict key replaced by
    its text, so that string-keyed documents load back unchanged and
    numeric keys come back as strings. *)
Theorem serialization_round_trip {L : Libs} (doc : pyobj) :
  (exists out, json_dump doc = Some out)
  /\ forall out,
       json_dump doc = Some out ->
       distinct_keys doc = true ->
       json_dump (json_load out) = Some out
       /\ (plain doc = true -> json_load out = text_keys doc).
Proof.
  split; [apply json_dump_total |].
  intros out Hout Hd. split.
  - apply encode_load. exact (encode_distinct doc out Hd Hout).
  - intros Hp. exact (load_encode_plain doc out Hp Hd Hout).
Qed.

(** ** Computations on the store *)

Lemma bind_run {A B : Type} (m : M A) (k : A -> M B) (s : state) :
  bind m k s = k (fst (m s)) (snd (m s)).
Proof. unfold bind. now destruct (m s). Qed.

Lemma runs_ret {A : Type} (n : nat) (a : A) (Q : A -> list event -> Prop) :
  Q a [] -> runs n (ret a) Q.
Proof.
  intros HQ s Hs. simpl. repeat split; auto.
  exists []. now rewrite app_nil_r.
Qed.

Lemma runs_bind {A B : Type} (n : nat) (m : M A) (k : A -> M B)
    (Q : A -> list event -> Prop) (R : B -> list event -> Prop) :
  runs n m Q ->
  (forall a e1, Q a e1 -> runs n (k a) (fun b e2 => R b (e1 ++ e2))) ->
  runs n (bind m k) R.
Proof.
  intros Hm Hk s Hs. rewrite bind_run.
  destruct (Hm s Hs) as (H1 & H2 & e1 & Hlog1 & HQ).
  destruct (Hk _ _ HQ _ H1) as (H3 & H4 & e2 & Hlog2 & HR).
  split; [exact H3 |]. split.
  - intros r Hr. now rewrite H4, H2.
  - exists (e1 ++ e2). split; [| exact HR].
    now rewrite Hlog2, Hlog1, app_assoc.
Qed.

Lemma runs_weaken {A : Type} (n : nat) (m : M A)
    (Q Q' : A -> list event -> Prop) :
  (forall a e, Q a e -> Q' a e) -> runs n m Q -> runs n m Q'.
Proof.
  intros HQ Hm s Hs. destruct (Hm s Hs) as (H1 & H2 & e & Hlog & Ha).
  repeat split; auto. exists e. auto.
Qed.

Lemma quiet_ret {A : Type} (n : nat) (a : A) (Q : A -> Prop) :
  Q a -> quiet n (ret a) Q.
Proof. intros HQ. apply runs_ret. auto. Qed.

Lemma quiet_bind {A B : Type} (n : nat) (m : M A) (k : A -> M B)
    (Q : A -> Prop) (R : B -> Prop) :
  quiet n m Q -> (forall a, Q a -> quiet n (k a) R) -> quiet n (bind m k) R.
Proof.
  intros Hm Hk. eapply runs_bind; [exact Hm |].
  intros a e1 [-> Ha]. exact (Hk a Ha).
Qed.

Lemma quiet_weaken {A : Type} (n : nat) (m : M A) (Q Q' : A -> Prop) :
  (forall a, Q a -> Q' a) -> quiet n m Q -> quiet n m Q'.
Proof.
  intros HQ. apply runs_weaken. intros a e [He Ha]. auto.
Qed.

Lemma quiet_alloc (n : nat) (d : DataFrame) :
  quiet n (alloc d) (fun r => (n <= r)%nat).
Proof.
  intros s Hs. simpl. rewrite length_app. simpl. split; [lia |]. split.
  - intros r Hr. apply lookup_app_l. lia.
  - exists []. rewrite app_nil_r. auto.
Qed.

Lemma quiet_load (n : nat) (r : ref) : quiet n (load r) (fun _ => True).
Proof.
  intros s Hs. simpl. repeat split; auto.
  exists []. rewrite app_nil_r. auto.
Qed.

Lemma quiet_store (n : nat) (r : ref) (d : DataFrame) :
  (n <= r)%nat -> quiet n (store r d) (fun _ => True).
Proof.
  intros Hr s Hs. simpl. rewrite length_insert. split; [exact Hs |]. split.
  - intros r' Hr'. apply list_lookup_insert_ne. lia.
  - exists []. rewrite app_nil_r. auto.
Qed.

Lemma runs_emit (n : nat) (e : event) :
  runs n (emit e) (fun _ evs => evs = [e]).
Proof.
  intros s Hs. simpl. repeat split; auto. exists [e]. auto.
Qed.

(** The operations that return a new frame object. *)
Lemma quiet_new (n : nat) (f : DataFrame -> DataFrame) (r : ref) :
  quiet n (d <- load r ;; alloc (f d)) (fun r' => (n <= r')%nat).
Proof.
  eapply quiet_bind; [apply quiet_load |]. intros d _. apply quiet_alloc.
Qed.

Lemma quiet_ref_copy (n : nat) (r : ref) :
  quiet n (ref_copy r) (fun r' => (n <= r')%nat).
Proof. exact (quiet_new n (fun d => d) r). Qed.

Lemma quiet_ref_dropna (n : nat) (cols : list string) (r : ref) :
  quiet n (ref_dropna cols r) (fun r' => (n <= r')%nat).
Proof. exact (quiet_new n (dropna cols) r). Qed.

Lemma quiet_ref_select (n : nat) (cols : list string) (r : ref) :
  quiet n (ref_select cols r) (fun r' => (n <= r')%nat).
Proof. exact (quiet_new n (select cols) r). Qed.

(** The operations that change a frame object in place. *)
Lemma quiet_setitem (n : nat) (r : ref) (c : string) (vals : list cell) :
  (n <= r)%nat -> quiet n (setitem r c vals) (fun _ => True).
Proof.
  intros Hr. eapply quiet_bind; [apply quiet_load |].
  intros d _. now apply quiet_store.
Qed.

Lemma quiet_insert_first (n : nat) (r : ref) (c : string) (v : cell) :
  (n <= r)%nat -> quiet n (insert_first r c v) (fun _ => True).
Proof.
  intros Hr. eapply quiet_bind; [apply quiet_load |].
  intros d _. now apply quiet_store.
Qed.

Lemma quiet_call {A : Type} (n : nat) (f : DataFrame -> A) (r : ref) :
  quiet n (call f r) (fun _ => True).
Proof.
  eapply quiet_bind; [apply quiet_load |]. intros d _. now apply quiet_ret.
Qed.

Lemma runs_stage {A : Type} (n : nat) (name : string) (m : M A)
    (Q : A -> Prop) :
  quiet n m Q -> runs n (stage name m) (fun a evs => evs = [Ran name] /\ Q a).
Proof.
  intros Hm. eapply runs_bind; [apply runs_emit |].
  intros [] e1 ->. eapply runs_weaken; [| exact Hm].
  intros a e [-> Ha]. auto.
Qed.

Section Frames.

Context {L : Libs}.

Lemma quiet_ref_get_dummies (n : nat) (r : ref) :
  quiet n (ref_get_dummies r) (fun r' => (n <= r')%nat).
Proof. exact (quiet_new n get_dummies r). Qed.

(** Table 8 writes to the copy it made, and to nothing else. *)
Lemma quiet_table8 (n : nat) (df : ref) :
  quiet n (table8_two_way_anova df) (fun _ => True).
Proof.
  unfold table8_two_way_anova.
  eapply quiet_bind; [apply quiet_ref_dropna |]. intros dropped _.
  eapply quiet_bind; [apply quiet_ref_copy |]. intros subset Hsubset.
  eapply quiet_bind; [apply quiet_load |]. intros s0 _.
  eapply quiet_bind; [now apply quiet_setitem |]. intros _ _.
  eapply quiet_bind; [apply quiet_load |]. intros s _.
  destruct (len s <? 10)%nat; [now apply quiet_ret |].
  destruct HAS_STATSMODELS; [| now apply quiet_ret].
  destruct (ols_fit _ _) as [model |]; [| now apply quiet_ret].
  destruct (anova_lm model); now apply quiet_ret.
Qed.

Lemma quiet_fit_mixed (n : nat) (extra : list string) (data : ref) :
  quiet n (fit_mixed extra data) (fun _ => True).
Proof.
  unfold fit_mixed.
  eapply quiet_bind; [apply quiet_ref_get_dummies |]. intros dummies _.
  eapply quiet_bind; [apply quiet_load |]. intros m _.
  eapply quiet_bind; [apply quiet_ref_select |]. intros picked _.
  eapply quiet_bind; [apply quiet_ref_copy |]. intros X HX.
  eapply quiet_bind; [now apply quiet_insert_first |]. intros _ _.
  eapply quiet_bind; [apply quiet_load |]. intros x _.
  now apply quiet_ret.
Qed.

(** Table 9 writes to the design matrices it copied, and to nothing
    else. *)
Lemma quiet_table9 (n : nat) (df : ref) :
  quiet n (table9_mixed_effects df) (fun _ => True).
Proof.
  unfold table9_mixed_effects.
  destruct (negb HAS_STATSMODELS); [now apply quiet_ret |].
  eapply quiet_bind; [apply quiet_ref_dropna |]. intros dropped _.
  eapply quiet_bind; [apply quiet_ref_copy |]. intros subset _.
  eapply quiet_bind; [apply quiet_load |]. intros s _.
  destruct (len s <? 10)%nat; [now apply quiet_ret |].
  destruct (nunique (col "country" s) <? 2)%nat; [now apply quiet_ret |].
  eapply quiet_bind; [apply quiet_ref_dropna |]. intros subset_m1 _.
  eapply quiet_bind; [apply quiet_fit_mixed |]. intros [fit |] _;
    [| now apply quiet_ret].
  eapply quiet_bind; [apply quiet_ref_dropna |]. intros subset_m2 _.
  eapply quiet_bind; [apply quiet_load |]. intros m2 _.
  destruct (_ && _)%bool; [| now apply quiet_ret].
  eapply quiet_bind; [apply quiet_fit_mixed |].
  intros [fit2 |] _; now apply quiet_ret.
Qed.

Lemma quiet_analysis (n : nat) (name : string) (f : ref -> M pydict)
    (df : ref) :
  In (name, f) analysis_functions -> quiet n (f df) (fun _ => True).
Proof.
  unfold analysis_functions. simpl.
  intros H.
  repeat (destruct H as [[= <- <-] | H];
          [first [apply quiet_call | apply quiet_table8 | apply quiet_table9] |]).
  contradiction.
Qed.

End Frames.

(** ** Loading the table *)

Lemma row_get_set_eq (c : string) (v : cell) (r : row) :
  row_get c (row_set c v r) = v.
Proof.
  induction r as [| [k w] r IH]; simpl.
  - now rewrite String.eqb_refl.
  - destruct (String.eqb k c) eqn:E; simpl; now rewrite E.
Qed.

Lemma row_get_set_ne (c c' : string) (v : cell) (r : row) :
  c <> c' -> row_get c (row_set c' v r) = row_get c r.
Proof.
  intros Hne. induction r as [| [k w] r IH]; simpl.
  - destruct (String.eqb_spec c' c); congruence.
  - destruct (String.eqb_spec k c'); simpl.
    + subst k. destruct (String.eqb_spec c' c); congruence.
    + now rewrite IH.
Qed.

Lemma assign_rows_map (c : string) (g : row -> cell) (rs : list row) :
  assign_rows c (map g rs) rs = map (fun r => row_set c (g r) r) rs.
Proof.
  induction rs as [| r rs IH]; simpl; [reflexivity |]. now rewrite IH.
Qed.

Lemma filter_map_nil {A B : Type} (p : B -> bool) (f : A -> B) (l : list A) :
  List.length (filter p (map f l)) = 0%nat
  <-> forallb (fun x => negb (p (f x))) l = true.
Proof.
  induction l as [| x l IH]; simpl; [tauto |].
  destruct (p (f x)); simpl; [split; [lia | discriminate] | exact IH].
Qed.

Lemma forallb_pointwise {A : Type} (f g : A -> bool) (l : list A) :
  (forall x, f x = g x) -> forallb f l = forallb g l.
Proof.
  intros E. induction l as [| x l IH]; simpl; [reflexivity |].
  now rewrite E, IH.
Qed.

Section Loading.

Context {L : Libs}.

Lemma coerce_columns_run (cs : list string) (d : DataFrame)
    (lg : list event) :
  coerce_columns 0%nat cs (mkState [d] lg)
  = (tt, mkState [mkDF (columns d)
                    (map (fun r => fold_left (coerce_step (columns d)) cs r)
                       (rows d))] lg).
Proof.
  revert d. induction cs as [| c cs IH]; intros d.
  - simpl. unfold ret. rewrite map_id. now destruct d.
  - cbn [coerce_columns]. rewrite bind_run. cbn [load heap fst snd].
    change ([d] !! 0%nat) with (Some d). cbv iota.
    rewrite bind_run.
    destruct (str_in c (columns d)) eqn:Hc.
    + unfold setitem. rewrite bind_run. cbn [load heap fst snd].
      change ([d] !! 0%nat) with (Some d). cbv iota.
      rewrite Hc. cbn [store heap log fst snd].
      change (<[0%nat := ?x]> [d]) with [x].
      rewrite IH. cbn [columns rows]. f_equal. f_equal. f_equal. f_equal.
      unfold col. rewrite map_map.
      rewrite (assign_rows_map c (fun r => to_numeric (row_get c r))).
      rewrite map_map. apply map_ext. intros r. simpl.
      f_equal. unfold coerce_step. now rewrite Hc.

    + cbn [ret fst snd]. rewrite IH. f_equal. f_equal. f_equal. f_equal.
      apply map_ext. intros r. simpl. f_equal. unfold coerce_step.
      now rewrite Hc.
Qed.

Lemma fold_coerce_other (cols cs : list string) (h : string) (r : row) :
  ~ In h cs ->
  row_get h (fold_left (coerce_step cols) cs r) = row_get h r.
Proof.
  revert r. induction cs as [| c cs IH]; intros r Hnin; simpl; auto.
  rewrite IH by (intros H; apply Hnin; now right).
  unfold coerce_step. destruct (str_in c cols); [| reflexivity].
  apply row_get_set_ne. intros ->. apply Hnin. now left.
Qed.

Lemma coerce_row_height (file : DataFrame) (r : row) :
  row_get "height_cm" (coerce_row (columns file) r) = loaded_height file r.
Proof.
  unfold coerce_row, numeric_columns, loaded_height.
  match goal with
  | |- context [fold_left ?f (?a :: ?l) ?r] =>
      change (fold_left f (a :: l) r) with (fold_left f l (f r a))
  end.
  rewrite fold_coerce_other by (simpl; intuition discriminate).
  unfold coerce_step.
  destruct (str_in "height_cm" (columns file)); [| reflexivity].
  apply row_get_set_eq.
Qed.

Lemma valid_rows_empty (file : DataFrame) :
  len (valid_rows file) = 0%nat <-> malformed (Some file) = true.
Proof.
  unfold valid_rows, numeric_view, df_filter, len, malformed. cbn [rows].
  rewrite filter_map_nil. unfold notna.
  assert (E : forall r,
             negb (negb (isna (row_get "height_cm"
                                 (coerce_row (columns file) r))))
             = isna (loaded_height file r)).
  { intros r. now rewrite negb_involutive, coerce_row_height. }
  now rewrite (forallb_pointwise _ _ (rows file) E).
Qed.

End Loading.

(** ** A run *)

Section Run.

Context {L : Libs}.

Lemma main_some (file : DataFrame) :
  main (Some file) start =
  if (len (valid_rows file) =? 0)%nat then (SysExit 1, loaded file)
  else (all_results <- run_analyses 2%nat ;; save_results all_results)
         (loaded file).
Proof.
  unfold main, start. rewrite bind_run. cbn [alloc heap log fst snd].
  change (List.length []) with 0%nat. rewrite app_nil_l.
  rewrite bind_run, coerce_columns_run. cbn [fst snd].
  change ((if (len (valid_rows file) =? 0)%nat
           then ret (SysExit 1)
           else (all_results <- run_analyses 2%nat ;;
                 save_results all_results)) (loaded file)
          = if (len (valid_rows file) =? 0)%nat
            then (SysExit 1, loaded file)
            else (all_results <- run_analyses 2%nat ;;
                  save_results all_results) (loaded file)).
  destruct (len (valid_rows file) =? 0)%nat; reflexivity.
Qed.

(** The analyses run in their order, each entered once; frames that
    existed before are left as they were. *)
Lemma runs_run_analyses (n : nat) (df_valid : ref) :
  runs n (run_analyses df_valid)
    (fun _ evs => evs = map (fun nf => Ran (fst nf)) analysis_functions).
Proof.
  unfold run_analyses.
  eapply runs_bind; [apply runs_stage, quiet_call |]. intros t2 e2 [-> _].
  eapply runs_bind; [apply runs_stage, quiet_call |]. intros t3 e3 [-> _].
  eapply runs_bind; [apply runs_stage, quiet_call |]. intros t4 e4 [-> _].
  eapply runs_bind; [apply runs_stage, quiet_call |]. intros t5 e5 [-> _].
  eapply runs_bind; [apply runs_stage, quiet_call |]. intros t6 e6 [-> _].
  eapply runs_bind; [apply runs_stage, quiet_call |]. intros t7 e7 [-> _].
  eapply runs_bind; [apply runs_stage, quiet_table8 |]. intros t8 e8 [-> _].
  eapply runs_bind; [apply runs_stage, quiet_table9 |]. intros t9 e9 [-> _].
  eapply runs_bind; [apply runs_stage, quiet_call |]. intros t10 e10 [-> _].
  apply runs_ret. reflexivity.
Qed.

(** The document is written, once. *)
Lemma runs_save_results (n : nat) (all_results : pyobj) :
  runs n (save_results all_results)
    (fun o evs => exists doc, json_dump all_results = Some doc
                              /\ o = Finished /\ evs = [Wrote doc]).
Proof.
  unfold save_results.
  destruct (json_dump_total all_results) as [doc ->].
  eapply runs_bind; [apply runs_emit |]. intros [] e ->.
  apply runs_ret. exists doc. auto.
Qed.

Lemma runs_analyses_and_save (n : nat) (df_valid : ref) :
  runs n (all_results <- run_analyses df_valid ;; save_results all_results)
    (fun o evs =>
       exists doc,
         o = Finished
         /\ evs = map (fun nf => Ran (fst nf)) analysis_functions
                  ++ [Wrote doc]).
Proof.
  eapply runs_bind; [apply runs_run_analyses |]. intros res e1 ->.
  eapply runs_weaken; [| apply runs_save_results].
  intros o e (doc & _ & -> & ->). exists doc. auto.
Qed.

End Run.


(** C8. Each of the nine analysis functions leaves every frame that
    exists when it is called as it was, its argument among them: the
    frames it changes in place (the copy whose era column is rewritten
    in table 8, the design matrices of table 9) are objects it created
    itself. After a run, [df_valid] still holds the rows it was built
    from. *)
Theorem analyses_leave_input_unchanged {L : Libs} :
  (forall name f (s : state) (df r : ref),
      In (name, f) analysis_functions ->
      (r < List.length (heap s))%nat ->
      heap (snd (f df s)) !! r = heap s !! r)
  /\ (forall file,
        malformed (Some file) = false ->
        heap (snd (main (Some file) start)) !! 2%nat
        = Some (valid_rows file)).
Proof.
  split.
  - intros name f s df r Hin Hr.
    destruct (quiet_analysis (List.length (heap s)) name f df Hin s
                (Nat.le_refl _)) as (_ & H & _).
    now apply H.
  - intros file Hm. rewrite main_some.
    destruct (Nat.eqb_spec (len (valid_rows file)) 0) as [E | _].
    { apply valid_rows_empty in E. congruence. }
    destruct (runs_analyses_and_save 3 2%nat (loaded file))
      as (_ & H & _); [simpl; lia |].
    rewrite H by lia. reflexivity.
Qed.

(* ================================================================== *)
(** * The statements on sample tables *)
(* ================================================================== *)

Section Instances.

Import Sample.


(** The sample fit has an intercept and the slope of the year. *)
Lemma fit_params_index (formula : string) (d : DataFrame)
    (model : OLSResults) :
  fit formula d = Some model ->
  params_index model = ["Intercept"; "tournament_year"].
Proof.
  unfold fit. destruct (simple_ols _ _) as [[rss slope] icpt].
  intros [= <-]. reflexivity.
Qed.

(** Four complete rows are rejected, five are fitted. *)
Lemma safe_ols_row_threshold_witness :
  safe_ols year_formula wk4 = None
  /\ exists res, safe_ols year_formula wk5 = Some res.
Proof.
  split.
  - apply (proj1 (safe_ols_row_threshold year_formula wk4)).
    vm_compute. lia.
  - destruct (proj2 (safe_ols_row_threshold year_formula wk5)) as [E _].
    + reflexivity.
    + reflexivity.
    + vm_compute. lia.
    + rewrite E. vm_compute. eexists. reflexivity.
Defined.

Lemma fitted_values_rounded_witness :
  exists res,
    safe_ols year_formula wk5 = Some res
    /\ exists model d coefs e v,
         ols_fit year_formula (dropna (formula_columns year_formula) wk5)
         = Some model
         /\ res = PyDict d
         /\ dict_get (KStr "coefficients") d = Some (PyDict coefs)
         /\ dict_get (KStr "tournament_year") coefs = Some (PyDict e)
         /\ dict_get (KStr "p_value") e = Some v
         /\ rounds_to 6 (pvalues model "tournament_year") v.
Proof.
  assert (E : exists res, safe_ols year_formula wk5 = Some res)
    by (vm_compute; eauto).
  destruct E as [res E]. exists res. split; [exact E |].
  destruct (fitted_values_rounded year_formula wk5 res E)
    as [(model & d & coefs & Hfit & Hd & Hc & _ & Hall & _) _].
  assert (Hin : In "tournament_year" (params_index model)).
  { rewrite (fit_params_index _ _ _ Hfit). simpl. auto. }
  destruct (Hall "tournament_year" Hin) as (e & He & _ & Hfields).
  assert (Hp : In "p_value" coef_fields)
    by (unfold coef_fields; simpl; auto).
  destruct (Hfields "p_value" Hp) as (v & Hv & Hr).
  exists model, d, coefs, e, v.
  split; [exact Hfit |]. split; [exact Hd |]. split; [exact Hc |].
  split; [exact He |]. split; [exact Hv | exact Hr].
Defined.

(** The four wicket-keepers leave no entry in table 3; the search on
    the twelve batsmen is recorded under BAT. *)
Lemma skipped_slices_are_omitted_witness :
  In "WK" CATEGORIES
  /\ dict_get (KStr "WK") (table3_unadjusted_regression wk4) = None
  /\ In "BAT" ["BAT"; "FAST"; "ALL"]
  /\ exists entry,
       dict_get (KStr "BAT") (table7_breakpoint bat12) = Some (PyDict entry)
       /\ dict_get (KStr "best_breakpoint") entry = Some (PyInt 2003).
Proof.
  assert (HWK : In "WK" CATEGORIES) by (simpl; auto).
  assert (HBAT : In "BAT" ["BAT"; "FAST"; "ALL"]) by (simpl; auto).
  split; [exact HWK |]. split.
  - rewrite (proj1 (skipped_slices_are_omitted wk4) "WK" HWK).
    vm_compute. reflexivity.
  - split; [exact HBAT |].
    rewrite (proj2 (skipped_slices_are_omitted bat12) "BAT" HBAT).
    vm_compute. eexists. split; reflexivity.
Defined.

(** A skipped slice does not always have an entry: the four
    wicket-keepers have none. *)
Lemma skipped_slice_has_no_entry :
  ~ (forall (L : Libs) (df : DataFrame) (cat : string),
        In cat CATEGORIES ->
        (len (complete_hy (where_eq "category" cat df)) < 5)%nat ->
        has_key (KStr cat) (table3_unadjusted_regression df) = true).
Proof.
  intros H.
  assert (Hwk : has_key (KStr "WK")
                  (@table3_unadjusted_regression libs wk4) = true).
  { apply H; [simpl; auto | vm_compute; lia]. }
  vm_compute in Hwk. discriminate.
Qed.

Lemma chow_statistic_and_p_value_witness :
  let subset := bp_slice "BAT" bat12 in
  exists f_stat p_value,
    chow_test subset (pre_of 2003 subset) (post_of 2003 subset)
      = Some (f_stat, p_value)
    /\ pyround f_stat 4 = Fin (236980 # 10000)
    /\ exists model_full model_pre model_post,
         ols_fit year_formula subset = Some model_full
         /\ ols_fit year_formula (pre_of 2003 subset) = Some model_pre
         /\ ols_fit year_formula (post_of 2003 subset) = Some model_post
         /\ f_stat
            = fdiv (fdiv (fsub (ssr model_full)
                            (fadd (ssr model_pre) (ssr model_post)))
                      (of_Z 2))
                   (fdiv (fadd (ssr model_pre) (ssr model_post))
                      (of_Z (Z.of_nat (len subset) - 4))).
Proof.
  intros subset.
  destruct (chow_test subset (pre_of 2003 subset) (post_of 2003 subset))
    as [[f_stat p_value] |] eqn:E; [| vm_compute in E; discriminate].
  exists f_stat, p_value. split; [reflexivity |]. split.
  - vm_compute in E. injection E as <- _. vm_compute. reflexivity.
  - destruct (chow_statistic_and_p_value subset 2003 f_stat p_value E)
      as [(mf & mpre & mpost & H1 & H2 & H3 & H4 & _) _].
    exists mf, mpre, mpost. auto.
Defined.

Lemma breakpoint_selection_witness :
  let subset := bp_slice "BAT" bat12 in
  exists f p,
    bp_search subset = (Some 2003%Z, f, p)
    /\ In 2003%Z candidate_years
    /\ (5 <= len (pre_of 2003 subset))%nat
    /\ (5 <= len (post_of 2003 subset))%nat
    /\ forall c fc pc,
         In c candidate_years ->
         (5 <= len (pre_of c subset))%nat ->
         (5 <= len (post_of c subset))%nat ->
         chow_test subset (pre_of c subset) (post_of c subset)
           = Some (fc, pc) ->
         fgtb fc f = false /\ (feq fc f -> (2003 <= c)%Z).
Proof.
  intros subset.
  destruct (bp_search subset) as [[obp f] p] eqn:E.
  assert (Hbp : obp = Some 2003%Z).
  { vm_compute in E. now injection E as <- _ _. }
  subst obp. exists f, p. split; [reflexivity |].
  destruct (proj1 (proj2 (proj2 (breakpoint_selection subset))) 2003%Z f p E)
    as (H1 & H2 & H3 & _ & H5).
  auto.
Defined.

Lemma bonferroni_adjustment_witness :
  let subset := dropna ["height_cm"; "region"] bat12 in
  let regions := [Str "Asia"; Str "Europe"; Str "Oceania"] in
  (2 <= List.length regions)%nat
  /\ Z.of_nat (List.length (pairwise_loop subset 3 regions)) = 3%Z.
Proof.
  intros subset regions.
  assert (Hk : (2 <= List.length regions)%nat) by (simpl; lia).
  split; [exact Hk |].
  exact (proj1 (bonferroni_adjustment subset regions Hk)).
Defined.

(** With a raw p-value of one in ten million and three comparisons, the
    stored adjusted value is 0.0: it is neither min(p × C, 1) nor at
    least the raw p-value. *)
Lemma stored_p_adj_is_rounded :
  let subset := dropna ["height_cm"; "region"] bat12 in
  let p := 1 # 10000000 in
  let stored := 0 # 1000000 in
  @ttest_ind libs_small_p (region_heights (Str "Asia") subset)
    (region_heights (Str "Europe") subset) = (Fin 12, Fin p)
  /\ option_map (fun pw => match pw with
                           | PyList (first :: _) => first
                           | _ => PyNone
                           end)
       (dict_get (KStr "pairwise")
          (@table6_regional_anova libs_small_p bat12))
     = Some (PyDict [ (KStr "pair", PyStr "Asia vs Europe");
                      (KStr "t", PyFloat (Fin (120000 # 10000)));
                      (KStr "p_adj", PyFloat (Fin stored)) ])
  /\ ~ stored == Qmin (p * 3) 1
  /\ ~ p <= stored.
Proof.
  intros subset p stored.
  split; [reflexivity |].
  split; [vm_compute; reflexivity |].
  split.
  - vm_compute. intros H. discriminate.
  - intros H. unfold Qle in H. simpl in H. lia.
Qed.


Lemma analyses_leave_input_unchanged_witness :
  In ("table8_two_way_anova", table8_two_way_anova) analysis_functions
  /\ (2 < List.length (heap (loaded bat12)))%nat
  /\ heap (snd (table8_two_way_anova 2%nat (loaded bat12))) !! 2%nat
     = Some (valid_rows bat12)
  /\ malformed (Some bat12) = false
  /\ heap (snd (main (Some bat12) start)) !! 2%nat = Some (valid_rows bat12).
Proof.
  assert (Hin : In ("table8_two_way_anova", table8_two_way_anova)
                   analysis_functions)
    by (unfold analysis_functions; simpl; tauto).
  assert (Hlen : (2 < List.length (heap (loaded bat12)))%nat)
    by (simpl; lia).
  assert (Hm : malformed (Some bat12) = false) by (vm_compute; reflexivity).
  split; [exact Hin |]. split; [exact Hlen |]. split.
  - exact (proj1 analyses_leave_input_unchanged _ _ (loaded bat12)
             2%nat 2%nat Hin Hlen).
  - split; [exact Hm |].
    exact (proj2 analyses_leave_input_unchanged bat12 Hm).
Defined.

(** Table 8 does write: the copy it made holds the era as text. *)
Example table8_rewrites_its_copy :
  option_map (fun d => map (row_get "era") (firstn 2 (rows d)))
    (heap (snd (table8_two_way_anova 2%nat (loaded bat12))) !! 4%nat)
  = Some [Str "1"; Str "1"]
  /\ option_map (fun d => map (row_get "era") (firstn 2 (rows d)))
       (heap (snd (table8_two_way_anova 2%nat (loaded bat12))) !! 2%nat)
     = Some [Num 1; Num 1].
Proof. split; vm_compute; reflexivity. Qed.

Lemma serialization_round_trip_witness :
  let doc := fst (run_analyses 2%nat (loaded wk4)) in
  exists out,
    json_dump doc = Some out
    /\ distinct_keys doc = true
    /\ plain doc = true
    /\ json_dump (json_load out) = Some out
    /\ json_load out = text_keys doc.
Proof.
  intros doc.
  destruct (json_dump doc) as [out |] eqn:E;
    [| vm_compute in E; discriminate].
  assert (Hd : distinct_keys doc = true) by (vm_compute; reflexivity).
  assert (Hp : plain doc = true) by (vm_compute; reflexivity).
  exists out. split; [reflexivity |].
  split; [exact Hd |]. split; [exact Hp |].
  destruct (proj2 (serialization_round_trip doc) out E Hd) as [H1 H2].
  split; [exact H1 | exact (H2 Hp)].
Defined.

(** The document of the four wicket-keepers does not load back as it
    was: the era keys of the descriptive table are numbers before and
    strings after. *)
Lemma numeric_keys_load_back_as_text :
  ~ (forall (L : Libs) (file : DataFrame) (out : json),
        let doc := fst (run_analyses 2%nat (loaded file)) in
        json_dump doc = Some out -> json_load out = doc).
Proof.
  intros H.
  destruct (json_dump (fst (run_analyses 2%nat (loaded wk4))))
    as [out |] eqn:E; [| vm_compute in E; discriminate].
  specialize (H libs wk4 out E).
  apply (f_equal (lookup_path [KStr "table2_descriptive"; KStr "by_era";
                               KStr "count"; KNum 1])) in H.
  vm_compute in E. injection E as <-.
  vm_compute in H. discriminate.
Qed.

(** A wrapped boolean is written as text: the [default=str] argument
    of the call takes the place of [NumpyEncoder.default]. *)
Example significant_is_written_as_text :
  let doc := fst (run_analyses 2%nat (loaded bat12)) in
  lookup_path [KStr "table7_breakpoint"; KStr "BAT"; KStr "significant"] doc
  = Some (NpBool true)
  /\ option_map
       (fun out =>
          lookup_path
            [KStr "table7_breakpoint"; KStr "BAT"; KStr "significant"]
            (json_load out))
       (json_dump doc)
     = Some (Some (PyStr "True"))
  /\ encode NumpyEncoder_default (NpBool true) = Some (JBool true).
Proof. repeat split; vm_compute; reflexivity. Qed.


(** Two groups without any spread: the pooled deviation is zero and the
    effect size is stored as 0. *)
Example cohens_d_of_constant_groups :
  cohens_d_guarded [190; 190; 190] [180; 180; 180] = Fin 0
  /\ pooled_sd [190; 190; 190] [180; 180; 180] = Fin (0 # 10000).
Proof. split; vm_compute; reflexivity. Qed.

End Instances.

(* ================================================================== *)
(** * Further properties of run_analysis.py *)
(* ================================================================== *)

(** ** Formatting a coefficient of a fitted summary *)

(** X1. On the coefficient table of any summary that [safe_ols]
    returns, [format_coef] never raises: for a name that is no
    parameter of the model it gives "N/A"; for a parameter it gives the
    stored estimate formatted with 4 decimals, then the significance
    marks, then the stored confidence bounds formatted with 3 decimals
    in brackets. The marks are decided on the p-value as stored, that is
    rounded to 6 places: *** below 0.001, ** below 0.01, * below 0.05.
    (How the language prints a number with a given number of decimals
    is left open.) *)
Theorem format_coef_on_summary {L : Libs} (fixed : nat -> float -> string)
    (formula : string) (data : DataFrame) (res : pyobj) :
  safe_ols formula data = Some res ->
  exists d coefs model,
    res = PyDict d
    /\ dict_get (KStr "coefficients") d = Some (PyDict coefs)
    /\ forall key,
         format_coef fixed (Some coefs) key =
         if str_in key (params_index model)
         then
           let p := pyround (pvalues model key) 6 in
           Some
             (String.append (fixed 4%nat (pyround (params model key) 4))
                (String.append
                   (if fltb p (Fin (1 # 1000)) then "***"
                    else if fltb p (Fin (1 # 100)) then "**"
                    else if fltb p (Fin (5 # 100)) then "*"
                    else "")
                   (String.append " ["
                      (String.append
                         (fixed 3%nat (pyround (fst (conf_int model key)) 4))
                         (String.append ", "
                            (String.append
                               (fixed 3%nat
                                  (pyround (snd (conf_int model key)) 4))
                               "]"))))))
         else Some "N/A".
Proof.
  intros Hres.
  destruct (safe_ols_some _ _ _ Hres) as (model & _ & -> & _).
  eexists. eexists. exists model.
  split; [reflexivity |]. split; [reflexivity |].
  intros key. unfold format_coef. rewrite coefficients_get.
  destruct (str_in key (params_index model)); reflexivity.
Qed.

(** ** Tables 4 and 5 *)

Lemma loop_get_num (f : pydict -> string -> pydict)
    (g : string -> option pyobj) (names : list string) (q : Q) :
  (forall results name,
      f results name = match g name with
                       | Some v => dict_set (KStr name) v results
                       | None => results
                       end) ->
  forall d0,
    dict_get (KNum q) (fold_left f names d0) = dict_get (KNum q) d0.
Proof.
  intros Hf. induction names as [| n names IH]; intros d0; simpl; auto.
  rewrite IH, Hf. destruct (g n); [| reflexivity].
  now apply dict_get_set_ne.
Qed.

Lemma NoDup_NATIONS : NoDup NATIONS.
Proof.
  unfold NATIONS.
  repeat (constructor; [simpl; intuition discriminate |]). constructor.
Qed.

Lemma existsb_eqb_str_in (c : string) (names : list string) :
  existsb (String.eqb c) names = str_in c names.
Proof. reflexivity. Qed.

(** X2. On a frame with the columns it reads, table 5 holds exactly
    the nations (of the fixed list of eight) with at least 5 complete
    BAT rows: under such a nation the result of the fit on its rows
    (None when the fit failed), and no other key. *)
Theorem table5_entries {L : Libs} (df : DataFrame) (k : pykey) :
  has_columns ["category"; "height_cm"; "tournament_year"; "country"] df
  = true ->
  dict_get k (table5_country_regression df) =
  match k with
  | KStr nation =>
      let subset :=
        where_eq "country" nation
          (complete_hy (where_eq "category" "BAT" df)) in
      if (str_in nation NATIONS && (5 <=? len subset)%nat)%bool
      then Some (opt_py (safe_ols year_formula subset))
      else None
  | KNum _ => None
  end.
Proof.
  intros _. unfold table5_country_regression.
  set (bat := complete_hy (where_eq "category" "BAT" df)).
  set (g := fun nation : string =>
              if (len (where_eq "country" nation bat) <? 5)%nat then None
              else Some (opt_py (safe_ols year_formula
                                   (where_eq "country" nation bat)))).
  assert (Hf : forall results name,
             fit_slice year_formula name (where_eq "country" name bat) results
             = match g name with
               | Some v => dict_set (KStr name) v results
               | None => results
               end).
  { intros results name. unfold fit_slice, g.
    now destruct (len _ <? 5)%nat. }
  destruct k as [nation | q].
  - rewrite (loop_get _ g NATIONS nation Hf NoDup_NATIONS).
    rewrite existsb_eqb_str_in. cbv zeta.
    destruct (str_in nation NATIONS); [| reflexivity].
    unfold g. rewrite Nat.leb_antisym.
    now destruct (len _ <? 5)%nat.
  - now rewrite (loop_get_num _ g NATIONS q Hf).
Qed.

Section Adjusted.

Context {L : Libs}.

(** What table 4 stores for a category when it is not left empty. *)
Lemma table4_category (df : DataFrame) (cat : string) :
  let subset_all :=
    dropna ["height_cm"; "tournament_year"; "pop_height_birth_cohort"] df in
  (5 <= len subset_all)%nat ->
  In cat CATEGORIES ->
  dict_get (KStr cat) (table4_adjusted_regression df) =
  let subset := where_eq "category" cat subset_all in
  if (len subset <? 5)%nat then None
  else Some (opt_py (safe_ols adjusted_formula subset)).
Proof.
  intros subset_all Hge Hin. unfold table4_adjusted_regression.
  fold subset_all. apply Nat.ltb_ge in Hge. rewrite Hge.
  rewrite dict_get_set_ne.
  - rewrite (loop_get _
               (fun c =>
                  let subset := where_eq "category" c subset_all in
                  if (len subset <? 5)%nat then None
                  else Some (opt_py (safe_ols adjusted_formula subset)))).
    + rewrite (existsb_eqb_In _ _ Hin). cbv zeta.
      destruct (len (where_eq "category" cat subset_all) <? 5)%nat;
        reflexivity.
    + intros results name. unfold fit_slice. cbv zeta.
      destruct (len (where_eq "category" name subset_all) <? 5)%nat;
        reflexivity.
    + apply NoDup_CATEGORIES.
  - change (String.eqb "ALL" cat = false). apply String.eqb_neq.
    intros <-. unfold CATEGORIES in Hin. simpl in Hin.
    intuition discriminate.
Qed.

End Adjusted.

(** X3. On a frame with the columns it reads, table 4 is empty when
    fewer than 5 rows are complete in height, year and population
    height; otherwise it always holds the pooled entry ALL, and a
    category exactly when at least 5 of those rows belong to it. *)
Theorem table4_entries {L : Libs} (df : DataFrame) :
  has_columns
    ["height_cm"; "tournament_year"; "pop_height_birth_cohort"; "category"]
    df = true ->
  let subset_all :=
    dropna ["height_cm"; "tournament_year"; "pop_height_birth_cohort"] df in
  ((len subset_all < 5)%nat -> table4_adjusted_regression df = [])
  /\ ((5 <= len subset_all)%nat ->
      dict_get (KStr "ALL") (table4_adjusted_regression df)
        = Some (opt_py (safe_ols adjusted_formula subset_all))
      /\ forall cat, In cat CATEGORIES ->
           dict_get (KStr cat) (table4_adjusted_regression df) =
           let subset := where_eq "category" cat subset_all in
           if (len subset <? 5)%nat then None
           else Some (opt_py (safe_ols adjusted_formula subset))).
Proof.
  intros _ subset_all. split.
  - intros Hlt. unfold table4_adjusted_regression. fold subset_all.
    apply Nat.ltb_lt in Hlt. now rewrite Hlt.
  - intros Hge. split.
    + unfold table4_adjusted_regression. fold subset_all.
      apply Nat.ltb_ge in Hge. rewrite Hge. apply dict_get_set_eq.
    + intros cat Hin. now apply table4_category.
Qed.

(** ** Table 6 *)

(** X4. On a frame with the columns it reads, table 6 is empty unless
    at least two regions have two or more rows; otherwise it holds the
    one-way ANOVA over exactly the regions with two or more rows (in
    sorted order) and the descriptive table, and the pairwise list
    exactly when pingouin is not installed. *)
Theorem table6_shape {L : Libs} (df : DataFrame) :
  has_columns ["height_cm"; "region"; "category"] df = true ->
  let subset := dropna ["height_cm"; "region"] df in
  let valid_regions :=
    filter (fun r => (2 <=? len (region_rows r subset))%nat)
      (sorted (unique (col "region" subset))) in
  ((List.length valid_regions < 2)%nat -> table6_regional_anova df = [])
  /\ ((2 <= List.length valid_regions)%nat ->
      dict_get (KStr "overall_anova") (table6_regional_anova df)
      = Some (PyDict
                [ (KStr "f_statistic",
                   PyFloat (pyround
                              (fst (f_oneway
                                      (map (fun r => region_heights r subset)
                                         valid_regions))) 4));
                  (KStr "p_value",
                   PyFloat (pyround
                              (snd (f_oneway
                                      (map (fun r => region_heights r subset)
                                         valid_regions))) 6));
                  (KStr "regions", PyList (map py_of_cell valid_regions)) ])
      /\ has_key (KStr "region_descriptive") (table6_regional_anova df) = true
      /\ has_key (KStr "pairwise") (table6_regional_anova df)
         = negb HAS_PINGOUIN)
  /\ (forall r, In r valid_regions -> (2 <= len (region_rows r subset))%nat).
Proof.
  intros _ subset valid_regions. unfold table6_regional_anova.
  fold subset. fold valid_regions. rewrite length_map.
  split; [| split].
  - intros Hlt.
    destruct (Nat.leb_spec 2 (List.length valid_regions)); [lia | reflexivity].
  - intros Hge. apply Nat.leb_le in Hge. rewrite Hge.
    destruct (f_oneway _) as [f_stat p_value]. cbn [fst snd].
    destruct HAS_PINGOUIN; repeat split; reflexivity.
  - intros r Hin. apply filter_In in Hin as [_ H]. now apply Nat.leb_le.
Qed.

(** ** Table 7: the slopes of the two segments *)

Lemma filter_all {A : Type} (p : A -> bool) (l : list A) :
  (forall x, In x l -> p x = true) -> filter p l = l.
Proof.
  induction l as [| x l IH]; intros H; simpl; [reflexivity |].
  rewrite (H x (or_introl eq_refl)). f_equal. apply IH.
  intros y Hy. apply H. now right.
Qed.

(** Filtering a frame that was cleaned of missing values leaves
    nothing to clean. *)
Lemma dropna_filter_dropna (cols : list string) (q : row -> bool)
    (d : DataFrame) :
  dropna cols (df_filter q (dropna cols d)) = df_filter q (dropna cols d).
Proof.
  unfold dropna at 1. unfold df_filter at 1. cbn [columns rows].
  unfold dropna, df_filter. cbn [columns rows]. f_equal.
  apply filter_all. intros r Hr.
  apply filter_In in Hr as [Hr _]. now apply filter_In in Hr as [_ Hr].
Qed.

Lemma bp_slice_columns (cat : string) (df : DataFrame) :
  columns (bp_slice cat df) = columns df.
Proof. unfold bp_slice. now destruct (String.eqb cat "ALL"). Qed.

Lemma bp_slice_complete (cat : string) (df : DataFrame) :
  exists d, bp_slice cat df = dropna ["height_cm"; "tournament_year"] d.
Proof.
  unfold bp_slice, complete_hy.
  destruct (String.eqb cat "ALL"); eexists; reflexivity.
Qed.

Section Slopes.

Context {L : Libs}.

Lemma slope_estimate_summary (formula : string) (model : OLSResults) :
  slope_estimate (ols_summary formula model)
  = if str_in "tournament_year" (params_index model)
    then PyFloat (pyround (params model "tournament_year") 4)
    else PyNone.
Proof.
  unfold slope_estimate, ols_summary.
  cbn [dict_get key_eqb String.eqb Ascii.eqb Bool.eqb].
  rewrite coefficients_get.
  destruct (str_in "tournament_year" (params_index model)); reflexivity.
Qed.

(** On a segment of a cleaned slice the regression helper fits when
    the segment has 5 rows and the fit returns. *)
Lemma safe_ols_segment (d : DataFrame) (q : row -> bool)
    (model : OLSResults) :
  HAS_STATSMODELS = true ->
  str_in "height_cm" (columns d) = true ->
  str_in "tournament_year" (columns d) = true ->
  let seg := df_filter q (dropna ["height_cm"; "tournament_year"] d) in
  (5 <= len seg)%nat ->
  ols_fit year_formula seg = Some model ->
  safe_ols year_formula seg = Some (ols_summary year_formula model).
Proof.
  intros Hsm Hh Hy seg Hlen Hfit. unfold safe_ols. rewrite Hsm.
  change (formula_columns year_formula)
    with ["height_cm"; "tournament_year"].
  assert (Hc : columns seg = columns d) by reflexivity.
  cbn [negb forallb]. rewrite Hc, Hh, Hy. cbn [andb negb].
  unfold seg. rewrite dropna_filter_dropna. fold seg.
  apply Nat.ltb_ge in Hlen. now rewrite Hlen, Hfit.
Qed.

End Slopes.

(** X5. On a frame with the columns it reads, every entry of table 7
    carries both segment slopes: the selected year leaves at least 5
    rows on each side and the segment fits of the Chow test returned, so
    the two reporting regressions are fitted on the same rows and are
    never rejected. *)
Theorem table7_entry_has_slopes {L : Libs} (df : DataFrame) (cat : string)
    (entry : pydict) :
  has_columns ["category"; "height_cm"; "tournament_year"] df = true ->
  In cat ["BAT"; "FAST"; "ALL"] ->
  dict_get (KStr cat) (table7_breakpoint df) = Some (PyDict entry) ->
  let subset := bp_slice cat df in
  exists bp f p model_pre model_post,
    selected (bp_search subset) = Some (bp, f, p)
    /\ (5 <= len (pre_of bp subset))%nat
    /\ (5 <= len (post_of bp subset))%nat
    /\ ols_fit year_formula (pre_of bp subset) = Some model_pre
    /\ ols_fit year_formula (post_of bp subset) = Some model_post
    /\ dict_get (KStr "best_breakpoint") entry = Some (PyInt bp)
    /\ dict_get (KStr "pre_slope") entry
       = Some (if str_in "tournament_year" (params_index model_pre)
               then PyFloat (pyround (params model_pre "tournament_year") 4)
               else PyNone)
    /\ dict_get (KStr "post_slope") entry
       = Some (if str_in "tournament_year" (params_index model_post)
               then PyFloat (pyround (params model_post "tournament_year") 4)
               else PyNone).
Proof.
  intros Hcols Hin Hget subset.
  unfold has_columns in Hcols. cbn [forallb] in Hcols.
  apply andb_prop in Hcols as [_ Hcols].
  apply andb_prop in Hcols as [Hh Hcols].
  apply andb_prop in Hcols as [Hy _].
  rewrite (table7_entry df cat Hin) in Hget. cbv zeta in Hget.
  fold subset in Hget.
  destruct HAS_STATSMODELS eqn:Hsm; [| discriminate].
  destruct (10 <=? len subset)%nat; [| discriminate]. simpl in Hget.
  destruct (selected (bp_search subset)) as [[[bp f] p] |] eqn:Hsel;
    [| discriminate].
  injection Hget as Hentry.
  assert (Hsearch : bp_search subset = (Some bp, f, p)).
  { unfold selected in Hsel.
    destruct (bp_search subset) as [[[b |] f'] p']; [| discriminate].
    destruct (b =? 0)%Z; [discriminate |]. now injection Hsel as -> -> ->. }
  pose proof (bp_search_inv subset) as Hinv. rewrite Hsearch in Hinv.
  destruct Hinv as [_ (l1 & l2 & _ & Hsc & _)].
  destruct (score_admissible _ _ _ _ Hsc) as (Hpre & Hpost & Hchow).
  destruct (chow_test_some _ _ _ _ _ Hchow)
    as (mf & mpre & mpost & _ & Hfpre & Hfpost & _).
  exists bp, f, p, mpre, mpost.
  split; [reflexivity |]. repeat (split; [assumption |]).
  destruct (bp_slice_complete cat df) as [d Hd].
  assert (Hcols : columns d = columns df).
  { pose proof (bp_slice_columns cat df) as Hc. fold subset in Hc.
    unfold subset in Hc. rewrite Hd in Hc. exact Hc. }
  assert (Hspre : safe_ols year_formula (pre_of bp subset)
                  = Some (ols_summary year_formula mpre)).
  { unfold subset, pre_of in *. rewrite Hd in *.
    apply safe_ols_segment; auto; now rewrite Hcols. }
  assert (Hspost : safe_ols year_formula (post_of bp subset)
                   = Some (ols_summary year_formula mpost)).
  { unfold subset, post_of in *. rewrite Hd in *.
    apply safe_ols_segment; auto; now rewrite Hcols. }
  subst entry. unfold bp_entry. rewrite Hspre, Hspost.
  rewrite !slope_estimate_summary.
  repeat split; reflexivity.
Qed.

(** ** Table 10 *)

Section Sensitivity.

Context {L : Libs}.

Lemma record_fit_get (name : string) (data : DataFrame) (results : pydict)
    (k : string) :
  dict_get (KStr k) (record_fit name data results)
  = if String.eqb name k
    then match safe_ols year_formula data with
         | Some res => Some res
         | None => dict_get (KStr k) results
         end
    else dict_get (KStr k) results.
Proof.
  unfold record_fit. destruct (safe_ols year_formula data) as [res |].
  - destruct (String.eqb_spec name k) as [-> | Hne].
    + apply dict_get_set_eq.
    + apply dict_get_set_ne. simpl. now apply String.eqb_neq.
  - now destruct (String.eqb name k).
Qed.

Lemma format_comparison_other (df : DataFrame) (results : pydict)
    (k : string) :
  String.eqb "format_comparison" k = false ->
  dict_get (KStr k) (format_comparison df results) = dict_get (KStr k) results.
Proof.
  intros Hk. unfold format_comparison.
  destruct (_ && _)%bool; [| reflexivity].
  destruct (_ && _)%bool; [| reflexivity].
  destruct (ttest_ind _ _) as [t p]. now apply dict_get_set_ne.
Qed.

Lemma fast_vs_bat_other (df : DataFrame) (results : pydict) (k : string) :
  String.eqb "fast_vs_bat" k = false ->
  dict_get (KStr k) (fast_vs_bat df results) = dict_get (KStr k) results.
Proof.
  intros Hk. unfold fast_vs_bat.
  destruct (_ && _)%bool; [| reflexivity].
  destruct (ttest_ind _ _) as [t p]. now apply dict_get_set_ne.
Qed.

End Sensitivity.

(** X6. On a frame with the columns it reads, a sensitivity regression
    of table 10 is present exactly when its subset is large enough and
    the fit returned, and the entry is then the fitted summary: unlike
    tables 3 to 5, a failed fit leaves no None behind. The verified and
    unflagged subsets need one row to be tried, the ODI and T20 subsets
    five. *)
Theorem table10_regressions {L : Libs} (df : DataFrame) :
  has_columns
    ["height_verified"; "flag"; "format"; "tournament_year"; "height_cm";
     "category"] df = true ->
  let verified :=
    df_filter (fun r => eq_true (row_get "height_verified" r)) df in
  let unflagged :=
    df_filter (fun r => isna (row_get "flag" r) || eq_str "" (row_get "flag" r))
      df in
  let odi := where_eq "format" "ODI" df in
  let t20 := where_eq "format" "T20" df in
  dict_get (KStr "verified_only") (table10_sensitivity df)
  = (if (0 <? len verified)%nat then safe_ols year_formula verified else None)
  /\ dict_get (KStr "unflagged_only") (table10_sensitivity df)
     = (if (0 <? len unflagged)%nat then safe_ols year_formula unflagged
        else None)
  /\ dict_get (KStr "odi_only") (table10_sensitivity df)
     = (if (5 <=? len odi)%nat then safe_ols year_formula odi else None)
  /\ dict_get (KStr "t20_only") (table10_sensitivity df)
     = (if (5 <=? len t20)%nat then safe_ols year_formula t20 else None)
  /\ forall k v, In (k, v) (table10_sensitivity df) -> v <> PyNone.
Proof.
  intros _ verified unflagged odi t20. unfold table10_sensitivity.
  fold verified. fold unflagged. fold odi. fold t20.
  repeat split.
  - rewrite fast_vs_bat_other, format_comparison_other by reflexivity.
    destruct (5 <=? len t20)%nat, (5 <=? len odi)%nat,
      (0 <? len unflagged)%nat, (0 <? len verified)%nat;
      rewrite ?record_fit_get; cbn [String.eqb Ascii.eqb Bool.eqb dict_get];
      try reflexivity; now destruct (safe_ols year_formula verified).
  - rewrite fast_vs_bat_other, format_comparison_other by reflexivity.
    destruct (5 <=? len t20)%nat, (5 <=? len odi)%nat,
      (0 <? len unflagged)%nat, (0 <? len verified)%nat;
      rewrite ?record_fit_get; cbn [String.eqb Ascii.eqb Bool.eqb dict_get];
      try reflexivity; now destruct (safe_ols year_formula unflagged).
  - rewrite fast_vs_bat_other, format_comparison_other by reflexivity.
    destruct (5 <=? len t20)%nat, (5 <=? len odi)%nat,
      (0 <? len unflagged)%nat, (0 <? len verified)%nat;
      rewrite ?record_fit_get; cbn [String.eqb Ascii.eqb Bool.eqb dict_get];
      try reflexivity; now destruct (safe_ols year_formula odi).
  - rewrite fast_vs_bat_other, format_comparison_other by reflexivity.
    destruct (5 <=? len t20)%nat, (5 <=? len odi)%nat,
      (0 <? len unflagged)%nat, (0 <? len verified)%nat;
      rewrite ?record_fit_get; cbn [String.eqb Ascii.eqb Bool.eqb dict_get];
      try reflexivity; now destruct (safe_ols year_formula t20).
  - intros k v Hin.
    assert (Hall : Forall (fun kv => snd kv <> PyNone)
                     (fast_vs_bat df
                        (format_comparison df
                           (let results := [] in
                            let results :=
                              if (0 <? len verified)%nat
                              then record_fit "verified_only" verified results
                              else results in
                            let results :=
                              if (0 <? len unflagged)%nat
                              then record_fit "unflagged_only" unflagged
                                     results
                              else results in
                            let results :=
                              if (5 <=? len odi)%nat
                              then record_fit "odi_only" odi results
                              else results in
                            if (5 <=? len t20)%nat
                            then record_fit "t20_only" t20 results
                            else results)))).
    { assert (Hrec : forall name data results,
                 Forall (fun kv => snd kv <> PyNone) results ->
                 Forall (fun kv => snd kv <> PyNone)
                   (record_fit name data results)).
      { intros name data results Hr. unfold record_fit.
        destruct (safe_ols year_formula data) as [res |] eqn:E; [| exact Hr].
        apply (dict_set_values (fun v => v <> PyNone)); [| exact Hr].
        destruct (safe_ols_some _ _ _ E) as (m & _ & -> & _). discriminate. }
      unfold fast_vs_bat, format_comparison. cbv zeta.
      repeat match goal with
             | |- Forall _ (if ?b then _ else _) => destruct b
             | |- Forall _ (let '(_, _) := ?x in _) => destruct x
             | |- Forall _ (dict_set _ _ _) =>
                 apply (dict_set_values (fun v => v <> PyNone));
                 [discriminate |]
             | |- Forall _ (record_fit _ _ _) => apply Hrec
             | |- Forall _ [] => constructor
             end. }
    rewrite Forall_forall in Hall. exact (Hall (k, v) Hin).
Qed.

(** ** Table 10: the effect size of the format comparison *)

Lemma Qcompare_sub (a b : Q) : Qcompare (a + - b) 0 = Qcompare a b.
Proof.
  destruct (Qcompare_spec a b) as [E | E | E].
  - apply (proj1 (Qeq_alt _ _)). rewrite E. ring.
  - apply (proj1 (Qlt_alt _ _)). lra.
  - apply (proj1 (Qgt_alt _ _)). lra.
Qed.

Lemma series_mean_Fin (l : list Q) :
  (1 <= List.length l)%nat -> series_mean l = Fin (Qsum l / Qlen l).
Proof. destruct l; simpl; [lia | reflexivity]. Qed.

(** X7. The effect size of the ODI-against-T20 comparison is computed
    without the guard that the FAST-against-BAT comparison has: when the
    pooled standard deviation is zero the entry is still written, with
    an infinite Cohen's d (NaN when the two means are equal as well). *)
Theorem format_comparison_effect_size_unguarded {L : Libs} (df : DataFrame)
    (s : Q) :
  has_columns
    ["height_verified"; "flag"; "format"; "tournament_year"; "height_cm";
     "category"] df = true ->
  let recent :=
    dropna ["height_cm"]
      (df_filter (fun r => ge_year 2007 (row_get "tournament_year" r)) df) in
  let odi_heights := nums (col "height_cm" (where_eq "format" "ODI" recent)) in
  let t20_heights := nums (col "height_cm" (where_eq "format" "T20" recent)) in
  (5 <= len recent)%nat ->
  (2 <= nunique (col "format" recent))%nat ->
  (3 <= List.length odi_heights)%nat ->
  (3 <= List.length t20_heights)%nat ->
  pooled_sd odi_heights t20_heights = Fin s ->
  s == 0 ->
  exists entry,
    dict_get (KStr "format_comparison") (table10_sensitivity df)
    = Some (PyDict entry)
    /\ dict_get (KStr "cohens_d") entry
       = Some (PyFloat
                 match Qcompare (Qsum odi_heights / Qlen odi_heights)
                         (Qsum t20_heights / Qlen t20_heights) with
                 | Eq => NaN
                 | Gt => PInf
                 | Lt => NInf
                 end).
Proof.
  intros _ recent odi_heights t20_heights H1 H2 H3 H4 Hsd Hs.
  unfold table10_sensitivity. cbv zeta.
  rewrite fast_vs_bat_other by reflexivity.
  unfold format_comparison. cbv zeta.
  fold recent. fold odi_heights. fold t20_heights.
  apply Nat.leb_le in H1, H2. rewrite H1, H2. cbn [andb].
  pose proof H3 as H3'. pose proof H4 as H4'.
  apply Nat.leb_le in H3', H4'. rewrite H3', H4'. cbn [andb].
  destruct (ttest_ind odi_heights t20_heights) as [t p].
  rewrite dict_get_set_eq. eexists. split; [reflexivity |].
  cbn [dict_get key_eqb String.eqb Ascii.eqb Bool.eqb].
  rewrite Hsd, !series_mean_Fin by lia.
  unfold fsub, fneg, fadd, fdiv, Qsign.
  rewrite (proj1 (Qeq_alt s 0) Hs), Qcompare_sub.
  destruct (Qcompare _ _); reflexivity.
Qed.

(** ** The breakpoint searches of generate_figures.py *)

Section FigureSearch.

Context {L : Libs}.

Lemma country_step_is_bp_step (sub : DataFrame) (st : best) (bp : Z) :
  country_step sub st bp = bp_step sub st bp.
Proof.
  unfold country_step, bp_step, chow_test.
  destruct (_ || _)%bool; [reflexivity |].
  destruct (ols_fit year_formula sub) as [mf |]; [| reflexivity].
  destruct (ols_fit year_formula (pre_of bp sub)) as [mpre |];
    [| reflexivity].
  destruct (ols_fit year_formula (post_of bp sub)) as [mpost |];
    reflexivity.
Qed.

Lemma country_fold_is_bp_search (sub : DataFrame) :
  fold_left (country_step sub) [1996; 1999; 2003; 2007; 2010; 2012]%Z
    best_init
  = bp_search sub.
Proof.
  unfold bp_search. change [1996; 1999; 2003; 2007; 2010; 2012]%Z
    with candidate_years.
  generalize best_init.
  induction candidate_years as [| c cs IH]; intros st; simpl; auto.
  now rewrite country_step_is_bp_step, IH.
Qed.

(** What the search ends with: the start values, or a candidate year
    with its score that no other candidate's score exceeds. *)
Lemma bp_search_cases (subset : DataFrame) :
  match bp_search subset with
  | (None, f, p) =>
      f = Fin (-1) /\ p = Fin 1
      /\ forall c fc pc, In c candidate_years ->
                         score subset c = Some (fc, pc) ->
                         fgtb fc (Fin (-1)) = false
  | (Some bp, f, p) =>
      In bp candidate_years /\ score subset bp = Some (f, p)
      /\ forall c fc pc, In c candidate_years ->
                         score subset c = Some (fc, pc) ->
                         fgtb fc f = false
  end.
Proof.
  pose proof (bp_search_inv subset) as Hinv.
  destruct (bp_search subset) as [[[bp |] f] p]; destruct Hinv as [Hbest H].
  - destruct H as (l1 & l2 & Hseen & Hsc & _).
    split; [| split; assumption].
    rewrite Hseen. apply in_or_app. right. now left.
  - destruct H as [-> ->]. repeat split. exact Hbest.
Qed.

Lemma selected_candidate (bp : Z) (f p : float) :
  In bp candidate_years -> selected (Some bp, f, p) = Some (bp, f, p).
Proof.
  intros Hin. unfold selected.
  destruct (Z.eqb_spec bp 0) as [-> | _]; [| reflexivity].
  unfold candidate_years in Hin. simpl in Hin. intuition discriminate.
Qed.

Lemma bp_entry_fields (subset : DataFrame) (bp : Z) (f p : float) :
  dict_get (KStr "best_breakpoint") (bp_entry subset (bp, f, p))
  = Some (PyInt bp)
  /\ dict_get (KStr "f_statistic") (bp_entry subset (bp, f, p))
     = Some (PyFloat (pyround f 4))
  /\ dict_get (KStr "p_value") (bp_entry subset (bp, f, p))
     = Some (PyFloat (pyround p 6)).
Proof.
  unfold bp_entry.
  destruct (safe_ols year_formula (pre_of bp subset));
    destruct (safe_ols year_formula (post_of bp subset));
    repeat split; reflexivity.
Qed.

Lemma segment_drawn_of_5 (seg : DataFrame) :
  (5 <= len seg)%nat -> segment_drawn seg = true.
Proof.
  intros H. unfold segment_drawn.
  destruct (Nat.ltb_spec (len seg) 3); [lia | reflexivity].
Qed.

End FigureSearch.

(** X8. Figure 6 agrees with table 7 on the BAT and FAST panels. A panel
    is "Insufficient data" exactly when the table skips the slice for
    its size; a panel drawn with a searched breakpoint shows the year,
    statistic and p-value of the table's entry (there rounded), and
    both of its segments have their line; a panel for which the table
    has no entry is drawn at the default 2012 with F = -1 and p = 1. *)
Theorem fig6_panel_matches_table7 {L : Libs} (df : DataFrame) (cat : string) :
  has_columns ["category"; "height_cm"; "tournament_year"] df = true ->
  In cat ["BAT"; "FAST"] ->
  match fig6_panel cat df with
  | None =>
      (len (fig6_slice cat df) < 10)%nat
      /\ dict_get (KStr cat) (table7_breakpoint df) = None
  | Some (bp, f, p) =>
      (10 <= len (fig6_slice cat df))%nat
      /\ ((exists entry,
              dict_get (KStr cat) (table7_breakpoint df) = Some (PyDict entry)
              /\ dict_get (KStr "best_breakpoint") entry = Some (PyInt bp)
              /\ dict_get (KStr "f_statistic") entry
                 = Some (PyFloat (pyround f 4))
              /\ dict_get (KStr "p_value") entry
                 = Some (PyFloat (pyround p 6))
              /\ segment_drawn (pre_of bp (fig6_slice cat df)) = true
              /\ segment_drawn (post_of bp (fig6_slice cat df)) = true)
          \/ (dict_get (KStr cat) (table7_breakpoint df) = None
              /\ bp = 2012%Z /\ f = Fin (-1) /\ p = Fin 1))
  end.
Proof.
  intros _ Hin. unfold fig6_panel.
  assert (Hslice : bp_slice cat df = fig6_slice cat df).
  { unfold bp_slice, fig6_slice.
    destruct Hin as [<- | [<- | []]]; reflexivity. }
  assert (Hin3 : In cat ["BAT"; "FAST"; "ALL"]).
  { simpl in *. tauto. }
  rewrite (table7_entry df cat Hin3). cbv zeta. rewrite Hslice.
  set (subset := fig6_slice cat df).
  destruct (Nat.ltb_spec (len subset) 10) as [Hlt | Hge].
  - split; [exact Hlt |].
    destruct (Nat.leb_spec 10 (len subset)); [lia |].
    now rewrite andb_false_r.
  - unfold fig6_search.
    destruct HAS_STATSMODELS.
    + rewrite fig6_fold_is_bp_search.
      pose proof (bp_search_cases subset) as Hc.
      destruct (bp_search subset) as [[[bp |] f] p].
      * destruct Hc as (Hcand & Hsc & _).
        split; [exact Hge |]. left.
        exists (bp_entry subset (bp, f, p)).
        apply Nat.leb_le in Hge. rewrite Hge.
        rewrite (selected_candidate bp f p Hcand).
        destruct (bp_entry_fields subset bp f p) as (Hb & Hf & Hp).
        destruct (score_admissible _ _ _ _ Hsc) as (Hpre & Hpost & _).
        repeat split; auto using segment_drawn_of_5.
      * destruct Hc as (-> & -> & _).
        split; [exact Hge |]. right.
        rewrite Tauto.if_same. repeat split; reflexivity.
    + split; [exact Hge |]. right. repeat split; reflexivity.
Qed.

(** X9. A country panel of figures 10 and 11 runs the same search on
    the country's rows. With fewer than 10 rows the panel is left
    empty; a breakpoint that is drawn is a candidate year with at least
    5 rows on each side whose three fits returned and whose statistic no
    other candidate exceeds, so both segments get their line; "No valid
    BP" means that no candidate scored above -1. *)
Theorem country_panel_breakpoint {L : Libs} (sub : DataFrame) :
  has_columns ["height_cm"; "tournament_year"] sub = true ->
  match country_panel sub with
  | None => (len sub < 10)%nat
  | Some None =>
      (10 <= len sub)%nat
      /\ (HAS_STATSMODELS = true ->
          forall c fc pc, In c candidate_years ->
                          score sub c = Some (fc, pc) ->
                          fgtb fc (Fin (-1)) = false)
  | Some (Some (bp, f, p)) =>
      (10 <= len sub)%nat
      /\ In bp candidate_years
      /\ score sub bp = Some (f, p)
      /\ (forall c fc pc, In c candidate_years ->
                          score sub c = Some (fc, pc) ->
                          fgtb fc f = false)
      /\ segment_drawn (pre_of bp sub) = true
      /\ segment_drawn (post_of bp sub) = true
  end.
Proof.
  intros _. unfold country_panel.
  destruct (Nat.ltb_spec (len sub) 10) as [Hlt | Hge]; [exact Hlt |].
  destruct HAS_STATSMODELS.
  - rewrite country_fold_is_bp_search.
    pose proof (bp_search_cases sub) as Hc.
    destruct (bp_search sub) as [[[bp |] f] p].
    + destruct Hc as (Hcand & Hsc & Hbest).
      destruct (score_admissible _ _ _ _ Hsc) as (Hpre & Hpost & _).
      repeat split; auto using segment_drawn_of_5.
    + destruct Hc as (_ & _ & Hbest). split; [exact Hge |].
      intros _. exact Hbest.
  - simpl. split; [exact Hge | discriminate].
Qed.

(** ** The adjusted slope of the figures *)

Lemma filter_twice {A : Type} (p q : A -> bool) (l : list A) :
  filter p (filter q l) = filter (fun x => q x && p x) l.
Proof.
  induction l as [| x l IH]; simpl; [reflexivity |].
  destruct (q x); simpl; [destruct (p x) |]; now rewrite IH.
Qed.

Section AdjustedSlope.

Context {L : Libs}.

Lemma getpath_coefficient (formula : string) (model : OLSResults)
    (param field : string) :
  str_in param (params_index model) = true ->
  getpath ["coefficients"; param; field] (ols_summary formula model)
  = getitem field (coef_entry model param).
Proof.
  intros Hin. unfold ols_summary.
  cbn [getpath getitem dict_get key_eqb String.eqb Ascii.eqb Bool.eqb].
  rewrite coefficients_get, Hin.
  destruct (getitem field (coef_entry model param)); reflexivity.
Qed.

End AdjustedSlope.

(** X10. Whenever a figure annotates an adjusted slope for a category,
    table 4 holds the same fit under that category: the slope and the
    p-value of the table are the annotated ones, rounded to 4 and 6
    decimals. The figure needs 10 complete rows where the table fits
    from 5. *)
Theorem adjusted_slope_is_table4_slope {L : Libs} (df : DataFrame)
    (cat : string) (s p : float) :
  has_columns
    ["category"; "height_cm"; "tournament_year"; "pop_height_birth_cohort"]
    df = true ->
  In cat CATEGORIES ->
  _adjusted_slope (complete_hy (where_eq "category" cat df))
  = Some (Some (s, p)) ->
  exists entry,
    dict_get (KStr cat) (table4_adjusted_regression df) = Some entry
    /\ getpath ["coefficients"; "tournament_year"; "estimate"] entry
       = Some (PyFloat (pyround s 4))
    /\ getpath ["coefficients"; "tournament_year"; "p_value"] entry
       = Some (PyFloat (pyround p 6))
    /\ (10 <= len (where_eq "category" cat
                     (dropna ["height_cm"; "tournament_year";
                              "pop_height_birth_cohort"] df)))%nat.
Proof.
  intros Hcols Hin H.
  set (cols3 := ["height_cm"; "tournament_year"; "pop_height_birth_cohort"])
    in *.
  assert (Hdata : dropna cols3 (complete_hy (where_eq "category" cat df))
                  = where_eq "category" cat (dropna cols3 df)).
  { unfold complete_hy, where_eq, dropna, df_filter. cbn [columns rows].
    f_equal. rewrite !filter_twice. apply filter_ext. intros r.
    unfold cols3. cbn [forallb].
    destruct (eq_str cat (row_get "category" r)),
      (notna (row_get "height_cm" r)),
      (notna (row_get "tournament_year" r)),
      (notna (row_get "pop_height_birth_cohort" r)); reflexivity. }
  unfold _adjusted_slope in H. fold cols3 in H.
  destruct HAS_STATSMODELS eqn:Hsm; [| discriminate]. cbn [negb] in H.
  destruct (has_columns cols3 _); [| discriminate]. cbn [negb] in H.
  rewrite Hdata in H.
  set (subset := where_eq "category" cat (dropna cols3 df)) in *.
  destruct (Nat.ltb_spec (len subset) 10) as [| Hge]; [discriminate |].
  destruct (ols_fit adjusted_formula subset) as [model |] eqn:Hfit;
    [| discriminate].
  destruct (str_in "tournament_year" (params_index model)) eqn:Hidx;
    [| discriminate].
  injection H as <- <-.
  assert (Hall : (5 <= len (dropna cols3 df))%nat).
  { transitivity (len subset); [lia |]. apply filter_length_le. }
  assert (Hsafe : safe_ols adjusted_formula subset
                  = Some (ols_summary adjusted_formula model)).
  { unfold safe_ols. rewrite Hsm.
    change (formula_columns adjusted_formula) with cols3.
    assert (Hc : columns subset = columns df) by reflexivity.
    unfold has_columns in Hcols. cbn [forallb] in Hcols.
    apply andb_prop in Hcols as [_ Hcols].
    cbn [negb]. rewrite Hc, Hcols.
    cbn [negb]. unfold subset at 1 2, where_eq.
    rewrite dropna_filter_dropna.
    fold (where_eq "category" cat (dropna cols3 df)). fold subset.
    destruct (Nat.ltb_spec (len subset) 5); [lia |]. now rewrite Hfit. }
  exists (ols_summary adjusted_formula model).
  split.
  - rewrite (table4_category df cat Hall Hin). cbv zeta. fold cols3.
    fold subset. destruct (Nat.ltb_spec (len subset) 5); [lia |].
    now rewrite Hsafe.
  - rewrite !getpath_coefficient by exact Hidx.
    repeat split; try reflexivity. exact Hge.
Qed.

(* ================================================================== *)
(** * Further properties of a run *)
(* ================================================================== *)

(** ** Running the operations on a store *)

Lemma lookup_fresh (h : list DataFrame) (x : DataFrame) (lg : list event) :
  heap (mkState (h ++ [x]) lg) !! List.length h = Some x.
Proof. now apply list_lookup_middle. Qed.

Lemma lookup_inserted (h : list DataFrame) (x y : DataFrame)
    (lg : list event) :
  heap (mkState (<[List.length h := y]> (h ++ [x])) lg) !! List.length h
  = Some y.
Proof.
  cbn [heap]. apply list_lookup_insert_eq. rewrite length_app. simpl. lia.
Qed.

Lemma run_load (r : ref) (s : state) (d : DataFrame) :
  heap s !! r = Some d -> load r s = (d, s).
Proof. intros H. unfold load. now rewrite H. Qed.

Lemma run_new (f : DataFrame -> DataFrame) (r : ref) (s : state)
    (d : DataFrame) :
  heap s !! r = Some d ->
  (x <- load r ;; alloc (f x)) s
  = (List.length (heap s), mkState (heap s ++ [f d]) (log s)).
Proof. intros H. rewrite bind_run, (run_load _ _ _ H). reflexivity. Qed.

Lemma run_ref_dropna (cols : list string) (r : ref) (s : state)
    (d : DataFrame) :
  heap s !! r = Some d ->
  ref_dropna cols r s
  = (List.length (heap s), mkState (heap s ++ [dropna cols d]) (log s)).
Proof. exact (run_new (dropna cols) r s d). Qed.

Lemma run_ref_copy (r : ref) (s : state) (d : DataFrame) :
  heap s !! r = Some d ->
  ref_copy r s = (List.length (heap s), mkState (heap s ++ [d]) (log s)).
Proof. exact (run_new (fun x => x) r s d). Qed.

Lemma run_ref_select (cols : list string) (r : ref) (s : state)
    (d : DataFrame) :
  heap s !! r = Some d ->
  ref_select cols r s
  = (List.length (heap s), mkState (heap s ++ [select cols d]) (log s)).
Proof. exact (run_new (select cols) r s d). Qed.


Lemma run_insert_first (r : ref) (c : string) (v : cell) (s : state)
    (d : DataFrame) :
  heap s !! r = Some d ->
  insert_first r c v s
  = (tt, mkState (<[r := mkDF (c :: columns d)
                          (map (fun w => (c, v) :: w) (rows d))]> (heap s))
           (log s)).
Proof.
  intros H. unfold insert_first.
  rewrite bind_run, (run_load _ _ _ H). reflexivity.
Qed.




(** A computation that only adds frames leaves a frame in its place. *)
Lemma quiet_keeps {A : Type} (m : M A) (Q : A -> Prop) (s : state)
    (r : ref) (d : DataFrame) :
  (forall n, quiet n m Q) ->
  heap s !! r = Some d -> heap (snd (m s)) !! r = Some d.
Proof.
  intros Hq Hd.
  destruct (Hq (List.length (heap s)) s (Nat.le_refl _)) as (_ & H & _).
  rewrite H; [exact Hd |]. now apply lookup_lt_Some in Hd.
Qed.


Section Locality.

Context {L : Libs}.

Lemma run_ref_get_dummies (r : ref) (s : state) (d : DataFrame) :
  heap s !! r = Some d ->
  ref_get_dummies r s
  = (List.length (heap s), mkState (heap s ++ [get_dummies d]) (log s)).
Proof. exact (run_new get_dummies r s d). Qed.


(** The design matrix of a mixed model and its fit come from the rows
    of the frame alone. *)
Lemma fit_mixed_run (extra : list string) (data : ref) (s : state)
    (d : DataFrame) :
  heap s !! data = Some d ->
  fst (fit_mixed extra data s) = on_frame (fit_mixed extra) d.
Proof.
  intros Hd. unfold on_frame, fit_mixed.
  rewrite bind_run, (run_ref_get_dummies _ _ _ Hd). cbn [fst snd heap log].
  rewrite bind_run, (run_load _ _ _ (lookup_fresh _ _ _)).
  cbn [fst snd heap log].
  rewrite bind_run, (run_ref_select _ _ _ _ (lookup_fresh _ _ _)).
  cbn [fst snd heap log].
  rewrite bind_run, (run_ref_copy _ _ _ (lookup_fresh _ _ _)).
  cbn [fst snd heap log].
  rewrite bind_run, (run_insert_first _ _ _ _ _ (lookup_fresh _ _ _)).
  cbn [fst snd heap log].
  rewrite bind_run, (run_load _ _ _ (lookup_inserted _ _ _ _)).
  cbn [fst snd heap log].
  rewrite bind_run, (run_ref_get_dummies 0%nat (mkState [d] []) d eq_refl).
  cbn [fst snd heap log].
  rewrite bind_run, (run_load _ _ _ (lookup_fresh _ _ _)).
  cbn [fst snd heap log].
  rewrite bind_run, (run_ref_select _ _ _ _ (lookup_fresh _ _ _)).
  cbn [fst snd heap log].
  rewrite bind_run, (run_ref_copy _ _ _ (lookup_fresh _ _ _)).
  cbn [fst snd heap log].
  rewrite bind_run, (run_insert_first _ _ _ _ _ (lookup_fresh _ _ _)).
  cbn [fst snd heap log].
  rewrite bind_run, (run_load _ _ _ (lookup_inserted _ _ _ _)).
  cbn [fst snd heap log].
  reflexivity.
Qed.

Lemma fit_mixed_keeps (extra : list string) (data r : ref) (s : state)
    (d : DataFrame) :
  heap s !! r = Some d ->
  heap (snd (fit_mixed extra data s)) !! r = Some d.
Proof.
  apply (quiet_keeps _ (fun _ => True)).
  intros n. apply quiet_fit_mixed.
Qed.

(** Table 9 computes from the rows of its argument alone. *)
Lemma table9_run (df : ref) (s : state) (d : DataFrame) :
  heap s !! df = Some d ->
  fst (table9_mixed_effects df s) = table9_of d.
Proof.
  intros Hd. unfold table9_mixed_effects, table9_of.
  destruct (negb HAS_STATSMODELS); [reflexivity |].
  rewrite bind_run, (run_ref_dropna _ _ _ _ Hd). cbn [fst snd heap log].
  rewrite bind_run, (run_ref_copy _ _ _ (lookup_fresh _ _ _)).
  cbn [fst snd heap log].
  rewrite bind_run, (run_load _ _ _ (lookup_fresh _ _ _)).
  cbn [fst snd heap log]. cbv zeta.
  destruct (len _ <? 10)%nat; [reflexivity |].
  destruct (nunique _ <? 2)%nat; [reflexivity |].
  rewrite bind_run, (run_ref_dropna _ _ _ _ (lookup_fresh _ _ _)).
  cbn [fst snd heap log].
  rewrite bind_run.
  rewrite (fit_mixed_run _ _ _ _ (lookup_fresh _ _ _)).
  destruct (on_frame (fit_mixed []) _) as [fit |]; [| reflexivity].
  match goal with
  | |- context [bind (ref_dropna _ ?r2) _ (snd (fit_mixed ?e ?r ?s0))] =>
      assert (Hk : heap (snd (fit_mixed e r s0)) !! r2
                   = Some (dropna ["height_cm"; "tournament_year"; "country"]
                             d))
        by (apply fit_mixed_keeps; cbn [heap];
            apply lookup_app_l_Some, list_lookup_middle; reflexivity);
      set (s1 := snd (fit_mixed e r s0)) in *
  end.
  rewrite bind_run, (run_ref_dropna _ _ _ _ Hk). cbn [fst snd heap log].
  rewrite bind_run, (run_load _ _ _ (lookup_fresh _ _ _)).
  cbn [fst snd heap log].
  destruct (_ && _)%bool; [| reflexivity].
  rewrite bind_run.
  rewrite (fit_mixed_run _ _ _ _ (lookup_fresh _ _ _)).
  destruct (on_frame (fit_mixed ["pop_height_birth_cohort"]) _);
    reflexivity.
Qed.






Lemma to_numeric_idem (c : cell) : to_numeric (to_numeric c) = to_numeric c.
Proof.
  destruct c as [| q | s | b]; simpl; try reflexivity.
  now destruct (parse_numeric s).
Qed.

(** A cell of a row after the coercion loop over the columns [cs]. *)
Lemma fold_coerce_get (cols cs : list string) (c : string) (r : row) :
  row_get c (fold_left (coerce_step cols) cs r)
  = if (str_in c cs && str_in c cols)%bool then to_numeric (row_get c r)
    else row_get c r.
Proof.
  revert r. induction cs as [| c0 cs IH]; intros r; [reflexivity |].
  cbn [fold_left]. rewrite IH. unfold str_in at 3. cbn [existsb].
  fold (str_in c cs). unfold coerce_step.
  destruct (String.eqb_spec c c0) as [-> | Hne]; cbn [orb].
  - destruct (str_in c0 cols) eqn:Hc.
    + rewrite row_get_set_eq, andb_true_r.
      destruct (str_in c0 cs); [apply to_numeric_idem | reflexivity].
    + now rewrite andb_false_r.
  - destruct (str_in c0 cols); [| reflexivity].
    now rewrite row_get_set_ne by congruence.
Qed.

Lemma figure_columns_same (c : string) :
  str_in c figure_numeric_columns = str_in c numeric_columns.
Proof.
  unfold str_in, figure_numeric_columns, numeric_columns. cbn [existsb].
  destruct (String.eqb c "height_cm"), (String.eqb c "tournament_year"),
    (String.eqb c "pop_height_birth_cohort"), (String.eqb c "height_excess"),
    (String.eqb c "era"), (String.eqb c "birth_year"),
    (String.eqb c "age_at_tournament"); reflexivity.
Qed.

Lemma figures_load_some (file : DataFrame) :
  let view :=
    mkDF (columns file)
      (map (fun r =>
              fold_left (coerce_step (columns file)) figure_numeric_columns r)
         (rows file)) in
  let v := df_filter (fun r => notna (row_get "height_cm" r)) view in
  figures_load (Some file) start
  = (if (len v =? 0)%nat then inl (SysExit 1) else inr 2%nat,
     mkState [view; v; v] []).
Proof.
  intros view v. unfold figures_load, start.
  rewrite bind_run. cbn [alloc heap log fst snd].
  change (List.length []) with 0%nat. rewrite app_nil_l.
  rewrite bind_run, coerce_columns_run. cbn [fst snd].
  fold view.
  change ((if (len v =? 0)%nat
           then ret (inl (SysExit 1)) else ret (inr 2%nat))
            (mkState [view; v; v] [])
          = (if (len v =? 0)%nat then inl (SysExit 1) else inr 2%nat,
             mkState [view; v; v] [])).
  destruct (len v =? 0)%nat; reflexivity.
Qed.

End Locality.

Lemma Forall2_filter_map {A B C : Type} (R : B -> C -> Prop)
    (p : B -> bool) (q : C -> bool) (f : A -> B) (g : A -> C)
    (l : list A) :
  (forall x, p (f x) = q (g x)) ->
  (forall x, R (f x) (g x)) ->
  Forall2 R (filter p (map f l)) (filter q (map g l)).
Proof.
  intros Hpq HR. induction l as [| x l IH]; simpl; [constructor |].
  rewrite <- Hpq. destruct (p (f x)); [constructor |]; auto.
Qed.

(** X12. Table 9 on a frame with the columns it reads: it is empty
    without statsmodels, with fewer than 10 rows complete in height,
    year and country, and with fewer than 2 countries; model 2 is
    reported only together with model 1 and only when at least 10 of
    those rows from at least 2 countries also have a population height;
    there is no other key. *)
Theorem table9_shape {L : Libs} (df : ref) (s : state) (d : DataFrame) :
  heap s !! df = Some d ->
  has_columns
    ["height_cm"; "tournament_year"; "country"; "category";
     "pop_height_birth_cohort"] d = true ->
  let results := fst (table9_mixed_effects df s) in
  let subset := dropna ["height_cm"; "tournament_year"; "country"] d in
  let subset_m2 :=
    dropna ["height_cm"; "tournament_year"; "pop_height_birth_cohort"]
      subset in
  (HAS_STATSMODELS = false \/ (len subset < 10)%nat
   \/ (nunique (col "country" subset) < 2)%nat -> results = [])
  /\ (has_key (KStr "model2") results = true ->
      has_key (KStr "model1") results = true
      /\ (10 <= len subset_m2)%nat
      /\ (2 <= nunique (col "country" subset_m2))%nat)
  /\ (forall k v, In (k, v) results ->
                  k = KStr "model1" \/ k = KStr "model2").
Proof.
  intros Hd _ results subset subset_m2. unfold results.
  rewrite (table9_run df s d Hd). unfold table9_of. cbv zeta.
  fold subset. fold subset_m2.
  destruct HAS_STATSMODELS; cbn [negb];
    [| repeat split; [discriminate | discriminate.. | intros k v []]].
  destruct (Nat.ltb_spec (len subset) 10) as [Hlt | Hge];
    [repeat split; [discriminate | discriminate.. | intros k v []] |].
  destruct (Nat.ltb_spec (nunique (col "country" subset)) 2) as [Hlt2 | Hge2];
    [repeat split; [discriminate | discriminate.. | intros k v []] |].
  destruct (on_frame (fit_mixed []) _) as [fit |];
    [| split; [intros [? | [? | ?]]; [discriminate | lia | lia] |
               split; [discriminate | intros k v []]]].
  destruct (Nat.leb_spec 10 (len subset_m2)) as [H10 | H10];
    destruct (Nat.leb_spec 2 (nunique (col "country" subset_m2)))
      as [H2 | H2]; cbn [andb];
    try destruct (on_frame (fit_mixed ["pop_height_birth_cohort"]) _);
    (split; [intros [? | [? | ?]]; [discriminate | lia | lia] |]);
    (split; [first [discriminate | intros _; repeat split; assumption] |]);
    simpl; intros k v Hin; intuition congruence.
Qed.


(** X14. The figure script loads the merged file as the analysis script
    does, although it coerces the numeric columns in another order: it
    exits with status 1 on exactly the inputs without a valid height,
    and otherwise draws from a frame with the same columns and, row by
    row and cell by cell, the same content as the frame the tables are
    computed from. *)
Theorem figures_use_the_rows_of_the_analysis {L : Libs} (file : DataFrame) :
  has_columns ["height_cm"] file = true ->
  match fst (figures_load (Some file) start) with
  | inl o => o = SysExit 1 /\ malformed (Some file) = true
  | inr r =>
      malformed (Some file) = false
      /\ exists v,
           heap (snd (figures_load (Some file) start)) !! r = Some v
           /\ columns v = columns (valid_rows file)
           /\ Forall2 (fun a b => forall c, row_get c a = row_get c b)
                (rows v) (rows (valid_rows file))
  end.
Proof.
  intros _. rewrite figures_load_some. cbv zeta. cbn [fst snd heap].
  set (view := mkDF (columns file) _).
  set (v := df_filter _ view).
  assert (Hcell : forall r c,
             row_get c (fold_left (coerce_step (columns file))
                          figure_numeric_columns r)
             = row_get c (coerce_row (columns file) r)).
  { intros r c. unfold coerce_row.
    now rewrite !fold_coerce_get, figure_columns_same. }
  assert (Hrows : Forall2 (fun a b => forall c, row_get c a = row_get c b)
                    (rows v) (rows (valid_rows file))).
  { unfold v, view, valid_rows, numeric_view, df_filter. cbn [rows].
    apply Forall2_filter_map.
    - intros r. now rewrite Hcell.
    - intros r c. apply Hcell. }
  assert (Hlen : len v = len (valid_rows file)).
  { unfold len. exact (Forall2_length Hrows). }
  destruct (Nat.eqb_spec (len v) 0) as [E | E].
  - split; [reflexivity |]. apply valid_rows_empty. congruence.
  - split.
    + destruct (malformed (Some file)) eqn:Hm; [| reflexivity].
      apply valid_rows_empty in Hm. congruence.
    + exists v. split; [reflexivity |]. split; [reflexivity | exact Hrows].
Qed.

(** X15. After loading, the numeric columns hold numbers or missing
    values only, and every row that the analyses see has a number as
    its height: no text is left for an aggregate to drop silently. *)
Theorem loaded_numeric_columns {L : Libs} (file : DataFrame) (r : row) :
  has_columns ["height_cm"] file = true ->
  In r (rows (valid_rows file)) ->
  (exists q, row_get "height_cm" r = Num q)
  /\ forall c, In c numeric_columns -> str_in c (columns file) = true ->
               row_get c r = NA \/ exists q, row_get c r = Num q.
Proof.
  intros Hcols Hin.
  unfold has_columns in Hcols. cbn [forallb] in Hcols.
  rewrite andb_true_r in Hcols.
  unfold valid_rows, numeric_view, df_filter in Hin. cbn [rows] in Hin.
  apply filter_In in Hin as [Hin Hh].
  apply in_map_iff in Hin as (r0 & <- & _).
  assert (Hnum : forall x, to_numeric x = NA \/ exists q, to_numeric x = Num q).
  { intros [| q | t | b]; simpl; eauto.
    destruct (parse_numeric t); eauto. }
  split.
  - destruct (Hnum (row_get "height_cm" r0)) as [E | E].
    + unfold coerce_row in Hh. rewrite fold_coerce_get, Hcols in Hh.
      change (str_in "height_cm" numeric_columns) with true in Hh.
      cbn [andb] in Hh. rewrite E in Hh. discriminate.
    + unfold coerce_row. rewrite fold_coerce_get, Hcols.
      change (str_in "height_cm" numeric_columns) with true.
      exact E.
  - intros c Hc Hcol. unfold coerce_row.
    rewrite fold_coerce_get, Hcol.
    apply str_in_In in Hc. rewrite Hc. cbn [andb]. apply Hnum.
Qed.

(* ================================================================== *)
(** * The dashboard builder on the results document *)
(* ================================================================== *)




Lemma country_slopes_entries (items acc out : pydict) :
  country_slopes items acc = Some out ->
  forall country data, In (country, data) items ->
    exists entry, country_slope data = Some entry.
Proof.
  revert acc. induction items as [| [c d] items IH];
    intros acc H country data; [intros [] |].
  cbn [country_slopes] in H.
  destruct (country_slope d) as [entry |] eqn:E; [| discriminate].
  intros [[= <- <-] | Hin]; [eauto | exact (IH _ H _ _ Hin)].
Qed.

Lemma country_slope_dict (data entry : pyobj) :
  country_slope data = Some entry -> exists d, data = PyDict d.
Proof.
  unfold country_slope. destruct data; try discriminate. eauto.
Qed.

Section Consumer.

Context {L : Libs}.






End Consumer.

(** X16. When the dashboard builder returns its callouts, the document
    it read holds the excess statistics of table 2, the BAT entry of
    table 7, the BAT year slopes of tables 3 and 4, and under every
    country of table 5 a fitted summary (no null); the callouts repeat
    the BAT breakpoint entry and the two slopes as they stand in the
    document. On a document that lacks one of these the builder
    raises. *)
Theorem dashboard_stats_need {L : Libs} (file : json) (stats : pydict) :
  build_analysis_stats file = Some stats ->
  let analysis := json_load file in
  exists excess bat unadjusted adjusted table5 slopes,
    getpath ["table2_descriptive"; "excess_by_category"] analysis
    = Some excess
    /\ getpath ["table7_breakpoint"; "BAT"] analysis = Some bat
    /\ getpath ["table3_unadjusted"; "BAT"; "coefficients";
                "tournament_year"; "estimate"] analysis = Some unadjusted
    /\ getpath ["table4_adjusted"; "BAT"; "coefficients";
                "tournament_year"; "estimate"] analysis = Some adjusted
    /\ getitem "table5_country" analysis = Some (PyDict table5)
    /\ (forall country data, In (country, data) table5 ->
          exists d, data = PyDict d)
    /\ dict_get (KStr "breakpoint_bat") stats = Some bat
    /\ dict_get (KStr "bat_unadjusted_slope") stats = Some unadjusted
    /\ dict_get (KStr "bat_adjusted_slope") stats = Some adjusted
    /\ dict_get (KStr "country_slopes") stats = Some (PyDict slopes).
Proof.
  intros H analysis. unfold build_analysis_stats in H. cbv zeta in H.
  fold analysis in H.
  repeat match type of H with
         | context [match ?x with _ => _ end] =>
             destruct x eqn:?; try discriminate H
         end.
  injection H as <-.
  do 6 eexists.
  repeat (split; [first [eassumption | reflexivity] |]).
  split.
  - intros country data Hin.
    match goal with
    | E : country_slopes _ [] = Some _ |- _ =>
        destruct (country_slopes_entries _ _ _ E _ _ Hin) as [entry He]
    end.
    exact (country_slope_dict _ _ He).
  - repeat split; reflexivity.
Qed.


(* ================================================================== *)
(** * The further properties on sample tables *)
(* ================================================================== *)

Section MoreInstances.

Import Sample.
Import Cases.

Lemma format_coef_on_summary_witness :
  exists res,
    safe_ols year_formula wk5 = Some res
    /\ exists d coefs,
         res = PyDict d
         /\ dict_get (KStr "coefficients") d = Some (PyDict coefs)
         /\ format_coef scaled_text (Some coefs) "tournament_year"
            = Some "1003 [-566, 767]"
         /\ format_coef scaled_text (Some coefs) "pop_height_birth_cohort"
            = Some "N/A".
Proof.
  assert (E : exists res, safe_ols year_formula wk5 = Some res)
    by (vm_compute; eauto).
  destruct E as [res E]. exists res. split; [exact E |].
  destruct (format_coef_on_summary scaled_text year_formula wk5 res E)
    as (d & coefs & model & Hd & Hc & Hall).
  exists d, coefs. split; [exact Hd |]. split; [exact Hc |].
  assert (Hcoefs : exists e1 e2,
             coefs = [(KStr "Intercept", e1); (KStr "tournament_year", e2)]
             /\ format_coef scaled_text
                  (Some [(KStr "Intercept", e1); (KStr "tournament_year", e2)])
                  "tournament_year" = Some "1003 [-566, 767]").
  { assert (Hres : exists d0 e1 e2,
               safe_ols year_formula wk5 = Some (PyDict d0)
               /\ dict_get (KStr "coefficients") d0
                  = Some (PyDict [(KStr "Intercept", e1);
                                  (KStr "tournament_year", e2)])
               /\ format_coef scaled_text
                    (Some [(KStr "Intercept", e1);
                           (KStr "tournament_year", e2)])
                    "tournament_year" = Some "1003 [-566, 767]")
      by (vm_compute; do 3 eexists; repeat split; reflexivity).
    destruct Hres as (d0 & e1 & e2 & E0 & Hc0 & Hf).
    rewrite E in E0. subst res. injection E0 as <-.
    rewrite Hc in Hc0. injection Hc0 as ->. eauto. }
  destruct Hcoefs as (e1 & e2 & -> & Hf).
  split; [exact Hf | reflexivity].
Defined.

Lemma table5_entries_witness :
  dict_get (KStr "AUS") (table5_country_regression aus12)
  = Some (opt_py (safe_ols year_formula
                    (where_eq "country" "AUS"
                       (complete_hy (where_eq "category" "BAT" aus12)))))
  /\ dict_get (KStr "ENG") (table5_country_regression aus12) = None.
Proof.
  split.
  - rewrite (table5_entries aus12 (KStr "AUS") eq_refl). reflexivity.
  - rewrite (table5_entries aus12 (KStr "ENG") eq_refl). reflexivity.
Defined.

Lemma table4_entries_witness :
  table4_adjusted_regression wk4 = []
  /\ dict_get (KStr "BAT") (table4_adjusted_regression bat12)
     = Some (opt_py (safe_ols adjusted_formula
                       (where_eq "category" "BAT"
                          (dropna ["height_cm"; "tournament_year";
                                   "pop_height_birth_cohort"] bat12))))
  /\ dict_get (KStr "WK") (table4_adjusted_regression bat12) = None.
Proof.
  split; [| split].
  - apply (proj1 (table4_entries wk4 eq_refl)). vm_compute. lia.
  - destruct (proj2 (table4_entries bat12 eq_refl)) as [_ H];
      [vm_compute; lia |].
    rewrite (H "BAT") by (simpl; auto). reflexivity.
  - destruct (proj2 (table4_entries bat12 eq_refl)) as [_ H];
      [vm_compute; lia |].
    rewrite (H "WK") by (simpl; auto). reflexivity.
Defined.

Lemma table6_shape_witness :
  table6_regional_anova wk4 = []
  /\ has_key (KStr "pairwise") (table6_regional_anova bat12) = true
  /\ has_key (KStr "region_descriptive") (table6_regional_anova bat12) = true.
Proof.
  split; [| split].
  - apply (proj1 (table6_shape wk4 eq_refl)). vm_compute. lia.
  - destruct (proj1 (proj2 (table6_shape bat12 eq_refl)))
      as (_ & _ & H); [vm_compute; lia |].
    rewrite H. reflexivity.
  - destruct (proj1 (proj2 (table6_shape bat12 eq_refl)))
      as (_ & H & _); [vm_compute; lia |].
    exact H.
Defined.

Lemma table7_entry_has_slopes_witness :
  exists entry,
    dict_get (KStr "BAT") (table7_breakpoint bat12) = Some (PyDict entry)
    /\ exists bp,
         dict_get (KStr "best_breakpoint") entry = Some (PyInt bp)
         /\ (5 <= len (pre_of bp (bp_slice "BAT" bat12)))%nat
         /\ (5 <= len (post_of bp (bp_slice "BAT" bat12)))%nat
         /\ has_key (KStr "pre_slope") entry = true
         /\ has_key (KStr "post_slope") entry = true.
Proof.
  assert (E : exists entry,
             dict_get (KStr "BAT") (table7_breakpoint bat12)
             = Some (PyDict entry)) by (vm_compute; eauto).
  destruct E as [entry E]. exists entry. split; [exact E |].
  destruct (table7_entry_has_slopes bat12 "BAT" entry eq_refl
              (or_introl eq_refl) E)
    as (bp & f & p & mpre & mpost & _ & Hpre & Hpost & _ & _ & Hb & Hs1 & Hs2).
  exists bp. split; [exact Hb |]. split; [exact Hpre |].
  split; [exact Hpost |]. unfold has_key. rewrite Hs1, Hs2. auto.
Defined.

Lemma table10_regressions_witness :
  dict_get (KStr "odi_only") (table10_sensitivity bat12)
  = safe_ols year_formula (where_eq "format" "ODI" bat12)
  /\ dict_get (KStr "t20_only") (table10_sensitivity wk5) = None
  /\ forall k v, In (k, v) (table10_sensitivity bat12) -> v <> PyNone.
Proof.
  split; [| split].
  - rewrite (proj1 (proj2 (proj2 (table10_regressions bat12 eq_refl)))).
    reflexivity.
  - rewrite (proj1 (proj2 (proj2 (proj2 (table10_regressions wk5 eq_refl))))).
    reflexivity.
  - exact (proj2 (proj2 (proj2 (proj2 (table10_regressions bat12 eq_refl))))).
Defined.

Lemma format_comparison_effect_size_unguarded_witness :
  exists entry,
    dict_get (KStr "format_comparison") (table10_sensitivity flat_formats)
    = Some (PyDict entry)
    /\ dict_get (KStr "cohens_d") entry = Some (PyFloat NInf).
Proof.
  destruct (format_comparison_effect_size_unguarded flat_formats (0 # 10000)
              eq_refl)
    as (entry & He & Hd);
    [ vm_compute; lia | vm_compute; lia | vm_compute; lia | vm_compute; lia
    | vm_compute; reflexivity | reflexivity | ].
  exists entry. split; [exact He |]. rewrite Hd. vm_compute. reflexivity.
Defined.

Lemma fig6_panel_matches_table7_witness :
  exists f p entry,
    fig6_panel "BAT" bat12 = Some (2003%Z, f, p)
    /\ dict_get (KStr "BAT") (table7_breakpoint bat12) = Some (PyDict entry)
    /\ dict_get (KStr "best_breakpoint") entry = Some (PyInt 2003)
    /\ dict_get (KStr "f_statistic") entry = Some (PyFloat (pyround f 4)).
Proof.
  assert (E : exists f p, fig6_panel "BAT" bat12 = Some (2003%Z, f, p))
    by (vm_compute; eauto).
  destruct E as (f & p & E).
  pose proof (fig6_panel_matches_table7 bat12 "BAT" eq_refl
                (or_introl eq_refl)) as H.
  rewrite E in H.
  destruct H as [_ [(entry & He & Hb & Hf & _) | (_ & Hbp & _)]].
  - exists f, p, entry. auto.
  - discriminate Hbp.
Defined.

Lemma country_panel_breakpoint_witness :
  exists f p,
    country_panel aus12 = Some (Some (2003%Z, f, p))
    /\ segment_drawn (pre_of 2003 aus12) = true
    /\ segment_drawn (post_of 2003 aus12) = true.
Proof.
  assert (E : exists f p, country_panel aus12 = Some (Some (2003%Z, f, p)))
    by (vm_compute; eauto).
  destruct E as (f & p & E).
  pose proof (country_panel_breakpoint aus12 eq_refl) as H.
  rewrite E in H. destruct H as (_ & _ & _ & _ & H1 & H2).
  exists f, p. auto.
Defined.

Lemma adjusted_slope_is_table4_slope_witness :
  exists s p entry,
    _adjusted_slope (complete_hy (where_eq "category" "BAT" bat12))
    = Some (Some (s, p))
    /\ dict_get (KStr "BAT") (table4_adjusted_regression bat12) = Some entry
    /\ getpath ["coefficients"; "tournament_year"; "estimate"] entry
       = Some (PyFloat (pyround s 4)).
Proof.
  assert (E : exists s p,
             _adjusted_slope (complete_hy (where_eq "category" "BAT" bat12))
             = Some (Some (s, p))) by (vm_compute; eauto).
  destruct E as (s & p & E).
  destruct (adjusted_slope_is_table4_slope bat12 "BAT" s p eq_refl
              (or_intror (or_introl eq_refl)) E)
    as (entry & He & Hs & _).
  exists s, p, entry. auto.
Defined.

Lemma table9_shape_witness :
  fst (table9_mixed_effects 0%nat (mkState [wk5] [])) = []
  /\ (has_key (KStr "model2")
        (fst (table9_mixed_effects 0%nat (mkState [bat12] []))) = true ->
      has_key (KStr "model1")
        (fst (table9_mixed_effects 0%nat (mkState [bat12] []))) = true).
Proof.
  split.
  - refine (proj1 (table9_shape 0%nat (mkState [wk5] []) wk5 eq_refl eq_refl)
              _).
    right. left. vm_compute. lia.
  - intros H.
    exact (proj1 (proj1 (proj2 (table9_shape 0%nat (mkState [bat12] []) bat12
                                  eq_refl eq_refl)) H)).
Defined.


Lemma figures_use_the_rows_of_the_analysis_witness :
  malformed (Some bat12) = false
  /\ exists v,
       heap (snd (figures_load (Some bat12) start)) !! 2%nat = Some v
       /\ Forall2 (fun a b => forall c, row_get c a = row_get c b)
            (rows v) (rows (valid_rows bat12)).
Proof.
  assert (E : fst (figures_load (Some bat12) start) = inr 2%nat)
    by (vm_compute; reflexivity).
  pose proof (figures_use_the_rows_of_the_analysis bat12 eq_refl) as H.
  rewrite E in H. destruct H as (Hm & v & Hv & _ & Hrows).
  split; [exact Hm |]. exists v. auto.
Defined.

Lemma loaded_numeric_columns_witness :
  exists q,
    row_get "height_cm"
      (coerce_row (columns bat12) (obs "BAT" "AUS" "Oceania" "ODI" 1 1992 178))
    = Num q.
Proof.
  refine (proj1 (loaded_numeric_columns bat12
                   (coerce_row (columns bat12)
                      (obs "BAT" "AUS" "Oceania" "ODI" 1 1992 178))
                   eq_refl _)).
  unfold valid_rows, numeric_view, df_filter. cbn [rows].
  apply filter_In. split; [| vm_compute; reflexivity].
  apply in_map. unfold bat12. cbn [rows]. now left.
Defined.

Lemma dashboard_stats_need_witness :
  exists stats bat,
    build_analysis_stats (document_of squad15) = Some stats
    /\ getpath ["table7_breakpoint"; "BAT"]
         (json_load (document_of squad15)) = Some bat
    /\ dict_get (KStr "breakpoint_bat") stats = Some bat.
Proof.
  assert (E : exists stats,
             build_analysis_stats (document_of squad15) = Some stats)
    by (vm_compute; eauto).
  destruct E as [stats E].
  destruct (dashboard_stats_need (document_of squad15) stats E)
    as (excess & bat & unadj & adj & t5 & slopes & _ & Hbat & _ & _ & _ & _
        & Hs & _).
  exists stats, bat. auto.
Defined.


End MoreInstances.
